(** * Faculty preference system: a shallow embedding of [Faculty_DashBoard/app.py]

    The application is a Streamlit script over four CSV files handled with
    pandas.  The embedding has three layers:

    - the fragment of pandas the script uses: data frames of string cells
      with NaN, boolean indexing, [pd.DataFrame(list of dict)], [pd.concat],
      [groupby(..).size()], [read_csv(dtype=str)] and [to_csv];
    - the four persisted files and the script's module-level data frames,
      threaded through a state-and-exception monad (a file written before
      an exception stays written);
    - the blocks of the script, under the names the script gives them, each
      with the lines of [app.py] it renders.

    Conventions.  Python [str] values are [string]s (their UTF-8 bytes); a
    file is a header and lines of fields, not bytes, so quoting and line
    ends are not represented.  The values of buttons and widgets are inputs
    of the blocks.  The tables of the properties are the data frames of
    the script: the frame a block loads, which is the file as the program
    reads it, and, where a property says so, the frame it writes.  A file
    holds what [to_csv] made of the frame written, and reading a file
    turns the fields that are NA tokens into missing cells, names the
    header fields that are empty and numbers those that repeat.

    Left out, because they only display: [st.dataframe], the download
    buttons, the charts and pivots of the admin view, the emoji of the
    messages.  Left out as well: the admin password.  [load_subjects] and
    [load_faculty] are the functions under [st.cache_data]; the cache, and
    the run of the script with it, come after the script ([cache_data],
    [cached_run]).  The summary of the admin view and the list of previous
    submissions of the student section are embedded apart, with the
    vocabulary of the further properties; [student_section] and [script]
    are the script without that list, which reads the choices and writes
    nothing. *)

From Stdlib Require Import String Ascii Bool Arith Lia List.
From Stdlib Require Import Permutation.
From Stdlib Require DecimalString DecimalNat.
Import ListNotations.
Open Scope string_scope.
Open Scope list_scope.

Set Implicit Arguments.

(** ** Python exceptions and results *)

Inductive exn : Type :=
| FileNotFoundError
| EmptyDataError
| ParserError
| KeyError (key : string)
| DuplicateWidgetID (key : string)
| StopException
| RerunException.

Inductive result (A : Type) : Type :=
| Ok (a : A)
| Raise (e : exn).

Arguments Ok {A} a.
Arguments Raise {A} e.

(** [except Exception] catches everything the script can raise except
    Streamlit's script-control exceptions, those of [st.stop()] and
    [st.rerun()]. *)
Definition is_Exception (e : exn) : bool :=
  match e with
  | StopException | RerunException => false
  | _ => true
  end.

Definition rbind {A B : Type} (r : result A) (k : A -> result B) : result B :=
  match r with
  | Ok a => k a
  | Raise e => Raise e
  end.

Fixpoint rmap {A B : Type} (f : A -> result B) (l : list A) : result (list B) :=
  match l with
  | [] => Ok []
  | x :: l' =>
      rbind (f x) (fun y => rbind (rmap f l') (fun ys => Ok (y :: ys)))
  end.

(** ** Cells, series and data frames *)

Module Pandas.

(** A cell of a frame read with [dtype=str]: a string, or NaN. *)
Definition cell : Type := option string.

Definition NaN : cell := None.

(** [str(x)] of a cell, as used by f-strings and [astype(str)]. *)
Definition str (c : cell) : string :=
  match c with
  | Some s => s
  | None => "nan"
  end.

(** [c == v] for a string [v]: NaN equals nothing. *)
Definition eq_str (c : cell) (v : string) : bool :=
  match c with
  | Some s => String.eqb s v
  | None => false
  end.

(** Equality of cells as [isin], [unique] and [groupby] use it: NaN matches
    NaN. *)
Definition cell_eqb (a b : cell) : bool :=
  match a, b with
  | Some x, Some y => String.eqb x y
  | None, None => true
  | _, _ => false
  end.

Definition series : Type := list cell.

Record DataFrame : Type := mkDataFrame {
  columns : list string;
  rows : list (list cell)
}.

(** [pd.DataFrame(columns=headers)] *)
Definition DataFrame_columns (headers : list string) : DataFrame :=
  {| columns := headers; rows := [] |}.

(** [pd.DataFrame()] *)
Definition DataFrame_nil : DataFrame := {| columns := []; rows := [] |}.

(** [df.empty]: some axis has length 0. *)
Definition empty (df : DataFrame) : bool :=
  Nat.eqb (length (columns df)) 0 || Nat.eqb (length (rows df)) 0.

(** [df.shape[1]] *)
Definition shape1 (df : DataFrame) : nat := length (columns df).

Definition mem (name : string) (l : list string) : bool :=
  existsb (String.eqb name) l.

(** Position of the first column labelled [name]. *)
Fixpoint col_index (name : string) (cols : list string) : option nat :=
  match cols with
  | [] => None
  | c :: cols' =>
      if String.eqb name c then Some 0
      else option_map S (col_index name cols')
  end.

(** [row[name]] for a row of a frame with columns [cols]. *)
Definition row_getitem (cols : list string) (row : list cell) (name : string)
  : result cell :=
  match col_index name cols with
  | Some i => Ok (nth i row NaN)
  | None => Raise (KeyError name)
  end.

(** The cell of [row] under [name], NaN where there is no such column. *)
Definition cell_at (cols : list string) (name : string) (row : list cell) : cell :=
  match col_index name cols with
  | Some i => nth i row NaN
  | None => NaN
  end.

(** [df[name]] *)
Definition getitem (df : DataFrame) (name : string) : result series :=
  match col_index name (columns df) with
  | Some i => Ok (map (fun r => nth i r NaN) (rows df))
  | None => Raise (KeyError name)
  end.

(** [df.iloc[:,0]] on a frame that has a column. *)
Definition iloc_col0 (df : DataFrame) : series :=
  map (fun r => nth 0 r NaN) (rows df).

(** Element-wise comparisons and connectives on series. *)
Definition series_eq (s : series) (v : string) : list bool :=
  map (fun c => eq_str c v) s.

Definition series_ne (s : series) (v : string) : list bool :=
  map (fun c => negb (eq_str c v)) s.

Definition isin (s : series) (values : list cell) : list bool :=
  map (fun c => existsb (cell_eqb c) values) s.

Fixpoint mask_and (a b : list bool) : list bool :=
  match a, b with
  | x :: a', y :: b' => (x && y) :: mask_and a' b'
  | _, _ => []
  end.

Definition mask_not (a : list bool) : list bool := map negb a.

(** [df[mask]]: boolean indexing. *)
Fixpoint select {A : Type} (l : list A) (mask : list bool) : list A :=
  match l, mask with
  | x :: l', b :: mask' => if b then x :: select l' mask' else select l' mask'
  | _, _ => []
  end.

Definition boolean_index (df : DataFrame) (mask : list bool) : DataFrame :=
  {| columns := columns df; rows := select (rows df) mask |}.

(** [df.rename(columns={old: new})] *)
Definition rename (df : DataFrame) (old new : string) : DataFrame :=
  {| columns := map (fun c => if String.eqb c old then new else c) (columns df);
     rows := rows df |}.

(** A Python dict with string keys, in insertion order. *)
Definition record : Type := list (string * cell).

Fixpoint dict_get (r : record) (k : string) : cell :=
  match r with
  | [] => NaN
  | (k', v) :: r' => if String.eqb k k' then v else dict_get r' k
  end.

(** Labels of [new] not yet in [seen], appended in order. *)
Fixpoint add_labels (seen new : list string) : list string :=
  match new with
  | [] => seen
  | k :: new' => if mem k seen then add_labels seen new'
                 else add_labels (seen ++ [k]) new'
  end.

Definition record_columns (recs : list record) : list string :=
  fold_left (fun acc r => add_labels acc (map fst r)) recs [].

(** [pd.DataFrame(recs)] for a list of dicts: the columns are the keys in
    order of first appearance, a key a dict lacks gives NaN. *)
Definition from_records (recs : list record) : DataFrame :=
  let cols := record_columns recs in
  {| columns := cols;
     rows := map (fun r => map (dict_get r) cols) recs |}.

Definition reindex (cols cols' : list string) (row : list cell) : list cell :=
  map (fun c => cell_at cols c row) cols'.

(** [pd.concat([a, b], ignore_index=True)]: union of the columns, rows of
    [a] then rows of [b], NaN where a frame lacks a column. *)
Definition concat (a b : DataFrame) : DataFrame :=
  let cols := add_labels (columns a) (columns b) in
  {| columns := cols;
     rows := map (reindex (columns a) cols) (rows a)
             ++ map (reindex (columns b) cols) (rows b) |}.

(** [series.dropna()] and [.unique()] (order of first appearance). *)
Fixpoint dropna (s : series) : list string :=
  match s with
  | [] => []
  | Some x :: s' => x :: dropna s'
  | None :: s' => dropna s'
  end.

Fixpoint unique (l : list string) : list string :=
  match l with
  | [] => []
  | x :: l' => x :: filter (fun y => negb (String.eqb y x)) (unique l')
  end.

(** Python's [sorted] on strings. *)
Fixpoint insert_sorted (x : string) (l : list string) : list string :=
  match l with
  | [] => [x]
  | y :: l' => if String.leb x y then x :: l else y :: insert_sorted x l'
  end.

Fixpoint sorted (l : list string) : list string :=
  match l with
  | [] => []
  | x :: l' => insert_sorted x (sorted l')
  end.

Definition count_str (x : string) (l : list string) : nat :=
  length (filter (String.eqb x) l).

(** [df.groupby(name).size().reset_index(name=..)]: one line per distinct
    non-NaN key, keys sorted, with the number of rows carrying it. *)
Definition groupby_size (df : DataFrame) (name : string)
  : result (list (string * nat)) :=
  rbind (getitem df name) (fun s =>
    let keys := dropna s in
    Ok (map (fun k => (k, count_str k keys)) (sorted (unique keys)))).

(** Every row has one cell per column. *)
Definition wf (df : DataFrame) : Prop :=
  Forall (fun r => length r = length (columns df)) (rows df).

End Pandas.

(** ** CSV files *)

Module Csv.

(** What a path or an upload holds, as far as [read_csv] can tell: bytes it
    raises on, or lines of fields, the first of them apart.  A line without
    a field is a blank line. *)
Inductive content : Type :=
| Unreadable
| Table (header : list string) (lines : list (list string)).

(** [df.to_csv(path, index=False)]: NaN is written as the empty field. *)
Definition na_rep (c : Pandas.cell) : string :=
  match c with
  | Some s => s
  | None => ""
  end.

Definition to_csv (df : Pandas.DataFrame) : content :=
  Table (Pandas.columns df) (map (map na_rep) (Pandas.rows df)).

(** *** The labels of the columns

    [read_csv] (pandas 2, [TextReader._get_header]) names an empty header
    field by its position and numbers a label it has given before. *)

(** [str(n)] *)
Definition str_of_nat (n : nat) : string :=
  DecimalString.NilEmpty.string_of_uint (Nat.to_uint n).

(** [counts = defaultdict(int)] *)
Definition counts : Type := list (string * nat).

Fixpoint count_of (cnt : counts) (col : string) : nat :=
  match cnt with
  | [] => 0
  | (k, n) :: cnt' => if String.eqb k col then n else count_of cnt' col
  end.

Definition set_count (cnt : counts) (col : string) (n : nat) : counts :=
  (col, n) :: cnt.

(** [this_header[i] = col] *)
Fixpoint set_nth (i : nat) (col : string) (l : list string) : list string :=
  match l, i with
  | [], _ => []
  | _ :: l', 0 => col :: l'
  | x :: l', S i' => x :: set_nth i' col l'
  end.

(** The loop
[[
    while cur_count > 0:
        counts[old_col] = cur_count + 1
        col = f"{old_col}.{cur_count}"
        if col in this_header: cur_count += 1
        else: cur_count = counts[col]
]]
    which ends within [length this_header + 1] turns (lemma
    [number_spec]). *)
Fixpoint number (fuel : nat) (this_header : list string) (old_col : string)
    (cnt : counts) (cur_count : nat) (col : string) : string * nat * counts :=
  match fuel with
  | 0 => (col, cur_count, cnt)
  | S fuel' =>
      if Nat.eqb cur_count 0 then (col, cur_count, cnt)
      else
        let cnt := set_count cnt old_col (cur_count + 1) in
        let col := (old_col ++ "." ++ str_of_nat cur_count)%string in
        if Pandas.mem col this_header
        then number fuel' this_header old_col cnt (cur_count + 1) col
        else number fuel' this_header old_col cnt (count_of cnt col) col
  end.

(** One turn of [for i in col_loop_order]. *)
Definition dedup_at (acc : list string * counts) (i : nat)
  : list string * counts :=
  let (this_header, cnt) := acc in
  let col := nth i this_header "" in
  let '(col', cur_count, cnt') :=
    number (S (S (length this_header))) this_header col cnt (count_of cnt col)
           col in
  (set_nth i col' this_header, set_count cnt' col' (cur_count + 1)).

Definition is_unnamed (header : list string) (i : nat) : bool :=
  String.eqb (nth i header "") "".

(** The named columns first, the unnamed ones after them. *)
Definition col_loop_order (header : list string) : list nat :=
  filter (fun i => negb (is_unnamed header i)) (seq 0 (length header))
  ++ filter (is_unnamed header) (seq 0 (length header)).

Definition labels (header : list string) : list string :=
  let this_header :=
    map (fun i => if is_unnamed header i
                  then ("Unnamed: " ++ str_of_nat i)%string
                  else nth i header "")
        (seq 0 (length header)) in
  fst (fold_left dedup_at (col_loop_order header) (this_header, [])).

Section Reader.

(** The fields [read_csv] takes for missing values.  The script passes
    [dtype=str] and leaves the NA filter on. *)
Variable is_na : string -> bool.

Definition parse_field (s : string) : Pandas.cell :=
  if is_na s then Pandas.NaN else Some s.

(** A line shorter than the others is filled with NaN. *)
Definition parse_line (width : nat) (line : list string) : list Pandas.cell :=
  map parse_field line ++ repeat Pandas.NaN (width - length line).

Definition too_long (width : nat) (line : list string) : bool :=
  Nat.ltb width (length line).

(** [skip_blank_lines=True] *)
Definition blank (line : list string) : bool :=
  match line with
  | [] => true
  | _ :: _ => false
  end.

(** The number of fields the tokenizer expects in every line under the
    header: the first of them may be longer than the header. *)
Definition width (header : list string) (lines : list (list string)) : nat :=
  match lines with
  | [] => length header
  | first :: _ => Nat.max (length header) (length first)
  end.

(** The fields a line has in front of the labelled ones are the index of
    the frame, which the script never reads and [to_csv(index=False)]
    leaves out. *)
Definition parse_row (width leading : nat) (line : list string)
  : list Pandas.cell :=
  skipn leading (parse_line width line).

(** [pd.read_csv(f, dtype=str)] on the content of an existing file: the
    first line that is not blank is the header; a later line longer than
    the first line under the header raises. *)
Definition parse (c : content) : result Pandas.DataFrame :=
  match c with
  | Unreadable => Raise ParserError
  | Table header lines =>
      match filter (fun line => negb (blank line)) (header :: lines) with
      | [] => Raise EmptyDataError
      | header :: lines =>
          let width := width header lines in
          if existsb (too_long width) lines then Raise ParserError
          else Ok {| Pandas.columns := labels header;
                     Pandas.rows :=
                       map (parse_row width (width - length header)) lines |}
      end
  end.

(** [pd.read_csv(path, dtype=str)]: a missing path raises. *)
Definition read_csv (f : option content) : result Pandas.DataFrame :=
  match f with
  | None => Raise FileNotFoundError
  | Some c => parse c
  end.

End Reader.

(** The default NA tokens of pandas' reader. *)
Definition STR_NA_VALUES : list string :=
  [ ""; "#N/A"; "#N/A N/A"; "#NA"; "-1.#IND"; "-1.#QNAN"; "-NaN"; "-nan";
    "1.#IND"; "1.#QNAN"; "<NA>"; "N/A"; "NA"; "NULL"; "NaN"; "None"; "n/a";
    "nan"; "null" ].

Definition default_na (s : string) : bool := Pandas.mem s STR_NA_VALUES.

End Csv.

(** ** Persistent data directory and filenames *)

Inductive path : Type :=
| SUBJECTS_FILE
| FACULTY_FILE
| CHOICE_FILE
| FAC_AVAIL_FILE.

(** The [data] directory: what each of the four paths holds, [None] for a
    path that does not exist. *)
Record store : Type := mkStore {
  subjects_csv : option Csv.content;
  faculty_list_csv : option Csv.content;
  student_choices_csv : option Csv.content;
  faculty_availability_csv : option Csv.content
}.

Definition read_path (fs : store) (p : path) : option Csv.content :=
  match p with
  | SUBJECTS_FILE => subjects_csv fs
  | FACULTY_FILE => faculty_list_csv fs
  | CHOICE_FILE => student_choices_csv fs
  | FAC_AVAIL_FILE => faculty_availability_csv fs
  end.

Definition write_path (fs : store) (p : path) (c : option Csv.content) : store :=
  match p with
  | SUBJECTS_FILE =>
      mkStore c (faculty_list_csv fs) (student_choices_csv fs)
              (faculty_availability_csv fs)
  | FACULTY_FILE =>
      mkStore (subjects_csv fs) c (student_choices_csv fs)
              (faculty_availability_csv fs)
  | CHOICE_FILE =>
      mkStore (subjects_csv fs) (faculty_list_csv fs) c
              (faculty_availability_csv fs)
  | FAC_AVAIL_FILE =>
      mkStore (subjects_csv fs) (faculty_list_csv fs) (student_choices_csv fs) c
  end.

Definition SUBJECT_COLUMNS : list string :=
  ["Year"; "Subject_Code"; "Subject_Name"].

Definition FACULTY_COLUMNS : list string := ["Faculty_Name"].

Definition CHOICE_COLUMNS : list string :=
  ["Regd_No"; "Name"; "Year"; "Section"; "Subject_Code"; "Subject_Name";
   "Faculty_Selected"].

Definition AVAIL_COLUMNS : list string :=
  ["Faculty_Name"; "Subject_Code"; "Subject_Name"; "Available"].

(** ** The script's state *)

(** What Streamlit shows: messages, and the select boxes of the forms with
    the options they offer. *)
Inductive ui_event : Type :=
| st_error (msg : string)
| st_success (msg : string)
| st_warning (msg : string)
| st_info (msg : string)
| st_selectbox (label : string) (options : list string) (key : string).

(** The module-level variables the blocks read and assign, the data
    directory, and the page rendered so far. *)
Record state : Type := mkState {
  fs : store;
  subjects_df : Pandas.DataFrame;
  faculty_df : Pandas.DataFrame;
  choices_df : Pandas.DataFrame;
  avail_df : Pandas.DataFrame;
  page : list ui_event
}.

Definition set_fs (f : store) (s : state) : state :=
  mkState f (subjects_df s) (faculty_df s) (choices_df s) (avail_df s) (page s).
Definition set_subjects_df (d : Pandas.DataFrame) (s : state) : state :=
  mkState (fs s) d (faculty_df s) (choices_df s) (avail_df s) (page s).
Definition set_faculty_df (d : Pandas.DataFrame) (s : state) : state :=
  mkState (fs s) (subjects_df s) d (choices_df s) (avail_df s) (page s).
Definition set_choices_df (d : Pandas.DataFrame) (s : state) : state :=
  mkState (fs s) (subjects_df s) (faculty_df s) d (avail_df s) (page s).
Definition set_avail_df (d : Pandas.DataFrame) (s : state) : state :=
  mkState (fs s) (subjects_df s) (faculty_df s) (choices_df s) d (page s).
Definition show (e : ui_event) (s : state) : state :=
  mkState (fs s) (subjects_df s) (faculty_df s) (choices_df s) (avail_df s)
          (page s ++ [e]).

(** A block of the script: it ends normally or by an exception, and either
    way leaves a state behind. *)
Definition M (A : Type) : Type := state -> result A * state.

Definition ret {A : Type} (a : A) : M A := fun s => (Ok a, s).

Definition bind {A B : Type} (m : M A) (k : A -> M B) : M B :=
  fun s =>
    match m s with
    | (Ok a, s') => k a s'
    | (Raise e, s') => (Raise e, s')
    end.

Definition raise {A : Type} (e : exn) : M A := fun s => (Raise e, s).

Definition lift {A : Type} (r : result A) : M A := fun s => (r, s).

Definition gets {A : Type} (f : state -> A) : M A := fun s => (Ok (f s), s).

Definition modify (f : state -> state) : M unit := fun s => (Ok tt, f s).

(** [try: body except Exception as e: handler e] *)
Definition try_except {A : Type} (body : M A) (handler : exn -> M A) : M A :=
  fun s =>
    match body s with
    | (Ok a, s') => (Ok a, s')
    | (Raise e, s') => if is_Exception e then handler e s' else (Raise e, s')
    end.

Declare Scope script_scope.
Delimit Scope script_scope with script.
Notation "x <- m ;; k" := (bind m (fun x => k))
  (at level 61, m at next level, right associativity) : script_scope.
Notation "m ;; k" := (bind m (fun _ => k))
  (at level 61, right associativity) : script_scope.
Notation "'When' b 'Then' m" := (if b then m else ret tt)
  (at level 61, b at next level, right associativity) : script_scope.
Open Scope script_scope.

Definition st (e : ui_event) : M unit := modify (show e).

(** [st.stop()] and [st.rerun()] end the run. *)
Definition st_stop {A : Type} : M A := raise StopException.
Definition st_rerun {A : Type} : M A := raise RerunException.

(** [for x in l: f x], collecting the results. *)
Fixpoint for_each {A B : Type} (f : A -> M B) (l : list A) : M (list B) :=
  match l with
  | [] => ret []
  | x :: l' => y <- f x;; ys <- for_each f l';; ret (y :: ys)
  end.

(** ** Strings *)

Definition is_upper (c : ascii) : bool :=
  (65 <=? nat_of_ascii c)%nat && (nat_of_ascii c <=? 90)%nat.

Definition lower_ascii (c : ascii) : ascii :=
  if is_upper c then ascii_of_nat (nat_of_ascii c + 32) else c.

(** [s.lower()] on the ASCII letters.  The script compares what it lowers
    with "yes" and looks for "name" in it; no other character lowers to one
    of the letters of these words. *)
Fixpoint lower (s : string) : string :=
  match s with
  | EmptyString => EmptyString
  | String c s' => String (lower_ascii c) (lower s')
  end.

(** [needle in s] *)
Fixpoint contains (needle s : string) : bool :=
  String.prefix needle s ||
  match s with
  | EmptyString => false
  | String _ s' => contains needle s'
  end.

(** The white space of [str.strip()], in UTF-8: the ASCII characters
    U+0009 to U+000D and U+001C to U+0020 are one byte, U+0085 and U+00A0
    two, and U+1680, U+2000 to U+200A, U+2028, U+2029, U+202F, U+205F and
    U+3000 three. *)
Definition is_space (c : ascii) : bool :=
  let n := nat_of_ascii c in
  ((9 <=? n)%nat && (n <=? 13)%nat) || ((28 <=? n)%nat && (n <=? 32)%nat).

Definition is_space2 (a b : ascii) : bool :=
  Nat.eqb (nat_of_ascii a) 194
  && (Nat.eqb (nat_of_ascii b) 133 || Nat.eqb (nat_of_ascii b) 160).

Definition is_space3 (a b c : ascii) : bool :=
  let x := nat_of_ascii a in
  let y := nat_of_ascii b in
  let z := nat_of_ascii c in
  (Nat.eqb x 225 && Nat.eqb y 154 && Nat.eqb z 128)
  || (Nat.eqb x 226 && Nat.eqb y 128
      && (((128 <=? z)%nat && (z <=? 138)%nat)
          || Nat.eqb z 168 || Nat.eqb z 169 || Nat.eqb z 175))
  || (Nat.eqb x 226 && Nat.eqb y 129 && Nat.eqb z 159)
  || (Nat.eqb x 227 && Nat.eqb y 128 && Nat.eqb z 128).

(** The string without the white space in front of it, for characters of
    one byte ([is_space]), two ([sp2]) and three ([sp3]). *)
Fixpoint lstrip_with (sp2 : ascii -> ascii -> bool)
    (sp3 : ascii -> ascii -> ascii -> bool) (s : string) : string :=
  match s with
  | EmptyString => EmptyString
  | String a s1 =>
      if is_space a then lstrip_with sp2 sp3 s1
      else
        match s1 with
        | EmptyString => s
        | String b s2 =>
            if sp2 a b then lstrip_with sp2 sp3 s2
            else
              match s2 with
              | EmptyString => s
              | String c s3 =>
                  if sp3 a b c then lstrip_with sp2 sp3 s3 else s
              end
        end
  end.

Definition reverse (s : string) : string :=
  string_of_list_ascii (rev (list_ascii_of_string s)).

Definition lstrip (s : string) : string := lstrip_with is_space2 is_space3 s.

(** From the end the bytes of a character come last one first. *)
Definition rstrip (s : string) : string :=
  reverse (lstrip_with (fun a b => is_space2 b a)
                       (fun a b c => is_space3 c b a) (reverse s)).

(** [s.strip()] *)
Definition strip (s : string) : string := rstrip (lstrip s).

(** ** Widgets *)

(** The values the session holds for the widgets of a form, by key (or
    label): what the user has set under the key, whichever run and form
    showed the widget. *)
Definition widgets : Type := string -> option string.

(** The value of a select box: the user's choice when it is one of the
    options, the option at the default index otherwise, and no value when
    there is none. *)
Definition pick (options : list string) (index : nat) (chosen : option string)
  : Pandas.cell :=
  match chosen with
  | Some v => if Pandas.mem v options then Some v else nth_error options index
  | None => nth_error options index
  end.

Definition widget_keys (pg : list ui_event) : list string :=
  flat_map (fun e => match e with
                     | st_selectbox _ _ k => [k]
                     | _ => []
                     end) pg.

(** [st.selectbox(label, options, index=index, key=key)]: a key already on
    the page is refused. *)
Definition selectbox (user : widgets) (label : string) (options : list string)
    (index : nat) (key : string) : M Pandas.cell :=
  fun s =>
    if Pandas.mem key (widget_keys (page s))
    then (Raise (DuplicateWidgetID key), s)
    else (Ok (pick options index (user key)),
          show (st_selectbox label options key) s).

(** ** The script *)

Section Script.

(** The NA filter of the installed pandas. *)
Variable is_na : string -> bool.

Definition read_file (p : path) : M Pandas.DataFrame :=
  fun s => (Csv.read_csv is_na (read_path (fs s) p), s).

Definition save_df_to_csv (df : Pandas.DataFrame) (p : path) : M unit :=
  modify (fun s => set_fs (write_path (fs s) p (Some (Csv.to_csv df))) s).

(** Lines 23-26. *)
Definition ensure_file_with_headers (p : path) (headers : list string) : M unit :=
  f <- gets (fun s => read_path (fs s) p);;
  match f with
  | Some _ => ret tt
  | None => save_df_to_csv (Pandas.DataFrame_columns headers) p
  end.

(** Lines 28-32. *)
Definition ensure_data_files : M unit :=
  ensure_file_with_headers SUBJECTS_FILE SUBJECT_COLUMNS;;
  ensure_file_with_headers FACULTY_FILE FACULTY_COLUMNS;;
  ensure_file_with_headers CHOICE_FILE CHOICE_COLUMNS;;
  ensure_file_with_headers FAC_AVAIL_FILE AVAIL_COLUMNS.

(** *** Helper functions (lines 45-77)

    [load_subjects] and [load_faculty] are the functions as defined at
    lines 46-50 and 53-61; the decorator of lines 45 and 52 is
    [cache_data] below. *)

Definition load_subjects : M Pandas.DataFrame :=
  try_except (read_file SUBJECTS_FILE)
             (fun _ => ret (Pandas.DataFrame_columns SUBJECT_COLUMNS)).

Definition load_faculty : M Pandas.DataFrame :=
  try_except
    (df <- read_file FACULTY_FILE;;
     ret (if negb (Pandas.mem "Faculty_Name" (Pandas.columns df))
             && Nat.ltb 0 (Pandas.shape1 df)
          then Pandas.rename df (hd "" (Pandas.columns df)) "Faculty_Name"
          else df))
    (fun _ => ret (Pandas.DataFrame_columns FACULTY_COLUMNS)).

Definition load_choices : M Pandas.DataFrame :=
  try_except (read_file CHOICE_FILE)
             (fun _ => ret (Pandas.DataFrame_columns CHOICE_COLUMNS)).

Definition load_availability : M Pandas.DataFrame :=
  try_except (read_file FAC_AVAIL_FILE)
             (fun _ => ret (Pandas.DataFrame_columns AVAIL_COLUMNS)).

(** *** Availability defaults *)

Definition availability_row (fname scode sname available : Pandas.cell)
  : Pandas.record :=
  [ ("Faculty_Name", fname); ("Subject_Code", scode); ("Subject_Name", sname);
    ("Available", available) ].

(** [frow.get("Faculty_Name") if "Faculty_Name" in frow.index else frow.iloc[0]] *)
Definition fname_of (cols : list string) (frow : list Pandas.cell) : Pandas.cell :=
  if Pandas.mem "Faculty_Name" cols
  then Pandas.cell_at cols "Faculty_Name" frow
  else nth 0 frow Pandas.NaN.

(** The loop over [subjects_df.iterrows()] that appends one "Yes" row per
    subject for one faculty name (lines 117-123, 300-306 and 359-365). *)
Definition default_rows (fname : Pandas.cell) (subjects : Pandas.DataFrame)
  : result (list Pandas.record) :=
  rmap (fun srow =>
          rbind (Pandas.row_getitem (Pandas.columns subjects) srow "Subject_Code")
            (fun scode =>
          rbind (Pandas.row_getitem (Pandas.columns subjects) srow "Subject_Name")
            (fun sname =>
          Ok (availability_row fname scode sname (Some "Yes")))))
       (Pandas.rows subjects).

(** The loop over [faculty_df.iterrows()] around it (lines 115-123 and
    298-306). *)
Definition default_availability (faculty subjects : Pandas.DataFrame)
  : result (list Pandas.record) :=
  rbind (rmap (fun frow =>
                 default_rows (fname_of (Pandas.columns faculty) frow) subjects)
              (Pandas.rows faculty))
        (fun per_faculty => Ok (List.concat per_faculty)).

(** Lines 109-125. *)
Definition initialize_availability_if_empty : M unit :=
  faculty <- gets faculty_df;;
  subjects <- gets subjects_df;;
  if Pandas.empty faculty || Pandas.empty subjects then ret tt
  else
    avail <- gets avail_df;;
    When (Pandas.empty avail) Then
      (rows <- lift (default_availability faculty subjects);;
       modify (set_avail_df (Pandas.from_records rows));;
       save_df_to_csv (Pandas.from_records rows) FAC_AVAIL_FILE).

(** Lines 103-106: the module-level data frames are loaded, here by calls
    that read the files; [load_existing_dataframes_cached] below has the
    calls through the cache. *)
Definition load_existing_dataframes : M unit :=
  d <- load_subjects;; modify (set_subjects_df d);;
  d <- load_faculty;; modify (set_faculty_df d);;
  d <- load_choices;; modify (set_choices_df d);;
  d <- load_availability;; modify (set_avail_df d).

(** *** Admin view *)

Definition issubset (required cols : list string) : bool :=
  forallb (fun c => Pandas.mem c cols) required.

(** The block under [if uploaded_subjects is not None], lines 140-154.
    The text of the caught exception is not part of the message. *)
Definition uploaded_subjects (upload : option Csv.content) : M unit :=
  match upload with
  | None => ret tt
  | Some c =>
      try_except
        (df_sub <- lift (Csv.parse is_na c);;
         if negb (issubset SUBJECT_COLUMNS (Pandas.columns df_sub))
         then st (st_error "subjects.csv must contain columns: {'Year', 'Subject_Code', 'Subject_Name'}")
         else
           save_df_to_csv df_sub SUBJECTS_FILE;;
           st (st_success "subjects.csv uploaded and saved.");;
           modify (set_subjects_df df_sub);;
           initialize_availability_if_empty)
        (fun _ => st (st_error "Error reading file"))
  end.

(** The first column whose lowered header contains "name". *)
Fixpoint candidate (cols : list string) : option string :=
  match cols with
  | [] => None
  | c :: cols' => if contains "name" (lower c) then Some c else candidate cols'
  end.

(** The block under [if uploaded_faculty is not None], lines 162-184. *)
Definition uploaded_faculty (upload : option Csv.content) : M unit :=
  match upload with
  | None => ret tt
  | Some c =>
      try_except
        (df_fac <- lift (Csv.parse is_na c);;
         df_fac <-
           (if negb (Pandas.mem "Faculty_Name" (Pandas.columns df_fac))
            then match candidate (Pandas.columns df_fac) with
                 | Some cand => ret (Pandas.rename df_fac cand "Faculty_Name")
                 | None =>
                     st (st_error "faculty_list.csv must contain a Faculty_Name column (or a column with 'name' in its header).");;
                     st_stop
                 end
            else ret df_fac);;
         save_df_to_csv df_fac FACULTY_FILE;;
         st (st_success "faculty_list.csv uploaded and saved.");;
         modify (set_faculty_df df_fac);;
         initialize_availability_if_empty)
        (fun _ => st (st_error "Error reading file"))
  end.

(** [choices_df.groupby("Faculty_Selected").size().reset_index(..)], line
    255: the workload table behind the pie chart. *)
Definition faculty_counts (choices : Pandas.DataFrame)
  : result (list (string * nat)) :=
  Pandas.groupby_size choices "Faculty_Selected".

(** The button "Clear all student choices", lines 284-290. *)
Definition clear_choices : M unit :=
  modify (fun s => set_fs (write_path (fs s) CHOICE_FILE None) s);;
  ensure_file_with_headers CHOICE_FILE CHOICE_COLUMNS;;
  st (st_success "All student choices cleared.");;
  st_rerun.

(** The button "Initialize / Reset faculty availability", lines 292-310. *)
Definition reset_availability : M unit :=
  faculty <- gets faculty_df;;
  subjects <- gets subjects_df;;
  if Pandas.empty faculty || Pandas.empty subjects
  then st (st_error "Upload faculty_list.csv and subjects.csv first.")
  else
    rows <- lift (default_availability faculty subjects);;
    modify (set_avail_df (Pandas.from_records rows));;
    save_df_to_csv (Pandas.from_records rows) FAC_AVAIL_FILE;;
    st (st_success "Faculty availability has been (re)initialized.");;
    st_rerun.

(** [sorted(df["Faculty_Name"].dropna().unique().tolist())], on the first
    column where the frame has no [Faculty_Name] (lines 322-325 and
    428-431). *)
Definition all_faculties (faculty : Pandas.DataFrame) : list string :=
  match Pandas.getitem faculty "Faculty_Name" with
  | Ok names => Pandas.sorted (Pandas.unique (Pandas.dropna names))
  | Raise _ =>
      Pandas.sorted (Pandas.unique (Pandas.dropna (Pandas.iloc_col0 faculty)))
  end.

(** *** Faculty view *)

(** [df[df[name] == v] if not df.empty else pd.DataFrame()] *)
Definition rows_where (df : Pandas.DataFrame) (name v : string)
  : result Pandas.DataFrame :=
  if negb (Pandas.empty df)
  then rbind (Pandas.getitem df name)
             (fun s => Ok (Pandas.boolean_index df (Pandas.series_eq s v)))
  else Ok Pandas.DataFrame_nil.

(** [row.get("Available", "Yes")] *)
Definition current_of (cols : list string) (row : list Pandas.cell) : Pandas.cell :=
  if Pandas.mem "Available" cols then Pandas.cell_at cols "Available" row
  else Some "Yes".

(** The form "availability_form", lines 371-384: one Yes/No select box
    per row of [my_avail], collected into [updated_rows]. *)
Definition availability_form (user : widgets) (selected_faculty : string)
    (my_avail : Pandas.DataFrame) : M (list Pandas.record) :=
  for_each
    (fun row =>
       code <- lift (Pandas.row_getitem (Pandas.columns my_avail) row "Subject_Code");;
       sname <- lift (Pandas.row_getitem (Pandas.columns my_avail) row "Subject_Name");;
       opt <- selectbox user
                (Pandas.str sname ++ " (" ++ Pandas.str code ++ ") - Available?")
                ["Yes"; "No"]
                (if String.eqb
                      (lower (strip (Pandas.str
                                       (current_of (Pandas.columns my_avail) row))))
                      "yes"
                 then 0 else 1)
                ("avail_" ++ Pandas.str code);;
       ret (availability_row (Some selected_faculty) code sname opt))
    (Pandas.rows my_avail).

(** The block under [if save_avail], lines 386-393. *)
Definition save_avail (selected_faculty : string)
    (updated_rows : list Pandas.record) : M unit :=
  d <- load_availability;;
  modify (set_avail_df d);;
  names <- lift (Pandas.getitem d "Faculty_Name");;
  let d := Pandas.boolean_index d (Pandas.series_ne names selected_faculty) in
  modify (set_avail_df d);;
  let d := Pandas.concat d (Pandas.from_records updated_rows) in
  modify (set_avail_df d);;
  save_df_to_csv d FAC_AVAIL_FILE;;
  st (st_success "Your availability has been updated.");;
  st_rerun.

(** What the faculty member does on the page: the name picked, the state of
    the form's widgets, and whether "Save Availability" was pressed. *)
Record faculty_input : Type := mkFacultyInput {
  name_picked : option string;
  avail_widgets : widgets;
  save_avail_pressed : bool
}.

(** Lines 315-393. *)
Definition faculty_view (inp : faculty_input) : M unit :=
  faculty <- gets faculty_df;;
  (When (Pandas.empty faculty) Then
     (st (st_warning "Admin must upload faculty_list.csv first.");; st_stop));;
  match pick (all_faculties faculty) 0 (name_picked inp) with
  | None | Some EmptyString => ret tt
  | Some selected_faculty =>
      st (st_success ("Logged in as: " ++ selected_faculty));;
      d <- load_choices;;
      modify (set_choices_df d);;
      my_students <- lift (rows_where d "Faculty_Selected" selected_faculty);;
      (if Pandas.empty my_students
       then st (st_info "No students have selected you yet.")
       else
         (* [sort_values(["Subject_Code","Regd_No"])] needs both columns *)
         _ <- lift (Pandas.getitem my_students "Subject_Code");;
         _ <- lift (Pandas.getitem my_students "Regd_No");;
         ret tt);;
      d <- load_availability;;
      modify (set_avail_df d);;
      subjects <- gets subjects_df;;
      (When (Pandas.empty subjects) Then
         (st (st_warning "Admin must upload subjects.csv first.");; st_stop));;
      my_avail <- lift (rows_where d "Faculty_Name" selected_faculty);;
      my_avail <-
        (if Pandas.empty my_avail
         then
           rows <- lift (default_rows (Some selected_faculty) subjects);;
           let d' := if negb (Pandas.empty d)
                     then Pandas.concat d (Pandas.from_records rows)
                     else Pandas.from_records rows in
           modify (set_avail_df d');;
           save_df_to_csv d' FAC_AVAIL_FILE;;
           names <- lift (Pandas.getitem d' "Faculty_Name");;
           ret (Pandas.boolean_index d' (Pandas.series_eq names selected_faculty))
         else ret my_avail);;
      updated_rows <- availability_form (avail_widgets inp) selected_faculty my_avail;;
      When (save_avail_pressed inp) Then save_avail selected_faculty updated_rows
  end.

(** *** Student section *)

(** One entry of [selections]. *)
Record selection : Type := mkSelection {
  Subject_Code : Pandas.cell;
  Subject_Name : Pandas.cell;
  Faculty_Selected : Pandas.cell
}.

(** The form "faculty_selection_form", lines 425-440: for every row of
    [year_subjects] a select box over all faculty names, keyed by subject
    code and registration number. *)
Definition faculty_selection_form (user : widgets) (regd : string)
    (year_subjects : Pandas.DataFrame) : M (list selection) :=
  faculty <- gets faculty_df;;
  for_each
    (fun row =>
       scode <- lift (Pandas.row_getitem (Pandas.columns year_subjects) row "Subject_Code");;
       sname <- lift (Pandas.row_getitem (Pandas.columns year_subjects) row "Subject_Name");;
       selected_fac <- selectbox user
                         (Pandas.str sname ++ " (" ++ Pandas.str scode ++ ")")
                         (all_faculties faculty) 0
                         (Pandas.str scode ++ "_" ++ regd);;
       ret (mkSelection scode sname selected_fac))
    (Pandas.rows year_subjects).

(** One dict of [new_rows]. *)
Definition choice_row (regd name year section : string) (s : selection)
  : Pandas.record :=
  [ ("Regd_No", Some regd); ("Name", Some name); ("Year", Some year);
    ("Section", Some section); ("Subject_Code", Subject_Code s);
    ("Subject_Name", Subject_Name s); ("Faculty_Selected", Faculty_Selected s) ].

(** The block under [if submit_choices], lines 442-473. *)
Definition submit_choices (regd name year section : string)
    (selections : list selection) : M unit :=
  df_choices <- load_choices;;
  let subject_codes := map Subject_Code selections in
  df_choices <-
    (if negb (Pandas.empty df_choices)
     then
       regds <- lift (Pandas.getitem df_choices "Regd_No");;
       codes <- lift (Pandas.getitem df_choices "Subject_Code");;
       ret (Pandas.boolean_index df_choices
              (Pandas.mask_not
                 (Pandas.mask_and (Pandas.series_eq regds regd)
                                  (Pandas.isin codes subject_codes))))
     else ret df_choices);;
  let new_df := Pandas.from_records (map (choice_row regd name year section) selections) in
  let final_df := if negb (Pandas.empty df_choices)
                  then Pandas.concat df_choices new_df
                  else new_df in
  save_df_to_csv final_df CHOICE_FILE;;
  st (st_success "Your choices have been recorded.");;
  st (st_info "If you re-submit later with the same Registration Number, your previous selections for these subjects will be replaced.");;
  st_rerun.

(** What the student does on the page: the fields of the login form, the
    state of the selection form's widgets, and the two submit buttons. *)
Record student_input : Type := mkStudentInput {
  in_regd : string;
  in_name : string;
  year_picked : option string;
  in_section : string;
  submit_login : bool;
  selection_widgets : widgets;
  submit_choices_pressed : bool
}.

Definition falsy (s : string) : bool := String.eqb s "".

(** Lines 398-473. *)
Definition student_section (inp : student_input) : M unit :=
  subjects <- gets subjects_df;;
  faculty <- gets faculty_df;;
  (When (Pandas.empty subjects || Pandas.empty faculty) Then
     (st (st_warning "Admin must upload subjects.csv and faculty_list.csv before students can make selections.");;
      st_stop));;
  year_col <- lift (Pandas.getitem subjects "Year");;
  let years := Pandas.sorted (Pandas.unique (Pandas.dropna year_col)) in
  When (submit_login inp) Then
    match pick years 0 (year_picked inp) with
    | Some year =>
        if falsy (in_regd inp) || falsy (in_name inp) || falsy year
           || falsy (in_section inp)
        then st (st_error "Please fill all fields to proceed.")
        else
          let year_subjects :=
            Pandas.boolean_index subjects
              (map (fun c => String.eqb (Pandas.str c) year) year_col) in
          if Pandas.empty year_subjects
          then st (st_warning ("No subjects found for Year = " ++ year
                               ++ ". Contact admin."))
          else
            st (st_success "Subjects loaded. Please select one faculty for each subject below.");;
            selections <- faculty_selection_form (selection_widgets inp)
                            (in_regd inp) year_subjects;;
            When (submit_choices_pressed inp) Then
              submit_choices (in_regd inp) (in_name inp) year (in_section inp)
                             selections
    | None => st (st_error "Please fill all fields to proceed.")
    end.

End Script.

(** ** A run of the script *)

(** The state a run starts from: the data directory as the previous run
    left it, an empty page, and module-level variables not yet assigned. *)
Definition fresh (f : store) : state :=
  mkState f Pandas.DataFrame_nil Pandas.DataFrame_nil Pandas.DataFrame_nil
          Pandas.DataFrame_nil [].

(** The two modes that write tables through forms; the blocks of the admin
    view are given one by one above. *)
Inductive mode : Type :=
| Student_Section (inp : student_input)
| Faculty_View (inp : faculty_input).

(** The script from its first line: the files are ensured (line 34), the
    frames loaded, the availability initialised (line 127), the view of
    the mode rendered.  The frames are read from the files, as in a run
    that finds nothing live in the cache; [cached_run] below is the run
    with the cache, which leaves the same files whenever the cache holds
    the frames the files read as (lemma [cached_run_coherent]). *)
Definition script (is_na : string -> bool) (m : mode) : M unit :=
  ensure_data_files;;
  load_existing_dataframes is_na;;
  initialize_availability_if_empty;;
  match m with
  | Student_Section inp => student_section is_na inp
  | Faculty_View inp => faculty_view is_na inp
  end.

(** ** The cache of the reference frames

    [load_subjects] and [load_faculty] are decorated with
    [st.cache_data(ttl=60)] (lines 45 and 52): what a call returns is kept,
    for every session, and returned by the calls of the next 60 seconds,
    which do not read the file.  The two definitions above are the
    functions under the decorator, that is, the calls that find nothing
    live in the cache, and [script] is a run in which both calls are such.
    Here are the calls and the run with the cache. *)

Record cache_entry : Type := mkEntry {
  value : Pandas.DataFrame;
  stored_at : nat
}.

Record cache : Type := mkCache {
  cached_subjects : option cache_entry;
  cached_faculty : option cache_entry
}.

Definition ttl : nat := 60.

(** An entry is live until [ttl] seconds after it was stored. *)
Definition live (now : nat) (e : cache_entry) : bool :=
  Nat.ltb now (stored_at e + ttl).

(** A call of a decorated function at time [now]: the frame it returns
    and the entry the cache holds after it. *)
Definition cache_data (now : nat) (entry : option cache_entry)
    (f : M Pandas.DataFrame) : M (Pandas.DataFrame * option cache_entry) :=
  let miss := d <- f;; ret (d, Some (mkEntry d now)) in
  match entry with
  | Some e => if live now e then ret (value e, entry) else miss
  | None => miss
  end.

(** Lines 103-106 at time [now] over the cache [c]. *)
Definition load_existing_dataframes_cached (is_na : string -> bool)
    (now : nat) (c : cache) : M cache :=
  sub <- cache_data now (cached_subjects c) (load_subjects is_na);;
  modify (set_subjects_df (fst sub));;
  fac <- cache_data now (cached_faculty c) (load_faculty is_na);;
  modify (set_faculty_df (fst fac));;
  d <- load_choices is_na;; modify (set_choices_df d);;
  d <- load_availability is_na;; modify (set_avail_df d);;
  ret (mkCache (snd sub) (snd fac)).

Definition view (is_na : string -> bool) (m : mode) : M unit :=
  match m with
  | Student_Section inp => student_section is_na inp
  | Faculty_View inp => faculty_view is_na inp
  end.

(** A run of the script at time [now] over a cache and a data directory:
    what it leaves of both, however it ends. *)
Definition cached_run (is_na : string -> bool) (now : nat) (m : mode)
    (c : cache) (f : store) : cache * store :=
  match (ensure_data_files;; load_existing_dataframes_cached is_na now c)
          (fresh f) with
  | (Ok c', s) =>
      (c', fs (snd ((initialize_availability_if_empty;; view is_na m) s)))
  | (Raise _, s) => (c, fs s)
  end.

(** ** Vocabulary of the properties *)

Definition canonical_header (p : path) : list string :=
  match p with
  | SUBJECTS_FILE => SUBJECT_COLUMNS
  | FACULTY_FILE => FACULTY_COLUMNS
  | CHOICE_FILE => CHOICE_COLUMNS
  | FAC_AVAIL_FILE => AVAIL_COLUMNS
  end.

(** A header [read_csv] takes as it is: the labels are pairwise distinct and
    none is empty. *)
Definition plain_header (cols : list string) : Prop :=
  NoDup cols /\ ~ In "" cols.

(** The label [old] with the number [k] after it. *)
Definition numbered (old : string) (k : nat) : string :=
  (old ++ "." ++ Csv.str_of_nat k)%string.

(** The names the counts know. *)
Definition counted (cnt : Csv.counts) (key : string) : Prop :=
  Csv.count_of cnt key <> 0.

(** What holds of the header and the counts once the columns at the
    positions [done] are through: the counted names are the labels at
    these positions, which are pairwise distinct. *)
Record labelled (h : list string) (cnt : Csv.counts) (done : list nat)
  : Prop := {
  labelled_counted :
    forall key, counted cnt key -> In key (map (fun i => nth i h "") done);
  labelled_done :
    forall i, In i done -> counted cnt (nth i h "");
  labelled_NoDup : NoDup (map (fun i => nth i h "") done);
  labelled_lt : forall i, In i done -> i < length h;
  labelled_named : Forall (fun col => col <> "") h
}.

(** The loader of each table. *)
Definition loader (is_na : string -> bool) (p : path) : M Pandas.DataFrame :=
  match p with
  | SUBJECTS_FILE => load_subjects is_na
  | FACULTY_FILE => load_faculty is_na
  | CHOICE_FILE => load_choices is_na
  | FAC_AVAIL_FILE => load_availability is_na
  end.

(** The frame [load_choices] and [load_availability] return on a data
    directory. *)
Definition table_of (is_na : string -> bool) (p : path) (f : store)
  : Pandas.DataFrame :=
  match Csv.read_csv is_na (read_path f p) with
  | Ok d => d
  | Raise _ => Pandas.DataFrame_columns (canonical_header p)
  end.

(** The names [initialize_availability_if_empty] reads off the faculty
    frame and the codes it reads off the subjects frame, row by row. *)
Definition faculty_names (faculty : Pandas.DataFrame) : list Pandas.cell :=
  map (fname_of (Pandas.columns faculty)) (Pandas.rows faculty).

Definition subject_codes (subjects : Pandas.DataFrame) : list Pandas.cell :=
  map (Pandas.cell_at (Pandas.columns subjects) "Subject_Code")
      (Pandas.rows subjects).

(** One "Yes" row per faculty row and subject row, faculty-major. *)
Definition default_cells (faculty subjects : Pandas.DataFrame)
  : list (list Pandas.cell) :=
  flat_map
    (fun frow =>
       map (fun srow =>
              [ fname_of (Pandas.columns faculty) frow;
                Pandas.cell_at (Pandas.columns subjects) "Subject_Code" srow;
                Pandas.cell_at (Pandas.columns subjects) "Subject_Name" srow;
                Some "Yes" ])
           (Pandas.rows subjects))
    (Pandas.rows faculty).

(** The (Faculty_Name, Subject_Code) pair of an availability row. *)
Definition avail_key (row : list Pandas.cell) : Pandas.cell * Pandas.cell :=
  (Pandas.cell_at AVAIL_COLUMNS "Faculty_Name" row,
   Pandas.cell_at AVAIL_COLUMNS "Subject_Code" row).

(** The guard of [initialize_availability_if_empty]: a reference frame is
    empty, or there is availability data already. *)
Definition nothing_to_initialize (s : state) : bool :=
  Pandas.empty (faculty_df s) || Pandas.empty (subjects_df s)
  || negb (Pandas.empty (avail_df s)).

(** The state of a run once the frames are loaded from the directory [f]
    (its missing files created). *)
Definition loaded (is_na : string -> bool) (f : store) : state :=
  snd ((ensure_data_files;; load_existing_dataframes is_na) (fresh f)).

(** A directory whose subjects file lists one code under two years, with
    one faculty member and nothing else yet. *)
Definition shared_code_store : store :=
  mkStore (Some (Csv.Table SUBJECT_COLUMNS
                   [ ["1"; "CS101"; "Intro"]; ["2"; "CS101"; "Intro"] ]))
          (Some (Csv.Table FACULTY_COLUMNS [ ["Dr. A"] ]))
          None None.

Definition shared_code_state : state := loaded Csv.default_na shared_code_store.

(** The scenario of the specification: the administrator has stored one
    subject and two faculty members; nothing else exists yet. *)
Definition scenario_start : store :=
  mkStore (Some (Csv.Table SUBJECT_COLUMNS [ ["1"; "CS101"; "Intro"] ]))
          (Some (Csv.Table FACULTY_COLUMNS [ ["Dr. A"]; ["Dr. B"] ]))
          None None.

Definition scenario_state : state := loaded Csv.default_na scenario_start.

(** Whether an availability row belongs to faculty member [F]. *)
Definition faculty_is (F : string) (row : list Pandas.cell) : bool :=
  Pandas.eq_str (Pandas.cell_at AVAIL_COLUMNS "Faculty_Name" row) F.

Definition other_faculty (F : string) (row : list Pandas.cell) : bool :=
  negb (faculty_is F row).

(** The rows the availability form submits for [F]: dicts built by
    [availability_row] under [F]'s name. *)
Definition submitted_by (F : string) (updated_rows : list Pandas.record) : Prop :=
  Forall (fun r => exists c n a, r = availability_row (Some F) c n a)
         updated_rows.

(** The frame [save_avail] writes over the reloaded frame [pre]. *)
Definition saved_availability (pre : Pandas.DataFrame) (F : string)
    (updated_rows : list Pandas.record) : Pandas.DataFrame :=
  Pandas.concat
    (Pandas.boolean_index pre
       (Pandas.series_ne
          (map (Pandas.cell_at (Pandas.columns pre) "Faculty_Name")
               (Pandas.rows pre)) F))
    (Pandas.from_records updated_rows).

(** A cell as [read_csv] produces it: never a string of the NA filter. *)
Definition normal (is_na : string -> bool) (c : Pandas.cell) : Prop :=
  match c with
  | Some x => is_na x = false
  | None => True
  end.

(** What a cell becomes when written and read again. *)
Definition reread (is_na : string -> bool) (c : Pandas.cell) : Pandas.cell :=
  Csv.parse_field is_na (Csv.na_rep c).

(** The data directory of the scenario once availability is initialised. *)
Definition scenario_store : store :=
  mkStore
    (Some (Csv.Table SUBJECT_COLUMNS [ ["1"; "CS101"; "Intro"] ]))
    (Some (Csv.Table FACULTY_COLUMNS [ ["Dr. A"]; ["Dr. B"] ]))
    (Some (Csv.Table CHOICE_COLUMNS []))
    (Some (Csv.Table AVAIL_COLUMNS
             [ ["Dr. A"; "CS101"; "Intro"; "Yes"];
               ["Dr. B"; "CS101"; "Intro"; "Yes"] ])).

(** Dr. A answers "No" for the one subject. *)
Definition dr_a_says_no : list Pandas.record :=
  [ availability_row (Some "Dr. A") (Some "CS101") (Some "Intro") (Some "No") ].

(** The cells of a new choice row, in the order of the canonical header. *)
Definition choice_cells (regd name year section : string) (sel : selection)
  : list Pandas.cell :=
  [ Some regd; Some name; Some year; Some section; Subject_Code sel;
    Subject_Name sel; Faculty_Selected sel ].

(** Whether a choice row is the row of student [regd] for subject [code]. *)
Definition is_choice_of (regd : string) (code : Pandas.cell)
    (row : list Pandas.cell) : bool :=
  Pandas.eq_str (Pandas.cell_at CHOICE_COLUMNS "Regd_No" row) regd
  && Pandas.cell_eqb (Pandas.cell_at CHOICE_COLUMNS "Subject_Code" row) code.

(** Whether a submission of [regd] over [codes] replaces a choice row. *)
Definition replaced (regd : string) (codes : list Pandas.cell)
    (row : list Pandas.cell) : bool :=
  Pandas.eq_str (Pandas.cell_at CHOICE_COLUMNS "Regd_No" row) regd
  && existsb (Pandas.cell_eqb (Pandas.cell_at CHOICE_COLUMNS "Subject_Code" row))
             codes.

(** The frame [submit_choices] writes over the reloaded frame [pre]. *)
Definition saved_choices (pre : Pandas.DataFrame)
    (regd name year section : string) (selections : list selection)
  : Pandas.DataFrame :=
  let kept :=
    if negb (Pandas.empty pre)
    then Pandas.boolean_index pre
           (Pandas.mask_not
              (Pandas.mask_and
                 (Pandas.series_eq
                    (map (Pandas.cell_at (Pandas.columns pre) "Regd_No")
                         (Pandas.rows pre)) regd)
                 (Pandas.isin
                    (map (Pandas.cell_at (Pandas.columns pre) "Subject_Code")
                         (Pandas.rows pre))
                    (map Subject_Code selections))))
    else pre in
  let new_df :=
    Pandas.from_records (map (choice_row regd name year section) selections) in
  if negb (Pandas.empty kept) then Pandas.concat kept new_df else new_df.

(** A data directory in which student 21CS001 has chosen for two subjects
    and student 21CS002 for one. *)
Definition resubmission_store : store :=
  mkStore
    (Some (Csv.Table SUBJECT_COLUMNS
             [ ["1"; "CS101"; "Intro"]; ["1"; "MA101"; "Maths"] ]))
    (Some (Csv.Table FACULTY_COLUMNS [ ["Dr. A"]; ["Dr. B"] ]))
    (Some (Csv.Table CHOICE_COLUMNS
             [ ["21CS001"; "Ann"; "1"; "A"; "CS101"; "Intro"; "Dr. A"];
               ["21CS001"; "Ann"; "1"; "A"; "MA101"; "Maths"; "Dr. B"];
               ["21CS002"; "Bob"; "1"; "A"; "CS101"; "Intro"; "Dr. A"] ]))
    (Some (Csv.Table AVAIL_COLUMNS
             [ ["Dr. A"; "CS101"; "Intro"; "Yes"];
               ["Dr. B"; "CS101"; "Intro"; "No"];
               ["Dr. A"; "MA101"; "Maths"; "Yes"];
               ["Dr. B"; "MA101"; "Maths"; "Yes"] ])).

(** CS101 with Dr. B. *)
Definition cs101_with_dr_b : list selection :=
  [ mkSelection (Some "CS101") (Some "Intro") (Some "Dr. B") ].

(** CS101 with Dr. A. *)
Definition cs101_with_dr_a : list selection :=
  [ mkSelection (Some "CS101") (Some "Intro") (Some "Dr. A") ].

(** A second-year subject with Dr. A. *)
Definition cs201_with_dr_a : list selection :=
  [ mkSelection (Some "CS201") (Some "Data Structures") (Some "Dr. A") ].

(** The data directory a run of the script leaves behind. *)
Definition after_run (is_na : string -> bool) (m : mode) (f : store) : store :=
  fs (snd (script is_na m (fresh f))).

(** Student 21CS001 of year 1 fills both forms, picks [faculty] in every
    select box and presses both buttons. *)
Definition student_21CS001 (name section faculty : string) : mode :=
  Student_Section
    (mkStudentInput "21CS001" name (Some "1") section true
                    (fun _ => Some faculty) true).

(** The directory after the student submitted Dr. A and then Dr. B. *)
Definition scenario_end (name section : string) : store :=
  after_run Csv.default_na (student_21CS001 name section "Dr. B")
    (after_run Csv.default_na (student_21CS001 name section "Dr. A")
       scenario_start).

(** The number of choice rows that name [faculty]. *)
Definition choices_naming (faculty : string) (choices : Pandas.DataFrame) : nat :=
  length (filter (fun r => Pandas.eq_str
                             (Pandas.cell_at (Pandas.columns choices)
                                             "Faculty_Selected" r) faculty)
                 (Pandas.rows choices)).

(** An upload the subjects block accepts: it parses and has the three
    required columns. *)
Definition valid_subjects_upload (is_na : string -> bool) (c : Csv.content)
  : bool :=
  match Csv.parse is_na c with
  | Ok df => issubset SUBJECT_COLUMNS (Pandas.columns df)
  | Raise _ => false
  end.

(** An upload without the Subject_Name column. *)
Definition subjects_without_name : Csv.content :=
  Csv.Table ["Year"; "Subject_Code"] [ ["1"; "CS101"]; ["1"; "MA101"] ].

(** An upload that serves as a subjects file and, through its last column,
    as a faculty file. *)
Definition subjects_with_teacher : Csv.content :=
  Csv.Table ["Year"; "Subject_Code"; "Subject_Name"; "Teacher NAME"]
            [ ["1"; "CS101"; "Intro"; "Dr. A"];
              ["1"; "MA101"; ""; "Dr. B"] ].

(** The key, the select box and the entry of [selections] that the
    selection form makes of one row of [year_subjects] (with columns
    [cols]), for registration number [regd] over the faculty frame. *)
Definition selection_key (regd : string) (cols : list string)
    (row : list Pandas.cell) : string :=
  Pandas.str (Pandas.cell_at cols "Subject_Code" row) ++ "_" ++ regd.

Definition selection_box (faculty : Pandas.DataFrame) (regd : string)
    (cols : list string) (row : list Pandas.cell) : ui_event :=
  st_selectbox
    (Pandas.str (Pandas.cell_at cols "Subject_Name" row) ++ " ("
     ++ Pandas.str (Pandas.cell_at cols "Subject_Code" row) ++ ")")
    (all_faculties faculty)
    (selection_key regd cols row).

Definition selection_of (user : widgets) (faculty : Pandas.DataFrame)
    (regd : string) (cols : list string) (row : list Pandas.cell) : selection :=
  mkSelection (Pandas.cell_at cols "Subject_Code" row)
              (Pandas.cell_at cols "Subject_Name" row)
              (pick (all_faculties faculty) 0
                    (user (selection_key regd cols row))).

(** The column the faculty names are taken from. *)
Definition name_column (faculty : Pandas.DataFrame) : Pandas.series :=
  match Pandas.getitem faculty "Faculty_Name" with
  | Ok names => names
  | Raise _ => Pandas.iloc_col0 faculty
  end.

(** The page after some more events. *)
Definition shows (events : list ui_event) (s : state) : state :=
  mkState (fs s) (subjects_df s) (faculty_df s) (choices_df s) (avail_df s)
          (page s ++ events).

(** Two states that differ at most in the availability frame and the
    availability file. *)
Definition same_but_availability (s1 s2 : state) : Prop :=
  subjects_csv (fs s1) = subjects_csv (fs s2) /\
  faculty_list_csv (fs s1) = faculty_list_csv (fs s2) /\
  student_choices_csv (fs s1) = student_choices_csv (fs s2) /\
  subjects_df s1 = subjects_df s2 /\
  faculty_df s1 = faculty_df s2 /\
  choices_df s1 = choices_df s2 /\
  page s1 = page s2.

(** A block that ignores availability: from two such states it ends the
    same way and leaves two such states. *)
Definition ignores_availability {A : Type} (m : M A) : Prop :=
  forall s1 s2,
    same_but_availability s1 s2 ->
    fst (m s1) = fst (m s2) /\
    same_but_availability (snd (m s1)) (snd (m s2)).

(** The module-level frames of a run over [resubmission_store], in which
    Dr. B is marked "No" for CS101. *)
Definition resubmission_loaded : state :=
  loaded Csv.default_na resubmission_store.

(** The first-year subjects of that directory. *)
Definition year1_subjects : Pandas.DataFrame :=
  {| Pandas.columns := SUBJECT_COLUMNS;
     Pandas.rows := [ [Some "1"; Some "CS101"; Some "Intro"];
                      [Some "1"; Some "MA101"; Some "Maths"] ] |}.

(** A student who sets every select box to Dr. B. *)
Definition always_dr_b : widgets := fun _ => Some "Dr. B".

(** The rows of the subjects frame whose year reads [year]. *)
Definition rows_of_year (subjects : Pandas.DataFrame) (year : string)
  : list (list Pandas.cell) :=
  filter (fun r => String.eqb
                     (Pandas.str (Pandas.cell_at (Pandas.columns subjects) "Year" r))
                     year)
         (Pandas.rows subjects).

(** A new first-year student who picks Dr. B everywhere and presses both
    buttons. *)
Definition student_21CS003 : student_input :=
  mkStudentInput "21CS003" "Cy" (Some "1") "B" true always_dr_b true.

(** The options of the Year select box. *)
Definition years_of (subjects : Pandas.DataFrame) : list string :=
  Pandas.sorted
    (Pandas.unique
       (Pandas.dropna
          (map (Pandas.cell_at (Pandas.columns subjects) "Year")
               (Pandas.rows subjects)))).

(** The lines [read_csv] reads off a file, the header line first: those
    that are not blank. *)
Definition lines_read (c : Csv.content) : list (list string) :=
  match c with
  | Csv.Unreadable => []
  | Csv.Table header lines =>
      filter (fun line => negb (Csv.blank line)) (header :: lines)
  end.

(** A line of an upload as it is stored: the fields as uploaded, but an NA
    token stored as the empty field, a short line filled up with empty
    fields, and the fields in front of the labelled ones left out. *)
Definition stored_line (is_na : string -> bool) (width leading : nat)
    (line : list string) : list string :=
  skipn leading
        (map (fun x => if is_na x then "" else x) line
         ++ repeat "" (width - length line)).

(** A subjects upload with the subject code "NA" and a line without its
    last field. *)
Definition subjects_with_na_code : Csv.content :=
  Csv.Table ["Year"; "Subject_Code"; "Subject_Name"]
            [ ["2"; "NA"; "Numerical Analysis"]; ["2"; "CS201"] ].

(** A faculty upload with a repeated header field. *)
Definition faculty_with_two_depts : Csv.content :=
  Csv.Table ["Faculty_Name"; "Dept"; "Dept"] [ ["Dr. A"; "CS"; "EE"] ].

(** A student who enters "NA" for the registration number. *)
Definition student_NA (faculty : string) : mode :=
  Student_Section
    (mkStudentInput "NA" "Ann" (Some "1") "A" true (fun _ => Some faculty) true).

(** ** Vocabulary of the further properties *)

Definition path_eqb (p q : path) : bool :=
  match p, q with
  | SUBJECTS_FILE, SUBJECTS_FILE | FACULTY_FILE, FACULTY_FILE
  | CHOICE_FILE, CHOICE_FILE | FAC_AVAIL_FILE, FAC_AVAIL_FILE => true
  | _, _ => false
  end.

(** A path that exists. *)
Definition exists_path (f : store) (p : path) : Prop := read_path f p <> None.

(** The file [ensure_file_with_headers] creates. *)
Definition header_only (p : path) : Csv.content :=
  Csv.Table (canonical_header p) [].

(** A block confined to the paths [W]: it leaves every other path as it
    is, and a path that exists still exists after it. *)
Definition confined {A : Type} (W : path -> bool) (m : M A) : Prop :=
  forall s p,
    (W p = false -> read_path (fs (snd (m s))) p = read_path (fs s) p) /\
    (exists_path (fs s) p -> exists_path (fs (snd (m s))) p).

(** A block that writes no file unless it ends in the rerun. *)
Definition writes_only_before_rerun {A : Type} (m : M A) : Prop :=
  forall s, fst (m s) = Raise RerunException \/ fs (snd (m s)) = fs s.

(** The frame of default rows over two reference frames. *)
Definition default_frame (faculty subjects : Pandas.DataFrame)
  : Pandas.DataFrame :=
  {| Pandas.columns := AVAIL_COLUMNS;
     Pandas.rows := default_cells faculty subjects |}.

(** The frame the faculty upload stores for a parsed upload, if it
    accepts it: the upload itself, or the upload with its first "name"
    column renamed. *)
Definition accepted_faculty (df : Pandas.DataFrame) : option Pandas.DataFrame :=
  if Pandas.mem "Faculty_Name" (Pandas.columns df) then Some df
  else match candidate (Pandas.columns df) with
       | Some cand => Some (Pandas.rename df cand "Faculty_Name")
       | None => None
       end.

(** A data directory whose subjects file lacks the Subject_Name column. *)
Definition nameless_subjects_store : store :=
  mkStore (Some subjects_without_name)
          (Some (Csv.Table FACULTY_COLUMNS [ ["Dr. A"] ]))
          None None.

(** A faculty upload. *)
Definition two_teachers : Csv.content :=
  Csv.Table ["Teacher Name"; "Room"] [ ["Dr. C"; "12"]; ["Dr. D"; "14"] ].

(** Strings in strictly ascending order. *)
Fixpoint ascending (l : list string) : Prop :=
  match l with
  | [] => True
  | x :: l' =>
      match l' with
      | [] => True
      | y :: _ => String.leb x y = true /\ x <> y
      end /\ ascending l'
  end.

(** The number of choice rows that name some faculty member. *)
Definition choices_named (choices : Pandas.DataFrame) : nat :=
  length (filter (fun r => match Pandas.cell_at (Pandas.columns choices)
                                                "Faculty_Selected" r with
                           | Some _ => true
                           | None => false
                           end)
                 (Pandas.rows choices)).

(** The frame of the "my students" list of the faculty view, line 333. *)
Definition my_students (choices : Pandas.DataFrame) (selected_faculty : string)
  : result Pandas.DataFrame :=
  rows_where choices "Faculty_Selected" selected_faculty.

(** The key, the select box and the entry of [updated_rows] that the
    availability form makes of one row of [my_avail] (with columns [cols]). *)
Definition availability_key (cols : list string) (row : list Pandas.cell)
  : string :=
  "avail_" ++ Pandas.str (Pandas.cell_at cols "Subject_Code" row).

Definition availability_index (cols : list string) (row : list Pandas.cell)
  : nat :=
  if String.eqb (lower (strip (Pandas.str (current_of cols row)))) "yes"
  then 0 else 1.

Definition availability_box (cols : list string) (row : list Pandas.cell)
  : ui_event :=
  st_selectbox
    (Pandas.str (Pandas.cell_at cols "Subject_Name" row) ++ " ("
     ++ Pandas.str (Pandas.cell_at cols "Subject_Code" row) ++ ") - Available?")
    ["Yes"; "No"]
    (availability_key cols row).

Definition availability_entry (user : widgets) (selected_faculty : string)
    (cols : list string) (row : list Pandas.cell) : Pandas.record :=
  availability_row (Some selected_faculty)
    (Pandas.cell_at cols "Subject_Code" row)
    (Pandas.cell_at cols "Subject_Name" row)
    (pick ["Yes"; "No"] (availability_index cols row)
          (user (availability_key cols row))).

(** The no-break space U+00A0, in UTF-8. *)
Definition nbsp : string :=
  String (ascii_of_nat 194) (String (ascii_of_nat 160) EmptyString).

(** A session that holds "No" under the key of CS101, as the availability
    form leaves it when a member answers "No" for that subject. *)
Definition left_by_another_member : widgets :=
  fun key => if String.eqb key "avail_CS101" then Some "No" else None.

(** The subject code of a row as the keys of the forms print it. *)
Definition printed_code (cols : list string) (row : list Pandas.cell) : string :=
  Pandas.str (Pandas.cell_at cols "Subject_Code" row).

(** First-year subjects that list CS101 twice. *)
Definition cs101_twice : Pandas.DataFrame :=
  {| Pandas.columns := SUBJECT_COLUMNS;
     Pandas.rows := [ [Some "1"; Some "CS101"; Some "Intro"];
                      [Some "1"; Some "CS101"; Some "Intro (lab)"] ] |}.

(** A block that writes no file. *)
Definition keeps_files {A : Type} (m : M A) : Prop :=
  forall s, fs (snd (m s)) = fs s.

(** The list "Your previous submissions" under the student's forms, lines
    475-485; [regd] is always bound there, so the handler of [NameError]
    never runs.  The frame is only displayed, sorted by Subject_Code. *)
Definition previous_submissions (is_na : string -> bool) (regd : string)
  : M unit :=
  When (negb (falsy regd)) Then
    (df_choices <- load_choices is_na;;
     When (negb (Pandas.empty df_choices)) Then
       (regds <- lift (Pandas.getitem df_choices "Regd_No");;
        let my_choices :=
          Pandas.boolean_index df_choices (Pandas.series_eq regds regd) in
        When (negb (Pandas.empty my_choices)) Then
          (_ <- lift (Pandas.getitem my_choices "Subject_Code");; ret tt))).

(** The student mode, lines 398-485: the two forms and that list. *)
Definition student_mode (is_na : string -> bool) (inp : student_input)
  : M unit :=
  student_section is_na inp;;
  previous_submissions is_na (in_regd inp).

(** The paths a mode of the script may write after the files are ensured:
    the availability (initialised at line 127 and edited by the faculty
    view) and, for a student, the choices. *)
Definition mode_writes (m : mode) (p : path) : bool :=
  match m, p with
  | _, FAC_AVAIL_FILE => true
  | Student_Section _, CHOICE_FILE => true
  | _, _ => false
  end.

(** The script with the list of previous submissions in the student mode. *)
Definition script_with_list (is_na : string -> bool) (m : mode) : M unit :=
  ensure_data_files;;
  load_existing_dataframes is_na;;
  initialize_availability_if_empty;;
  match m with
  | Student_Section inp => student_mode is_na inp
  | Faculty_View inp => faculty_view is_na inp
  end.

(** The paths an upload block may write: its own and the availability. *)
Definition upload_writes (own p : path) : bool :=
  path_eqb own p || path_eqb FAC_AVAIL_FILE p.

(** What a path holds once the files are ensured. *)
Definition ensured (f : store) (p : path) : Csv.content :=
  match read_path f p with
  | Some c => c
  | None => header_only p
  end.

(** The default rows the faculty view makes for one member. *)
Definition default_cells_of (F : string) (subjects : Pandas.DataFrame)
  : list (list Pandas.cell) :=
  map (fun srow =>
         [ Some F;
           Pandas.cell_at (Pandas.columns subjects) "Subject_Code" srow;
           Pandas.cell_at (Pandas.columns subjects) "Subject_Name" srow;
           Some "Yes" ])
      (Pandas.rows subjects).

(** A faculty member who opens the faculty view under [name] and sets or
    presses nothing. *)
Definition visit_of (name : string) : faculty_input :=
  mkFacultyInput (Some name) (fun _ => None) false.

(** A student who leaves the name empty. *)
Definition student_without_name : student_input :=
  mkStudentInput "21CS003" "" (Some "1") "B" true always_dr_b true.

(** A data directory whose choices and availability files have other
    columns than the script writes. *)
Definition foreign_tables_store : store :=
  mkStore
    (Some (Csv.Table SUBJECT_COLUMNS [ ["1"; "CS101"; "Intro"] ]))
    (Some (Csv.Table FACULTY_COLUMNS [ ["Dr. A"] ]))
    (Some (Csv.Table ["Student"; "Subject_Code"] [ ["21CS001"; "CS101"] ]))
    (Some (Csv.Table ["Teacher"; "Subject_Code"] [ ["Dr. A"; "CS101"] ])).

(** A data directory in which Dr. C is on the faculty list but has no
    availability rows yet, and Dr. A has answered "No". *)
Definition newcomer_store : store :=
  mkStore
    (Some (Csv.Table SUBJECT_COLUMNS [ ["1"; "CS101"; "Intro"] ]))
    (Some (Csv.Table FACULTY_COLUMNS [ ["Dr. A"]; ["Dr. C"] ]))
    (Some (Csv.Table CHOICE_COLUMNS []))
    (Some (Csv.Table AVAIL_COLUMNS [ ["Dr. A"; "CS101"; "Intro"; "No"] ])).

(** ** The summary of the admin view *)

(** [groupby(keys).size()] on the list of the rows' keys: one line per
    distinct key, keys in ascending order, with the number of rows that
    carry it. *)
Section Groups.

Variable K : Type.
Variable eqb : K -> K -> bool.
Variable leb : K -> K -> bool.

Fixpoint unique_by (l : list K) : list K :=
  match l with
  | [] => []
  | x :: l' => x :: filter (fun y => negb (eqb y x)) (unique_by l')
  end.

Fixpoint insert_by (x : K) (l : list K) : list K :=
  match l with
  | [] => [x]
  | y :: l' => if leb x y then x :: l else y :: insert_by x l'
  end.

Fixpoint sort_by (l : list K) : list K :=
  match l with
  | [] => []
  | x :: l' => insert_by x (sort_by l')
  end.

Definition count_by (k : K) (l : list K) : nat := length (filter (eqb k) l).

Definition group_sizes (keys : list K) : list (K * nat) :=
  map (fun k => (k, count_by k keys)) (sort_by (unique_by keys)).

(** Keys in strictly ascending order. *)
Fixpoint ascending_by (l : list K) : Prop :=
  match l with
  | [] => True
  | x :: l' =>
      match l' with
      | [] => True
      | y :: _ => leb x y = true /\ x <> y
      end /\ ascending_by l'
  end.

End Groups.

(** The key of a line of the summary: subject code, subject name and
    faculty selected. *)
Definition group_key : Type := (string * string * string)%type.

Definition key_eqb (a b : group_key) : bool :=
  match a, b with
  | (a1, a2, a3), (b1, b2, b3) =>
      String.eqb a1 b1 && String.eqb a2 b2 && String.eqb a3 b3
  end.

(** Python's order on tuples of strings. *)
Definition key_leb (a b : group_key) : bool :=
  match a, b with
  | (a1, a2, a3), (b1, b2, b3) =>
      if String.eqb a1 b1
      then if String.eqb a2 b2 then String.leb a3 b3 else String.leb a2 b2
      else String.leb a1 b1
  end.

(** The key of a row, if it has all three cells; [groupby] drops a row
    that misses one. *)
Definition complete_key (c1 c2 c3 : Pandas.cell) : list group_key :=
  match c1, c2, c3 with
  | Some x, Some y, Some z => [(x, y, z)]
  | _, _, _ => []
  end.

Fixpoint complete_keys (s1 s2 s3 : Pandas.series) : list group_key :=
  match s1, s2, s3 with
  | c1 :: s1', c2 :: s2', c3 :: s3' =>
      complete_key c1 c2 c3 ++ complete_keys s1' s2' s3'
  | _, _, _ => []
  end.

(** [choices_df.groupby(["Subject_Code","Subject_Name","Faculty_Selected"])
    .size().reset_index(name="No_of_Students")], lines 199-200. *)
Definition summary (choices : Pandas.DataFrame)
  : result (list (group_key * nat)) :=
  rbind (Pandas.getitem choices "Subject_Code") (fun codes =>
  rbind (Pandas.getitem choices "Subject_Name") (fun names =>
  rbind (Pandas.getitem choices "Faculty_Selected") (fun faculties =>
    Ok (group_sizes key_eqb key_leb (complete_keys codes names faculties))))).

(** The number of choice rows with the subject code, subject name and
    faculty of a key. *)
Definition choices_with (k : group_key) (choices : Pandas.DataFrame) : nat :=
  length
    (filter
       (fun r =>
          existsb (key_eqb k)
            (complete_key
               (Pandas.cell_at (Pandas.columns choices) "Subject_Code" r)
               (Pandas.cell_at (Pandas.columns choices) "Subject_Name" r)
               (Pandas.cell_at (Pandas.columns choices) "Faculty_Selected" r)))
       (Pandas.rows choices)).

(** The lines of a summary for one faculty member. *)
Definition lines_of (F : string) (lines : list (group_key * nat))
  : list (group_key * nat) :=
  filter (fun line : group_key * nat => String.eqb (snd (fst line)) F) lines.

(** The warning of line 421. *)
Definition no_subjects_warning (year : string) : ui_event :=
  st_warning ("No subjects found for Year = " ++ year ++ ". Contact admin.").

(** A block that only adds to the page, and only events in [P]. *)
Definition appends {A : Type} (P : ui_event -> Prop) (m : M A) : Prop :=
  forall s, exists events,
    page (snd (m s)) = page s ++ events /\ Forall P events.

(** The frame [load_faculty] returns on a data directory. *)
Definition faculty_of (is_na : string -> bool) (f : store) : Pandas.DataFrame :=
  match Csv.read_csv is_na (read_path f FACULTY_FILE) with
  | Ok df =>
      if negb (Pandas.mem "Faculty_Name" (Pandas.columns df))
         && Nat.ltb 0 (Pandas.shape1 df)
      then Pandas.rename df (hd "" (Pandas.columns df)) "Faculty_Name"
      else df
  | Raise _ => Pandas.DataFrame_columns FACULTY_COLUMNS
  end.

(** The state after lines 103-106 over the data directory [f]. *)
Definition frames_of (is_na : string -> bool) (f : store)
    (pg : list ui_event) : state :=
  mkState f (table_of is_na SUBJECTS_FILE f) (faculty_of is_na f)
          (table_of is_na CHOICE_FILE f) (table_of is_na FAC_AVAIL_FILE f) pg.

(** The data directory once the files are ensured. *)
Definition ensured_store (f : store) : store :=
  mkStore (Some (ensured f SUBJECTS_FILE)) (Some (ensured f FACULTY_FILE))
          (Some (ensured f CHOICE_FILE)) (Some (ensured f FAC_AVAIL_FILE)).

(** A cache that holds nothing stale for a data directory: an entry is the
    frame its function returns there, once the files are ensured. *)
Definition coherent (is_na : string -> bool) (c : cache) (f : store) : Prop :=
  (forall e, cached_subjects c = Some e ->
             value e = table_of is_na SUBJECTS_FILE (ensured_store f)) /\
  (forall e, cached_faculty c = Some e ->
             value e = faculty_of is_na (ensured_store f)).

Definition empty_cache : cache := mkCache None None.

(** A cache filled at time 0, when the reference files held their headers
    only. *)
Definition stale_cache : cache :=
  mkCache (Some (mkEntry (Pandas.DataFrame_columns SUBJECT_COLUMNS) 0))
          (Some (mkEntry (Pandas.DataFrame_columns FACULTY_COLUMNS) 0)).

(** A student who looks at the page, and may fill the login form, without
    submitting choices. *)
Definition browsing : student_input :=
  mkStudentInput "21CS003" "Cy" (Some "1") "B" true always_dr_b false.

(** * Properties *)

Unset Implicit Arguments.

(** ** The pandas fragment *)

Lemma cell_eqb_eq (a b : Pandas.cell) : Pandas.cell_eqb a b = true <-> a = b.
Proof.
  destruct a as [x|], b as [y|]; simpl; split; intro H;
    try discriminate; try reflexivity.
  - apply String.eqb_eq in H. now subst.
  - injection H as ->. apply String.eqb_refl.
Qed.

Lemma eq_str_eq (c : Pandas.cell) (v : string) :
  Pandas.eq_str c v = true <-> c = Some v.
Proof.
  destruct c as [x|]; simpl; split; intro H; try discriminate.
  - apply String.eqb_eq in H. now subst.
  - injection H as ->. apply String.eqb_refl.
Qed.

Lemma mem_In (k : string) (l : list string) : Pandas.mem k l = true <-> In k l.
Proof.
  unfold Pandas.mem. rewrite existsb_exists. split.
  - intros (x & Hx & E). apply String.eqb_eq in E. now subst.
  - intro H. exists k. split; [assumption | apply String.eqb_refl].
Qed.

Lemma isin_In (c : Pandas.cell) (values : list Pandas.cell) :
  existsb (Pandas.cell_eqb c) values = true <-> In c values.
Proof.
  rewrite existsb_exists. split.
  - intros (x & Hx & E). apply cell_eqb_eq in E. now subst.
  - intro H. exists c. split; [assumption | now apply cell_eqb_eq].
Qed.

Lemma select_map {A : Type} (f : A -> bool) (l : list A) :
  Pandas.select l (map f l) = filter f l.
Proof.
  induction l as [|x l IH]; simpl; [reflexivity|].
  rewrite IH. reflexivity.
Qed.

Lemma mask_and_map {A : Type} (f g : A -> bool) (l : list A) :
  Pandas.mask_and (map f l) (map g l) = map (fun x => f x && g x) l.
Proof.
  induction l as [|x l IH]; simpl; [reflexivity|]. now rewrite IH.
Qed.

Lemma col_index_None (k : string) (cols : list string) :
  Pandas.col_index k cols = None <-> Pandas.mem k cols = false.
Proof.
  induction cols as [|c cols IH]; simpl; [tauto|].
  destruct (String.eqb k c); simpl.
  - split; discriminate.
  - destruct (Pandas.col_index k cols); simpl.
    + split; [discriminate|]. intro H. apply IH in H. discriminate.
    + split; intros _; [now apply IH | reflexivity].
Qed.

Lemma col_index_nth (cols : list string) :
  NoDup cols ->
  forall i, i < length cols -> Pandas.col_index (nth i cols "") cols = Some i.
Proof.
  induction 1 as [|c cols Hc Hnd IH]; intros i Hi; simpl in *; [lia|].
  destruct i as [|i].
  - now rewrite String.eqb_refl.
  - assert (Hlt : i < length cols) by lia.
    destruct (String.eqb (nth i cols "") c) eqn:E.
    + apply String.eqb_eq in E. exfalso. apply Hc. rewrite <- E.
      now apply nth_In.
    + now rewrite IH.
Qed.

(** A column read by name lists the cells of the rows under it. *)
Lemma getitem_cells (df : Pandas.DataFrame) (k : string) (s : Pandas.series) :
  Pandas.getitem df k = Ok s ->
  s = map (Pandas.cell_at (Pandas.columns df) k) (Pandas.rows df).
Proof.
  unfold Pandas.getitem, Pandas.cell_at.
  destruct (Pandas.col_index k (Pandas.columns df)); intro H;
    [now injection H as <- | discriminate].
Qed.

Lemma getitem_present (df : Pandas.DataFrame) (k : string) :
  Pandas.mem k (Pandas.columns df) = true ->
  Pandas.getitem df k
  = Ok (map (Pandas.cell_at (Pandas.columns df) k) (Pandas.rows df)).
Proof.
  intro H. unfold Pandas.getitem, Pandas.cell_at.
  destruct (Pandas.col_index k (Pandas.columns df)) eqn:E; [reflexivity|].
  apply col_index_None in E. congruence.
Qed.

Lemma row_getitem_present (cols : list string) (row : list Pandas.cell)
    (k : string) :
  Pandas.mem k cols = true ->
  Pandas.row_getitem cols row k = Ok (Pandas.cell_at cols k row).
Proof.
  intro H. unfold Pandas.row_getitem, Pandas.cell_at.
  destruct (Pandas.col_index k cols) eqn:E; [reflexivity|].
  apply col_index_None in E. congruence.
Qed.

(** Re-indexing a row on its own labels changes nothing. *)
Lemma reindex_id (cols : list string) (row : list Pandas.cell) :
  NoDup cols -> length row = length cols -> Pandas.reindex cols cols row = row.
Proof.
  intros Hnd Hlen. unfold Pandas.reindex.
  apply nth_ext with (d := Pandas.cell_at cols "" row) (d' := Pandas.NaN).
  - now rewrite length_map.
  - intros i Hi. rewrite length_map in Hi.
    rewrite (map_nth (fun c => Pandas.cell_at cols c row) cols "" i).
    unfold Pandas.cell_at. now rewrite col_index_nth.
Qed.

Lemma add_labels_known (seen new : list string) :
  (forall k, In k new -> In k seen) -> Pandas.add_labels seen new = seen.
Proof.
  induction new as [|k new IH]; intro H; simpl; [reflexivity|].
  assert (Hk : Pandas.mem k seen = true) by (apply mem_In, H; now left).
  rewrite Hk. apply IH. intros k' Hk'. apply H. now right.
Qed.

(** The columns of a frame built from dicts that all carry the keys [keys]. *)
Lemma record_columns_uniform (keys : list string) (recs : list Pandas.record) :
  Pandas.add_labels [] keys = keys ->
  recs <> [] ->
  Forall (fun r => map fst r = keys) recs ->
  Pandas.record_columns recs = keys.
Proof.
  intros Hk Hne Hall. unfold Pandas.record_columns.
  destruct recs as [|r recs]; [congruence|]. simpl.
  apply Forall_cons_iff in Hall as [Hr Hrest]. rewrite Hr, Hk.
  clear Hne Hr. induction recs as [|r' recs IH]; simpl; [reflexivity|].
  apply Forall_cons_iff in Hrest as [Hr' Hrest]. rewrite Hr'.
  rewrite add_labels_known by auto. now apply IH.
Qed.

(** Concatenation when the second frame brings no new label. *)
Lemma concat_same_labels (a b : Pandas.DataFrame) :
  NoDup (Pandas.columns a) ->
  Pandas.wf a ->
  (forall k, In k (Pandas.columns b) -> In k (Pandas.columns a)) ->
  Pandas.concat a b
  = {| Pandas.columns := Pandas.columns a;
       Pandas.rows := Pandas.rows a
                      ++ map (Pandas.reindex (Pandas.columns b) (Pandas.columns a))
                             (Pandas.rows b) |}.
Proof.
  intros Hnd Hwf Hincl. unfold Pandas.concat.
  rewrite add_labels_known by assumption. f_equal. f_equal.
  unfold Pandas.wf in Hwf. induction (Pandas.rows a) as [|r rs IH]; simpl;
    [reflexivity|].
  apply Forall_cons_iff in Hwf as [Hr Hrs].
  rewrite reindex_id by assumption. now rewrite IH.
Qed.

Lemma wf_boolean_index (df : Pandas.DataFrame) (mask : list bool) :
  Pandas.wf df -> Pandas.wf (Pandas.boolean_index df mask).
Proof.
  unfold Pandas.wf, Pandas.boolean_index. simpl.
  generalize (Pandas.columns df) as cols. intros cols H. revert mask.
  induction H as [|r rs Hr Hrs IH]; intros [|b mask]; simpl; try constructor.
  destruct b; [constructor; [assumption|] |]; apply IH.
Qed.

(** ** The labels of a header *)

Lemma set_nth_length (i : nat) (col : string) (l : list string) :
  length (Csv.set_nth i col l) = length l.
Proof.
  revert i. induction l as [|x l IH]; intros [|i]; simpl; auto.
Qed.

Lemma set_nth_same (i : nat) (l : list string) :
  i < length l -> Csv.set_nth i (nth i l "") l = l.
Proof.
  revert i. induction l as [|x l IH]; intros [|i] H; simpl in *;
    try lia; auto.
  f_equal. apply IH. lia.
Qed.

Lemma dedup_at_length (acc : list string * Csv.counts) (i : nat) :
  length (fst (Csv.dedup_at acc i)) = length (fst acc).
Proof.
  destruct acc as [h cnt]. unfold Csv.dedup_at.
  destruct (Csv.number _ _ _ _ _ _) as [[col' cur] cnt']. simpl.
  apply set_nth_length.
Qed.

Lemma fold_dedup_length (order : list nat) (acc : list string * Csv.counts) :
  length (fst (fold_left Csv.dedup_at order acc)) = length (fst acc).
Proof.
  revert acc. induction order as [|i order IH]; intro acc; simpl;
    [reflexivity|].
  now rewrite IH, dedup_at_length.
Qed.

(** A header keeps its number of columns. *)
Lemma labels_length (header : list string) :
  length (Csv.labels header) = length header.
Proof.
  unfold Csv.labels. rewrite fold_dedup_length. cbn [fst].
  now rewrite length_map, length_seq.
Qed.

Lemma map_nth_seq (h : list string) :
  map (fun i => nth i h "") (seq 0 (length h)) = h.
Proof.
  apply nth_ext with (d := "") (d' := "").
  - now rewrite length_map, length_seq.
  - intros n Hn. rewrite length_map, length_seq in Hn.
    rewrite (nth_indep _ "" ((fun i => nth i h "") 0))
      by now rewrite length_map, length_seq.
    rewrite (map_nth (fun i => nth i h "")), seq_nth by assumption.
    reflexivity.
Qed.

Lemma filter_all {A : Type} (f : A -> bool) (l : list A) :
  (forall x, In x l -> f x = true) -> filter f l = l.
Proof.
  induction l as [|x l IH]; intro H; simpl; [reflexivity|].
  rewrite (H x (or_introl eq_refl)). f_equal. apply IH.
  intros y Hy. apply H. now right.
Qed.

Lemma filter_none {A : Type} (f : A -> bool) (l : list A) :
  (forall x, In x l -> f x = false) -> filter f l = [].
Proof.
  induction l as [|x l IH]; intro H; simpl; [reflexivity|].
  rewrite (H x (or_introl eq_refl)). apply IH.
  intros y Hy. apply H. now right.
Qed.

Lemma fold_dedup_plain (order : list nat) (h : list string) (cnt : Csv.counts) :
  (forall i, In i order -> i < length h) ->
  (forall i, In i order -> Csv.count_of cnt (nth i h "") = 0) ->
  NoDup (map (fun i => nth i h "") order) ->
  fst (fold_left Csv.dedup_at order (h, cnt)) = h.
Proof.
  revert cnt. induction order as [|i order IH]; intros cnt Hlt Hc Hnd;
    [reflexivity|].
  cbn [fold_left].
  assert (E : Csv.dedup_at (h, cnt) i
              = (h, Csv.set_count cnt (nth i h "") 1)).
  { unfold Csv.dedup_at. rewrite (Hc i (or_introl eq_refl)).
    cbn [Csv.number Nat.eqb]. rewrite set_nth_same by (apply Hlt; now left).
    reflexivity. }
  rewrite E. cbn [map] in Hnd. apply NoDup_cons_iff in Hnd as [Hnotin Hnd].
  apply IH.
  - intros j Hj. apply Hlt. now right.
  - intros j Hj. unfold Csv.set_count. cbn [Csv.count_of].
    destruct (String.eqb (nth i h "") (nth j h "")) eqn:Eq.
    + apply String.eqb_eq in Eq. exfalso. apply Hnotin. rewrite Eq.
      now apply (in_map (fun i => nth i h "")).
    + apply Hc. now right.
  - exact Hnd.
Qed.

(** Labels that are pairwise distinct and not empty are kept. *)
Lemma labels_plain (header : list string) :
  plain_header header -> Csv.labels header = header.
Proof.
  intros [Hnd Hne]. unfold Csv.labels, Csv.col_loop_order.
  assert (Hun : forall i, In i (seq 0 (length header)) ->
                          Csv.is_unnamed header i = false).
  { intros i Hi. apply in_seq in Hi. unfold Csv.is_unnamed.
    apply String.eqb_neq. intro H. apply Hne. rewrite <- H.
    apply nth_In. lia. }
  rewrite (filter_all (fun i => negb (Csv.is_unnamed header i))),
          (filter_none (Csv.is_unnamed header)), app_nil_r.
  - replace (map _ (seq 0 (length header))) with header.
    + apply fold_dedup_plain.
      * intros i Hi. apply in_seq in Hi. lia.
      * reflexivity.
      * now rewrite map_nth_seq.
    + rewrite <- (map_nth_seq header) at 1. apply map_ext_in.
      intros i Hi. now rewrite (Hun i Hi).
  - exact Hun.
  - intros i Hi. now rewrite (Hun i Hi).
Qed.

(** ** Numbered labels *)

Lemma str_of_nat_inj (m n : nat) :
  Csv.str_of_nat m = Csv.str_of_nat n -> m = n.
Proof.
  unfold Csv.str_of_nat. intro H.
  apply (f_equal DecimalString.NilEmpty.uint_of_string) in H.
  rewrite !DecimalString.NilEmpty.usu in H. injection H as H.
  apply (f_equal Nat.of_uint) in H.
  now rewrite !DecimalNat.Unsigned.of_to in H.
Qed.

Lemma append_inj (a b c : string) : (a ++ b = a ++ c)%string -> b = c.
Proof.
  induction a as [|x a IH]; simpl; intro H; [exact H|].
  injection H as H. now apply IH.
Qed.


Lemma numbered_inj (old : string) (j k : nat) :
  numbered old j = numbered old k -> j = k.
Proof.
  unfold numbered. intro H. apply append_inj in H. simpl in H.
  injection H as H. now apply str_of_nat_inj.
Qed.

Lemma numbered_not_empty (old : string) (k : nat) : numbered old k <> "".
Proof.
  unfold numbered. destruct old; simpl; discriminate.
Qed.


Lemma counted_set (cnt : Csv.counts) (col key : string) (n : nat) :
  n <> 0 ->
  (counted (Csv.set_count cnt col n) key <-> key = col \/ counted cnt key).
Proof.
  intro Hn. unfold counted, Csv.set_count. cbn [Csv.count_of].
  destruct (String.eqb col key) eqn:E.
  - apply String.eqb_eq in E. subst. tauto.
  - apply String.eqb_neq in E. split; [tauto|]. intros [-> | H]; tauto.
Qed.

(** The numbering loop ends, within [length this_header + 1] turns, on a
    name that is not a label yet; it counts no new name. *)
Lemma number_spec (h seen : list string) (old : string) (c0 : nat) :
  incl seen h -> In old seen ->
  forall (fuel cur : nat) (cnt : Csv.counts) (col : string),
    0 < c0 -> c0 <= cur ->
    (forall j, c0 <= j < cur -> In (numbered old j) h) ->
    length h + 1 <= fuel + (cur - c0) ->
    (forall key, counted cnt key -> In key seen) ->
    exists k cnt',
      Csv.number fuel h old cnt cur col = (numbered old k, 0, cnt') /\
      ~ In (numbered old k) h /\
      (forall key, counted cnt' key -> In key seen) /\
      (forall key, counted cnt key -> counted cnt' key).
Proof.
  intros Hseen Hold. induction fuel as [|fuel IH];
    intros cur cnt col Hc0 Hcur Hin Hfuel Hcnt.
  - exfalso.
    assert (Hle : length (map (numbered old) (seq c0 (cur - c0))) <= length h).
    { apply NoDup_incl_length.
      - apply Finite.Injective_map_NoDup; [|apply seq_NoDup].
        intros j k. apply numbered_inj.
      - intros x Hx. apply in_map_iff in Hx as (j & <- & Hj).
        apply in_seq in Hj. apply Hin. lia. }
    rewrite length_map, length_seq in Hle. lia.
  - cbn [Csv.number]. destruct (Nat.eqb cur 0) eqn:E0;
      [apply Nat.eqb_eq in E0; lia|].
    fold (numbered old cur).
    assert (Hcnt1 : forall key,
              counted (Csv.set_count cnt old (cur + 1)) key -> In key seen).
    { intros key Hk. apply counted_set in Hk; [|lia].
      destruct Hk as [-> | Hk]; auto. }
    assert (Hmono : forall key,
              counted cnt key -> counted (Csv.set_count cnt old (cur + 1)) key).
    { intros key Hk. apply counted_set; [lia | now right]. }
    destruct (Pandas.mem (numbered old cur) h) eqn:Em.
    + apply mem_In in Em.
      destruct (IH (cur + 1) (Csv.set_count cnt old (cur + 1)) (numbered old cur))
        as (k & cnt' & Hrun & Hk & Hsub & Hm); try lia; try assumption.
      * intros j Hj. destruct (Nat.eq_dec j cur) as [-> | Hne];
          [exact Em | apply Hin; lia].
      * exists k, cnt'. repeat split; auto.
    + assert (Hnot : ~ In (numbered old cur) h).
      { intro H. apply mem_In in H. congruence. }
      assert (Hzero : Csv.count_of (Csv.set_count cnt old (cur + 1))
                                   (numbered old cur) = 0).
      { destruct (Csv.count_of _ (numbered old cur)) eqn:Ec; [reflexivity|].
        exfalso. apply Hnot, Hseen, Hcnt1. unfold counted. rewrite Ec.
        discriminate. }
      rewrite Hzero. exists cur, (Csv.set_count cnt old (cur + 1)).
      split; [destruct fuel; reflexivity|]. repeat split; auto.
Qed.

Lemma set_nth_nth (i j : nat) (col : string) (l : list string) :
  i < length l ->
  nth j (Csv.set_nth i col l) "" = if Nat.eqb j i then col else nth j l "".
Proof.
  revert i j. induction l as [|x l IH]; intros [|i] [|j] H; simpl in *;
    try lia; try reflexivity.
  apply IH. lia.
Qed.

Lemma set_nth_Forall (P : string -> Prop) (i : nat) (col : string)
    (l : list string) :
  Forall P l -> P col -> Forall P (Csv.set_nth i col l).
Proof.
  intros Hl Hc. revert i. induction Hl as [|x l Hx Hl IH]; intros [|i];
    simpl; auto.
Qed.


Lemma map_nth_incl (h : list string) (done : list nat) :
  (forall i, In i done -> i < length h) ->
  incl (map (fun i => nth i h "") done) h.
Proof.
  intros Hlt x Hx. apply in_map_iff in Hx as (i & <- & Hi).
  apply nth_In. now apply Hlt.
Qed.

Lemma dedup_at_labelled (h : list string) (cnt : Csv.counts)
    (done : list nat) (i : nat) :
  labelled h cnt done -> i < length h -> ~ In i done ->
  labelled (fst (Csv.dedup_at (h, cnt) i)) (snd (Csv.dedup_at (h, cnt) i))
           (i :: done).
Proof.
  intros [Hc Hd Hnd Hlt Hnamed] Hi Hnew.
  assert (Hincl := map_nth_incl h done Hlt).
  assert (Hstep : exists col' cnt',
            Csv.dedup_at (h, cnt) i
            = (Csv.set_nth i col' h, Csv.set_count cnt' col' 1) /\
            ~ In col' (map (fun j => nth j h "") done) /\
            col' <> "" /\
            (forall key, counted cnt' key ->
                         In key (map (fun j => nth j h "") done)) /\
            (forall key, counted cnt key -> counted cnt' key)).
  { unfold Csv.dedup_at.
    destruct (Nat.eq_dec (Csv.count_of cnt (nth i h "")) 0) as [E | E].
    - rewrite E. cbn [Csv.number Nat.eqb]. exists (nth i h ""), cnt.
      split; [reflexivity|]. split; [|split; [|split; auto]].
      + intro H. apply in_map_iff in H as (j & Hj & Hin).
        apply (Hd j Hin). now rewrite Hj.
      + rewrite Forall_forall in Hnamed. apply Hnamed, nth_In, Hi.
    - destruct (number_spec h (map (fun j => nth j h "") done) (nth i h "")
                  (Csv.count_of cnt (nth i h "")) Hincl (Hc _ E)
                  (S (S (length h))) (Csv.count_of cnt (nth i h "")) cnt
                  (nth i h ""))
        as (k & cnt' & Hrun & Hk & Hsub & Hm); try lia; auto.
      rewrite Hrun. exists (numbered (nth i h "") k), cnt'.
      split; [reflexivity|]. split; [|split; [|split; auto]].
      + intro H. apply Hk, Hincl, H.
      + apply numbered_not_empty. }
  destruct Hstep as (col' & cnt' & -> & Hfresh & Hne & Hsub & Hm).
  cbn [fst snd].
  assert (Hsame : map (fun j => nth j (Csv.set_nth i col' h) "") done
                  = map (fun j => nth j h "") done).
  { apply map_ext_in. intros j Hj. rewrite set_nth_nth by assumption.
    destruct (Nat.eqb j i) eqn:E; [|reflexivity].
    apply Nat.eqb_eq in E. subst. contradiction. }
  assert (Hat : nth i (Csv.set_nth i col' h) "" = col').
  { rewrite set_nth_nth by assumption. now rewrite Nat.eqb_refl. }
  constructor.
  - intros key Hk. cbn [map]. rewrite Hat, Hsame.
    apply counted_set in Hk; [|discriminate].
    destruct Hk as [-> | Hk]; [now left | right; auto].
  - intros j [<- | Hj].
    + rewrite Hat. apply counted_set; [discriminate | now left].
    + apply counted_set; [discriminate|]. right. apply Hm.
      rewrite set_nth_nth by assumption.
      destruct (Nat.eqb j i) eqn:E;
        [apply Nat.eqb_eq in E; subst; contradiction|].
      now apply Hd.
  - cbn [map]. rewrite Hat, Hsame. now constructor.
  - intros j Hj. rewrite set_nth_length. destruct Hj as [<- | Hj]; auto.
  - now apply set_nth_Forall.
Qed.

Lemma fold_dedup_labelled (order : list nat) :
  forall (h : list string) (cnt : Csv.counts) (done : list nat),
    labelled h cnt done ->
    (forall i, In i order -> i < length h) ->
    NoDup (order ++ done) ->
    labelled (fst (fold_left Csv.dedup_at order (h, cnt)))
             (snd (fold_left Csv.dedup_at order (h, cnt)))
             (rev order ++ done).
Proof.
  induction order as [|i order IH]; intros h cnt done Hl Hlt Hnd;
    [exact Hl|].
  cbn [fold_left rev]. rewrite <- app_assoc. cbn [app].
  cbn [app] in Hnd. apply NoDup_cons_iff in Hnd as [Hi Hnd].
  pose proof (dedup_at_labelled h cnt done i Hl (Hlt i (or_introl eq_refl))
                (fun H => Hi (in_or_app _ _ _ (or_intror H)))) as Hstep.
  pose proof (dedup_at_length (h, cnt) i) as Hlen. cbn [fst] in Hlen.
  destruct (Csv.dedup_at (h, cnt) i) as [h' cnt']. cbn [fst snd] in *.
  apply (IH h' cnt' (i :: done)); [exact Hstep | |].
  - intros j Hj. rewrite Hlen. apply Hlt. now right.
  - apply (Permutation_NoDup (l := i :: order ++ done));
      [apply Permutation_middle | now constructor].
Qed.

Lemma col_loop_order_perm (header : list string) :
  Permutation (Csv.col_loop_order header) (seq 0 (length header)).
Proof.
  unfold Csv.col_loop_order. generalize (seq 0 (length header)). intro l.
  induction l as [|i l IH]; simpl; [constructor|].
  destruct (Csv.is_unnamed header i); simpl.
  - symmetry. apply Permutation_cons_app. now symmetry.
  - now constructor.
Qed.

(** The labels [read_csv] gives are pairwise distinct and none is
    empty. *)
Lemma labels_are_plain (header : list string) :
  plain_header (Csv.labels header).
Proof.
  unfold Csv.labels.
  set (h0 := map _ (seq 0 (length header))).
  assert (Hlen0 : length h0 = length header)
    by (unfold h0; now rewrite length_map, length_seq).
  assert (H0 : labelled h0 [] []).
  { constructor.
    - intros key Hk. now contradiction Hk.
    - intros i [].
    - constructor.
    - intros i [].
    - apply Forall_forall. intros col Hcol. unfold h0 in Hcol.
      apply in_map_iff in Hcol as (i & <- & Hi).
      unfold Csv.is_unnamed. destruct (String.eqb (nth i header "") "") eqn:E.
      + discriminate.
      + now apply String.eqb_neq in E. }
  pose proof (col_loop_order_perm header) as Hperm.
  pose proof (fold_dedup_labelled (Csv.col_loop_order header) h0 [] [] H0) as H.
  rewrite app_nil_r in H.
  assert (Hl : labelled (fst (fold_left Csv.dedup_at (Csv.col_loop_order header)
                                        (h0, [])))
                        (snd (fold_left Csv.dedup_at (Csv.col_loop_order header)
                                        (h0, [])))
                        (rev (Csv.col_loop_order header))).
  { rewrite <- (app_nil_r (rev _)). apply H.
    - intros i Hi. rewrite Hlen0.
      apply (Permutation_in _ Hperm) in Hi. apply in_seq in Hi. lia.
    - apply (Permutation_NoDup (Permutation_sym Hperm)), seq_NoDup. }
  pose proof (fold_dedup_length (Csv.col_loop_order header) (h0, [])) as Hlen.
  cbn [fst] in Hlen. rewrite Hlen0 in Hlen.
  destruct Hl as [_ _ Hnd _ Hnamed].
  set (h := fst (fold_left _ _ _)) in *.
  split.
  - rewrite <- (map_nth_seq h), Hlen.
    apply (Permutation_NoDup (l := map (fun i => nth i h "")
                                       (rev (Csv.col_loop_order header))));
      [|exact Hnd].
    apply Permutation_map.
    transitivity (Csv.col_loop_order header);
      [symmetry; apply Permutation_rev | exact Hperm].
  - intro Hin. rewrite Forall_forall in Hnamed. now apply (Hnamed "" Hin).
Qed.

Example labels_of_repeated_header :
  Csv.labels ["Year"; "Year"; "Subject_Code"; "Year"]
  = ["Year"; "Year.1"; "Subject_Code"; "Year.2"].
Proof. reflexivity. Qed.

Example labels_of_empty_fields :
  Csv.labels [""; "B"; ""; "Unnamed: 0"]
  = ["Unnamed: 0.1"; "B"; "Unnamed: 2"; "Unnamed: 0"].
Proof. reflexivity. Qed.


(** Headers given in full are plain by inspection. *)
Ltac solve_plain :=
  split;
  [ repeat (apply NoDup_cons; [simpl; intuition discriminate|]);
    apply NoDup_nil
  | simpl; intuition discriminate ].

(** ** Reading and writing files *)

Section CsvFacts.

Variable is_na : string -> bool.

Lemma parse_line_length (width : nat) (line : list string) :
  Csv.too_long width line = false ->
  length (Csv.parse_line is_na width line) = width.
Proof.
  unfold Csv.too_long, Csv.parse_line. intro H.
  apply Nat.ltb_ge in H.
  rewrite length_app, length_map, repeat_length. lia.
Qed.

Lemma parse_row_length (width leading : nat) (line : list string) :
  Csv.too_long width line = false ->
  length (Csv.parse_row is_na width leading line) = width - leading.
Proof.
  intro H. unfold Csv.parse_row. rewrite length_skipn.
  now rewrite parse_line_length.
Qed.

Lemma width_header (header : list string) (lines : list (list string)) :
  length header <= Csv.width header lines.
Proof. destruct lines; simpl; lia. Qed.

(** What [parse] accepts is a frame under the labels of the first line
    that is not blank, one cell per column in every row. *)
Lemma parse_Ok (c : Csv.content) (d : Pandas.DataFrame) :
  Csv.parse is_na c = Ok d ->
  exists header lines,
    (exists h0 l0, c = Csv.Table h0 l0 /\
       filter (fun line => negb (Csv.blank line)) (h0 :: l0) = header :: lines) /\
    header <> [] /\
    Pandas.columns d = Csv.labels header /\
    Pandas.rows d
    = map (Csv.parse_row is_na (Csv.width header lines)
                         (Csv.width header lines - length header)) lines /\
    Pandas.wf d.
Proof.
  destruct c as [|h0 l0]; [discriminate|]. unfold Csv.parse.
  destruct (filter _ (h0 :: l0)) as [|header lines] eqn:Ef; [discriminate|].
  cbv zeta. destruct (existsb _ lines) eqn:E; [discriminate|].
  intro H. injection H as <-. exists header, lines.
  split; [now exists h0, l0|]. split.
  { assert (Hin : In header (filter (fun line => negb (Csv.blank line)) (h0 :: l0)))
      by (rewrite Ef; now left).
    apply filter_In in Hin as [_ Hb]. now destruct header. }
  repeat split.
  unfold Pandas.wf. cbn [Pandas.rows Pandas.columns].
  apply Forall_forall. intros r Hr. apply in_map_iff in Hr as (l & <- & Hl).
  rewrite labels_length, parse_row_length.
  - pose proof (width_header header lines). lia.
  - destruct (Csv.too_long (Csv.width header lines) l) eqn:El; [|reflexivity].
    assert (existsb (Csv.too_long (Csv.width header lines)) lines = true)
      by (apply existsb_exists; eauto).
    congruence.
Qed.

Lemma parse_columns (c : Csv.content) (d : Pandas.DataFrame) :
  Csv.parse is_na c = Ok d -> Pandas.columns d <> [].
Proof.
  intro E. apply parse_Ok in E as (header & lines & _ & Hne & Hc & _).
  rewrite Hc. intro H. apply (f_equal (@length string)) in H.
  rewrite labels_length in H. now destruct header.
Qed.

Lemma Forall_skipn {A : Type} (P : A -> Prop) (n : nat) (l : list A) :
  Forall P l -> Forall P (skipn n l).
Proof.
  intro H. apply Forall_forall. intros x Hx.
  rewrite Forall_forall in H. apply H. rewrite <- (firstn_skipn n l).
  apply in_or_app. now right.
Qed.

(** Cells read from a file are never NA tokens. *)
Lemma parse_normal (c : Csv.content) (d : Pandas.DataFrame) :
  Csv.parse is_na c = Ok d -> Forall (Forall (normal is_na)) (Pandas.rows d).
Proof.
  intro E. apply parse_Ok in E as (header & lines & _ & _ & _ & -> & _).
  apply Forall_forall. intros r Hr. apply in_map_iff in Hr as (l & <- & _).
  unfold Csv.parse_row, Csv.parse_line. apply Forall_skipn, Forall_app. split.
  - apply Forall_forall. intros c' Hc'. apply in_map_iff in Hc' as (x & <- & _).
    unfold Csv.parse_field. destruct (is_na x) eqn:Ex; simpl; auto.
  - apply Forall_forall. intros c' Hc'. apply repeat_spec in Hc'. now subst.
Qed.

(** Whatever [read_csv] raises is caught by [except Exception]. *)
Lemma read_csv_raises (f : option Csv.content) (e : exn) :
  Csv.read_csv is_na f = Raise e -> is_Exception e = true.
Proof.
  destruct f as [c|]; simpl.
  - destruct c as [|header lines]; unfold Csv.parse.
    + intro H. now injection H as <-.
    + destruct (filter _ (header :: lines)) as [|h ls];
        [intro H; now injection H as <-|].
      cbv zeta. destruct (existsb _ ls); [|discriminate].
      intro H. now injection H as <-.
  - intro H. now injection H as <-.
Qed.

Lemma table_of_wf (p : path) (f : store) : Pandas.wf (table_of is_na p f).
Proof.
  unfold table_of. destruct (read_path f p) as [c|]; simpl.
  - destruct (Csv.parse is_na c) eqn:E.
    + now apply parse_Ok in E as (? & ? & _ & _ & _ & _ & Hwf).
    + constructor.
  - constructor.
Qed.

Lemma load_choices_eq (s : state) :
  load_choices is_na s = (Ok (table_of is_na CHOICE_FILE (fs s)), s).
Proof.
  unfold load_choices, try_except, read_file, table_of. simpl.
  destruct (Csv.read_csv is_na (student_choices_csv (fs s))) eqn:E;
    [reflexivity|].
  now rewrite (read_csv_raises _ _ E).
Qed.

Lemma load_availability_eq (s : state) :
  load_availability is_na s = (Ok (table_of is_na FAC_AVAIL_FILE (fs s)), s).
Proof.
  unfold load_availability, try_except, read_file, table_of. simpl.
  destruct (Csv.read_csv is_na (faculty_availability_csv (fs s))) eqn:E;
    [reflexivity|].
  now rewrite (read_csv_raises _ _ E).
Qed.

Lemma load_subjects_eq (s : state) :
  load_subjects is_na s = (Ok (table_of is_na SUBJECTS_FILE (fs s)), s).
Proof.
  unfold load_subjects, try_except, read_file, table_of. simpl.
  destruct (Csv.read_csv is_na (subjects_csv (fs s))) eqn:E; [reflexivity|].
  now rewrite (read_csv_raises _ _ E).
Qed.

(** C6.  When reading the backing file of a table raises (the path is
    missing, the content does not parse), its loader still returns normally,
    with the state untouched, and what it returns is the empty frame whose
    columns are exactly the canonical header of that table. *)
Theorem load_failure_gives_canonical_empty (s : state) (p : path) (e : exn) :
  Csv.read_csv is_na (read_path (fs s) p) = Raise e ->
  exists d,
    loader is_na p s = (Ok d, s) /\
    Pandas.columns d = canonical_header p /\
    Pandas.rows d = [] /\
    Pandas.empty d = true.
Proof.
  intro E. pose proof (read_csv_raises _ _ E) as Hexc.
  exists (Pandas.DataFrame_columns (canonical_header p)).
  split; [|destruct p; repeat split].
  destruct p; simpl in E |- *;
    unfold load_subjects, load_faculty, load_choices, load_availability,
      try_except, bind, read_file; simpl; rewrite E, Hexc; reflexivity.
Qed.

End CsvFacts.

Lemma load_failure_gives_canonical_empty_witness :
  exists d,
    loader Csv.default_na CHOICE_FILE
           (fresh (mkStore None None (Some Csv.Unreadable) None))
    = (Ok d, fresh (mkStore None None (Some Csv.Unreadable) None)) /\
    Pandas.columns d = CHOICE_COLUMNS /\
    Pandas.rows d = [] /\
    Pandas.empty d = true.
Proof.
  apply (load_failure_gives_canonical_empty Csv.default_na
           (fresh (mkStore None None (Some Csv.Unreadable) None))
           CHOICE_FILE ParserError).
  reflexivity.
Defined.

(** ** Availability defaults *)

Lemma rmap_Ok {A B : Type} (f : A -> result B) (g : A -> B) (l : list A) :
  (forall x, In x l -> f x = Ok (g x)) -> rmap f l = Ok (map g l).
Proof.
  induction l as [|x l IH]; intro H; simpl; [reflexivity|].
  rewrite H by now left. simpl. rewrite IH; [reflexivity|].
  intros y Hy. apply H. now right.
Qed.

Lemma default_rows_Ok (fname : Pandas.cell) (subjects : Pandas.DataFrame) :
  Pandas.mem "Subject_Code" (Pandas.columns subjects) = true ->
  Pandas.mem "Subject_Name" (Pandas.columns subjects) = true ->
  default_rows fname subjects
  = Ok (map (fun srow =>
               availability_row fname
                 (Pandas.cell_at (Pandas.columns subjects) "Subject_Code" srow)
                 (Pandas.cell_at (Pandas.columns subjects) "Subject_Name" srow)
                 (Some "Yes"))
            (Pandas.rows subjects)).
Proof.
  intros Hc Hn. unfold default_rows. apply rmap_Ok. intros srow _.
  rewrite !row_getitem_present by assumption. reflexivity.
Qed.

Lemma default_availability_Ok (faculty subjects : Pandas.DataFrame) :
  Pandas.mem "Subject_Code" (Pandas.columns subjects) = true ->
  Pandas.mem "Subject_Name" (Pandas.columns subjects) = true ->
  default_availability faculty subjects
  = Ok (flat_map
          (fun frow =>
             map (fun srow =>
                    availability_row (fname_of (Pandas.columns faculty) frow)
                      (Pandas.cell_at (Pandas.columns subjects) "Subject_Code" srow)
                      (Pandas.cell_at (Pandas.columns subjects) "Subject_Name" srow)
                      (Some "Yes"))
                 (Pandas.rows subjects))
          (Pandas.rows faculty)).
Proof.
  intros Hc Hn. unfold default_availability.
  rewrite (rmap_Ok _
             (fun frow =>
                map (fun srow =>
                       availability_row (fname_of (Pandas.columns faculty) frow)
                         (Pandas.cell_at (Pandas.columns subjects) "Subject_Code" srow)
                         (Pandas.cell_at (Pandas.columns subjects) "Subject_Name" srow)
                         (Some "Yes"))
                    (Pandas.rows subjects))).
  - simpl. now rewrite flat_map_concat_map.
  - intros frow _. now apply default_rows_Ok.
Qed.

(** A frame built from availability dicts. *)
Lemma from_availability_rows (recs : list Pandas.record) :
  recs <> [] ->
  Forall (fun r => exists f c n a, r = availability_row f c n a) recs ->
  Pandas.from_records recs
  = {| Pandas.columns := AVAIL_COLUMNS;
       Pandas.rows := map (fun r => map (Pandas.dict_get r) AVAIL_COLUMNS) recs |}.
Proof.
  intros Hne Hall. unfold Pandas.from_records.
  rewrite (record_columns_uniform AVAIL_COLUMNS); try reflexivity; try assumption.
  eapply Forall_impl; [|exact Hall]. intros r (f & c & n & a & ->). reflexivity.
Qed.

Lemma NoDup_map_injective {A B : Type} (f : A -> B) (l : list A) :
  (forall x y, f x = f y -> x = y) -> NoDup l -> NoDup (map f l).
Proof.
  intros Hinj Hl. induction Hl as [|a l Ha Hl IH]; simpl; constructor;
    [|exact IH].
  intro Hin. apply in_map_iff in Hin as (x & E & Hx).
  apply Hinj in E. now subst.
Qed.

Lemma NoDup_pairs {A B : Type} (l : list A) (l' : list B) :
  NoDup l -> NoDup l' -> NoDup (flat_map (fun a => map (pair a) l') l).
Proof.
  intros Hl Hl'. induction Hl as [|a l Ha Hl IH]; simpl; [constructor|].
  apply NoDup_app.
  - apply NoDup_map_injective; [|assumption]. intros x y E. now injection E.
  - exact IH.
  - intros [a' b'] Hin Hin'. apply in_map_iff in Hin as (b & E & _).
    injection E as <- <-. apply in_flat_map in Hin' as (a'' & Ha'' & Hb).
    apply in_map_iff in Hb as (b'' & E & _). injection E as <- _. contradiction.
Qed.

Lemma initialize_availability_eq (s : state) :
  initialize_availability_if_empty s =
  if Pandas.empty (faculty_df s) || Pandas.empty (subjects_df s) then (Ok tt, s)
  else if Pandas.empty (avail_df s) then
    match default_availability (faculty_df s) (subjects_df s) with
    | Ok rows =>
        (Ok tt,
         set_fs (write_path (fs s) FAC_AVAIL_FILE
                   (Some (Csv.to_csv (Pandas.from_records rows))))
                (set_avail_df (Pandas.from_records rows) s))
    | Raise e => (Raise e, s)
    end
  else (Ok tt, s).
Proof.
  unfold initialize_availability_if_empty, bind, gets, lift, modify,
    save_df_to_csv, ret. simpl.
  destruct (Pandas.empty (faculty_df s) || Pandas.empty (subjects_df s));
    [reflexivity|].
  destruct (Pandas.empty (avail_df s)); [|reflexivity].
  destruct (default_availability (faculty_df s) (subjects_df s)); reflexivity.
Qed.

Lemma map_flat_map {A B C : Type} (g : B -> C) (f : A -> list B) (l : list A) :
  map g (flat_map f l) = flat_map (fun x => map g (f x)) l.
Proof.
  induction l as [|x l IH]; simpl; [reflexivity|].
  now rewrite map_app, IH.
Qed.

Lemma length_cross {A B C : Type} (h : A -> B -> C) (l : list A) (l' : list B) :
  length (flat_map (fun a => map (h a) l') l) = length l * length l'.
Proof.
  induction l as [|x l IH]; simpl; [reflexivity|].
  now rewrite length_app, length_map, IH.
Qed.

Lemma default_cells_keys (faculty subjects : Pandas.DataFrame) :
  map avail_key (default_cells faculty subjects)
  = flat_map (fun a => map (pair a) (subject_codes subjects))
             (faculty_names faculty).
Proof.
  unfold default_cells, faculty_names, subject_codes.
  rewrite map_flat_map, flat_map_concat_map, flat_map_concat_map, map_map.
  f_equal. apply map_ext. intro frow. now rewrite !map_map.
Qed.

(** C2, as the code has it.  When a reference frame is empty or there is
    availability data already, initialisation changes nothing.  Otherwise,
    over a subjects frame that has the code and name columns, it assigns and
    writes a frame with the canonical availability columns and exactly
    |Faculty| * |Subjects| rows, one per faculty row and subject row, all
    with Available = "Yes"; the (Faculty_Name, Subject_Code) pairs are free
    of duplicates when the faculty names are pairwise distinct and the
    subject codes are pairwise distinct. *)
Theorem initialize_availability_cross_join (s : state) :
  (nothing_to_initialize s = true ->
   initialize_availability_if_empty s = (Ok tt, s)) /\
  (nothing_to_initialize s = false ->
   Pandas.mem "Subject_Code" (Pandas.columns (subjects_df s)) = true ->
   Pandas.mem "Subject_Name" (Pandas.columns (subjects_df s)) = true ->
   exists T,
     initialize_availability_if_empty s
     = (Ok tt,
        set_fs (write_path (fs s) FAC_AVAIL_FILE (Some (Csv.to_csv T)))
               (set_avail_df T s)) /\
     Pandas.columns T = AVAIL_COLUMNS /\
     Pandas.rows T = default_cells (faculty_df s) (subjects_df s) /\
     length (Pandas.rows T)
     = length (Pandas.rows (faculty_df s)) * length (Pandas.rows (subjects_df s)) /\
     Forall (fun r => Pandas.cell_at AVAIL_COLUMNS "Available" r = Some "Yes")
            (Pandas.rows T) /\
     (NoDup (faculty_names (faculty_df s)) ->
      NoDup (subject_codes (subjects_df s)) ->
      NoDup (map avail_key (Pandas.rows T)))).
Proof.
  rewrite initialize_availability_eq. unfold nothing_to_initialize. split.
  - intro G.
    destruct (Pandas.empty (faculty_df s) || Pandas.empty (subjects_df s));
      [reflexivity|].
    simpl in G. apply negb_true_iff in G. now rewrite G.
  - intros G Hc Hn.
    destruct (Pandas.empty (faculty_df s) || Pandas.empty (subjects_df s)) eqn:E;
      [discriminate|].
    simpl in G. apply negb_false_iff in G. rewrite G.
    apply orb_false_iff in E as [EF ES].
    rewrite (default_availability_Ok _ _ Hc Hn).
    set (recs := flat_map _ (Pandas.rows (faculty_df s))).
    assert (Hrows : map (fun r => map (Pandas.dict_get r) AVAIL_COLUMNS) recs
                    = default_cells (faculty_df s) (subjects_df s)).
    { unfold recs, default_cells. rewrite map_flat_map.
      apply flat_map_ext. intro frow. now rewrite map_map. }
    assert (Hlen : length (default_cells (faculty_df s) (subjects_df s))
                   = length (Pandas.rows (faculty_df s))
                     * length (Pandas.rows (subjects_df s)))
      by apply length_cross.
    assert (Hne : recs <> []).
    { intro Hnil. rewrite <- Hrows, Hnil in Hlen. simpl in Hlen.
      unfold Pandas.empty in EF, ES.
      apply orb_false_iff in EF as [_ EF]. apply orb_false_iff in ES as [_ ES].
      apply Nat.eqb_neq in EF, ES. nia. }
    assert (Hall : Forall (fun r => exists f c n a, r = availability_row f c n a)
                          recs).
    { apply Forall_forall. intros r Hr. unfold recs in Hr.
      apply in_flat_map in Hr as (frow & _ & Hr).
      apply in_map_iff in Hr as (srow & <- & _). eauto. }
    rewrite (from_availability_rows _ Hne Hall), Hrows.
    eexists. split; [reflexivity|]. simpl.
    repeat split; try assumption.
    + apply Forall_forall. intros r Hr. unfold default_cells in Hr.
      apply in_flat_map in Hr as (frow & _ & Hr).
      apply in_map_iff in Hr as (srow & <- & _). reflexivity.
    + intros HF HS. rewrite default_cells_keys. now apply NoDup_pairs.
Qed.

Lemma initialize_availability_cross_join_witness :
  exists T,
    initialize_availability_if_empty scenario_state
    = (Ok tt,
       set_fs (write_path (fs scenario_state) FAC_AVAIL_FILE
                          (Some (Csv.to_csv T)))
              (set_avail_df T scenario_state)) /\
    Pandas.columns T = AVAIL_COLUMNS /\
    Pandas.rows T
    = [ [Some "Dr. A"; Some "CS101"; Some "Intro"; Some "Yes"];
        [Some "Dr. B"; Some "CS101"; Some "Intro"; Some "Yes"] ] /\
    length (Pandas.rows T) = 2 * 1 /\
    NoDup (map avail_key (Pandas.rows T)).
Proof.
  destruct (initialize_availability_cross_join scenario_state) as [_ H].
  destruct (H eq_refl eq_refl eq_refl) as (T & Hrun & Hcols & Hrows & Hlen & _ & Hnd).
  exists T. repeat split; try assumption.
  apply Hnd.
  - repeat constructor; simpl; intuition discriminate.
  - repeat constructor; simpl; intuition discriminate.
Defined.

(** C2, as the claim has it, fails on a subjects table that lists one code
    under two years: both reference frames are non-empty, availability is
    empty, and the frame initialisation writes carries the pair
    (Dr. A, CS101) twice. *)
Lemma initialize_availability_duplicate_pairs :
  Pandas.rows (subjects_df shared_code_state)
  = [ [Some "1"; Some "CS101"; Some "Intro"];
      [Some "2"; Some "CS101"; Some "Intro"] ] /\
  Pandas.rows (faculty_df shared_code_state) = [ [Some "Dr. A"] ] /\
  Pandas.empty (avail_df shared_code_state) = true /\
  faculty_availability_csv
    (fs (snd (initialize_availability_if_empty shared_code_state)))
  = Some (Csv.Table AVAIL_COLUMNS
            [ ["Dr. A"; "CS101"; "Intro"; "Yes"];
              ["Dr. A"; "CS101"; "Intro"; "Yes"] ]) /\
  map avail_key
      (Pandas.rows (avail_df (snd (initialize_availability_if_empty
                                     shared_code_state))))
  = [ (Some "Dr. A", Some "CS101"); (Some "Dr. A", Some "CS101") ] /\
  ~ NoDup (map avail_key
             (Pandas.rows (avail_df (snd (initialize_availability_if_empty
                                            shared_code_state))))).
Proof.
  repeat split.
  intro H. vm_compute in H. inversion H as [|x l Hx _]. apply Hx. now left.
Qed.

(** ** Saving availability *)

Section AvailFacts.

Variable is_na : string -> bool.

Lemma save_avail_eq (F : string) (U : list Pandas.record) (s : state) :
  let pre := table_of is_na FAC_AVAIL_FILE (fs s) in
  save_avail is_na F U s =
  if Pandas.mem "Faculty_Name" (Pandas.columns pre)
  then (Raise RerunException,
        show (st_success "Your availability has been updated.")
          (set_fs (write_path (fs s) FAC_AVAIL_FILE
                     (Some (Csv.to_csv (saved_availability pre F U))))
                  (set_avail_df (saved_availability pre F U) s)))
  else (Raise (KeyError "Faculty_Name"), set_avail_df pre s).
Proof.
  intro pre. unfold save_avail, bind. rewrite load_availability_eq.
  fold pre. unfold modify, lift. simpl.
  destruct (Pandas.mem "Faculty_Name" (Pandas.columns pre)) eqn:E.
  - rewrite (getitem_present _ _ E). reflexivity.
  - unfold Pandas.getitem. apply col_index_None in E. rewrite E. reflexivity.
Qed.

Lemma submitted_rows_frame (F : string) (U : list Pandas.record) :
  submitted_by F U ->
  (forall k, In k (Pandas.columns (Pandas.from_records U)) -> In k AVAIL_COLUMNS) /\
  map (Pandas.reindex (Pandas.columns (Pandas.from_records U)) AVAIL_COLUMNS)
      (Pandas.rows (Pandas.from_records U))
  = map (fun r => map (Pandas.dict_get r) AVAIL_COLUMNS) U /\
  Forall (fun r => faculty_is F r = true)
         (map (fun r => map (Pandas.dict_get r) AVAIL_COLUMNS) U).
Proof.
  intro HU. destruct U as [|r0 U0] eqn:EU.
  - repeat split; [intros k []| constructor].
  - assert (Hne : U <> []) by (rewrite EU; discriminate).
    rewrite <- EU in *. clear EU r0 U0.
    rewrite from_availability_rows; [|assumption|].
    + simpl Pandas.columns. simpl Pandas.rows. repeat split; [auto| |].
      * rewrite map_map. apply map_ext_in. intros r' Hr'.
        apply reindex_id; [|now rewrite length_map].
        repeat constructor; simpl; intuition discriminate.
      * apply Forall_forall. intros cells Hc.
        apply in_map_iff in Hc as (r' & <- & Hr').
        unfold submitted_by in HU. rewrite Forall_forall in HU.
        destruct (HU r' Hr') as (c & n & a & ->).
        unfold faculty_is. simpl. apply String.eqb_refl.
    + eapply Forall_impl; [|exact HU]. intros r' (c & n & a & ->). eauto.
Qed.

(** The frame written by a save: the rows of other faculty members, in
    their order, followed by the submitted rows. *)
Lemma saved_availability_rows (pre : Pandas.DataFrame) (F : string)
    (U : list Pandas.record) :
  Pandas.columns pre = AVAIL_COLUMNS ->
  Pandas.wf pre ->
  submitted_by F U ->
  saved_availability pre F U
  = {| Pandas.columns := AVAIL_COLUMNS;
       Pandas.rows := filter (other_faculty F) (Pandas.rows pre)
                      ++ map (fun r => map (Pandas.dict_get r) AVAIL_COLUMNS) U |}.
Proof.
  intros Hcols Hwf HU. unfold saved_availability.
  destruct (submitted_rows_frame F U HU) as (Hincl & Hre & _).
  rewrite concat_same_labels.
  - unfold Pandas.boolean_index at 1 2 3.
    cbn [Pandas.columns Pandas.rows]. rewrite Hcols, Hre.
    unfold Pandas.series_ne. rewrite map_map, select_map. reflexivity.
  - simpl. rewrite Hcols. repeat constructor; simpl; intuition discriminate.
  - now apply wf_boolean_index.
  - simpl. now rewrite Hcols.
Qed.

Lemma filter_all_false {A : Type} (f : A -> bool) (l : list A) :
  Forall (fun x => f x = false) l -> filter f l = [].
Proof.
  induction 1 as [|x l Hx _ IH]; simpl; [reflexivity|]. now rewrite Hx.
Qed.

Lemma filter_filter_same {A : Type} (f : A -> bool) (l : list A) :
  filter f (filter f l) = filter f l.
Proof.
  induction l as [|x l IH]; simpl; [reflexivity|].
  destruct (f x) eqn:E; simpl; [rewrite E; now f_equal | exact IH].
Qed.

(** C3.  A save by faculty member [F] over an availability table with the
    canonical header ends in the rerun after writing the frame [T], in
    which the rows of every other faculty member are exactly those of the
    freshly reloaded table, in the same order and number: none is altered,
    dropped or added.  The other three files are not written. *)
Theorem save_avail_keeps_other_faculty (s : state) (F : string)
    (U : list Pandas.record) :
  Pandas.columns (table_of is_na FAC_AVAIL_FILE (fs s)) = AVAIL_COLUMNS ->
  submitted_by F U ->
  let pre := table_of is_na FAC_AVAIL_FILE (fs s) in
  let T := saved_availability pre F U in
  (exists s',
     save_avail is_na F U s = (Raise RerunException, s') /\
     fs s' = write_path (fs s) FAC_AVAIL_FILE (Some (Csv.to_csv T))) /\
  Pandas.columns T = AVAIL_COLUMNS /\
  filter (other_faculty F) (Pandas.rows T)
  = filter (other_faculty F) (Pandas.rows pre) /\
  (forall r, other_faculty F r = true ->
             (In r (Pandas.rows T) <-> In r (Pandas.rows pre))).
Proof.
  intros Hcols HU pre T.
  pose proof (saved_availability_rows _ F U Hcols (table_of_wf is_na _ _) HU) as HT.
  fold pre in HT. fold T in HT.
  destruct (submitted_rows_frame F U HU) as (_ & _ & HF).
  assert (Hfilter : filter (other_faculty F) (Pandas.rows T)
                    = filter (other_faculty F) (Pandas.rows pre)).
  { rewrite HT. cbn [Pandas.rows]. rewrite filter_app, filter_filter_same.
    rewrite (filter_all_false (other_faculty F)
               (map (fun r => map (Pandas.dict_get r) AVAIL_COLUMNS) U));
      [apply app_nil_r|].
    eapply Forall_impl; [|exact HF]. intros r Hr. unfold other_faculty.
    now rewrite Hr. }
  split; [|split; [now rewrite HT | split; [exact Hfilter|]]].
  - rewrite save_avail_eq. cbv zeta. rewrite Hcols.
    change (Pandas.mem "Faculty_Name" AVAIL_COLUMNS) with true. cbv iota.
    eexists. split; reflexivity.
  - intros r Hr. split; intro Hin.
    + assert (H : In r (filter (other_faculty F) (Pandas.rows T)))
        by (apply filter_In; now split).
      rewrite Hfilter in H. now apply filter_In in H.
    + assert (H : In r (filter (other_faculty F) (Pandas.rows pre)))
        by (apply filter_In; now split).
      rewrite <- Hfilter in H. now apply filter_In in H.
Qed.

Lemma read_write_path (f : store) (p : path) (c : option Csv.content) :
  read_path (write_path f p c) p = c.
Proof. destruct p; reflexivity. Qed.

Lemma write_write_path (f : store) (p : path) (a b : option Csv.content) :
  write_path (write_path f p a) p b = write_path f p b.
Proof. destruct p; reflexivity. Qed.

Lemma table_of_normal (p : path) (f : store) :
  Forall (Forall (normal is_na)) (Pandas.rows (table_of is_na p f)).
Proof.
  unfold table_of. destruct (read_path f p) as [c|]; simpl; [|constructor].
  destruct (Csv.parse is_na c) eqn:E; [|constructor].
  now apply parse_normal in E.
Qed.

(** Reading back a frame that was written: same columns, every cell
    [reread]. *)
Lemma parse_to_csv (T : Pandas.DataFrame) :
  Pandas.wf T -> Pandas.columns T <> [] -> plain_header (Pandas.columns T) ->
  Csv.parse is_na (Csv.to_csv T)
  = Ok {| Pandas.columns := Pandas.columns T;
          Pandas.rows := map (map (reread is_na)) (Pandas.rows T) |}.
Proof.
  intros Hwf Hne Hplain. unfold Csv.to_csv, Csv.parse.
  assert (Hlines : Forall (fun l => length l = length (Pandas.columns T))
                          (map (map Csv.na_rep) (Pandas.rows T))).
  { apply Forall_forall. intros l Hl. apply in_map_iff in Hl as (r & <- & Hr).
    rewrite length_map. unfold Pandas.wf in Hwf. rewrite Forall_forall in Hwf.
    now apply Hwf. }
  rewrite filter_all.
  2:{ intros l [<- | Hl].
      - destruct (Pandas.columns T); [congruence | reflexivity].
      - rewrite Forall_forall in Hlines. specialize (Hlines l Hl).
        destruct l; [|reflexivity].
        destruct (Pandas.columns T); [congruence | discriminate]. }
  cbv zeta.
  assert (Hw : Csv.width (Pandas.columns T)
                         (map (map Csv.na_rep) (Pandas.rows T))
               = length (Pandas.columns T)).
  { unfold Csv.width.
    destruct (map (map Csv.na_rep) (Pandas.rows T)) as [|first rest];
      [reflexivity|].
    apply Forall_inv in Hlines. rewrite Hlines. apply Nat.max_id. }
  rewrite Hw, Nat.sub_diag, labels_plain by assumption.
  destruct (existsb _ _) eqn:E.
  - apply existsb_exists in E as (l & Hl & Hlong). rewrite Forall_forall in Hlines.
    unfold Csv.too_long in Hlong. apply Nat.ltb_lt in Hlong.
    specialize (Hlines l Hl). lia.
  - f_equal. f_equal. rewrite map_map. apply map_ext_in. intros r Hr.
    unfold Csv.parse_row. cbn [skipn].
    unfold Csv.parse_line. rewrite length_map.
    unfold Pandas.wf in Hwf. rewrite Forall_forall in Hwf.
    rewrite (Hwf r Hr), Nat.sub_diag. simpl. rewrite app_nil_r, map_map.
    reflexivity.
Qed.

Lemma na_rep_reread (c : Pandas.cell) :
  normal is_na c -> Csv.na_rep (reread is_na c) = Csv.na_rep c.
Proof.
  unfold reread, Csv.parse_field. destruct c as [x|]; simpl.
  - intros ->. reflexivity.
  - intros _. now destruct (is_na "").
Qed.

Lemma faculty_is_reread (F : string) (r : list Pandas.cell) :
  is_na F = false ->
  faculty_is F r = true -> faculty_is F (map (reread is_na) r) = true.
Proof.
  intros HF. unfold faculty_is. destruct r as [|c r]; [discriminate|].
  cbn [map]. intro H. apply eq_str_eq in H.
  change (Pandas.cell_at AVAIL_COLUMNS "Faculty_Name" (c :: r)) with c in H.
  change (Pandas.cell_at AVAIL_COLUMNS "Faculty_Name" (reread is_na c :: map (reread is_na) r))
    with (reread is_na c).
  rewrite H. unfold reread, Csv.parse_field.
  simpl. rewrite HF. simpl. apply String.eqb_refl.
Qed.

Lemma other_faculty_reread (F : string) (r : list Pandas.cell) :
  F <> "" -> Forall (normal is_na) r ->
  other_faculty F r = true -> other_faculty F (map (reread is_na) r) = true.
Proof.
  intros HF Hn. unfold other_faculty, faculty_is.
  destruct r as [|c r]; [reflexivity|]. cbn [map].
  change (Pandas.cell_at AVAIL_COLUMNS "Faculty_Name" (c :: r)) with c.
  change (Pandas.cell_at AVAIL_COLUMNS "Faculty_Name" (reread is_na c :: map (reread is_na) r))
    with (reread is_na c).
  apply Forall_cons_iff in Hn as [Hc _].
  unfold reread, Csv.parse_field. destruct c as [x|]; simpl in *.
  - now rewrite Hc.
  - intros _. destruct (is_na ""); simpl; [reflexivity|].
    destruct F; [congruence | reflexivity].
Qed.

Lemma filter_all_true {A : Type} (f : A -> bool) (l : list A) :
  Forall (fun x => f x = true) l -> filter f l = l.
Proof.
  induction 1 as [|x l Hx _ IH]; simpl; [reflexivity|]. now rewrite Hx, IH.
Qed.

Lemma saved_availability_twice (T : Pandas.DataFrame) (F : string)
    (U : list Pandas.record) :
  Pandas.columns T = AVAIL_COLUMNS ->
  Pandas.wf T ->
  submitted_by F U ->
  saved_availability (saved_availability T F U) F U = saved_availability T F U.
Proof.
  intros Hcols Hwf HU.
  destruct (submitted_rows_frame F U HU) as (_ & _ & HUF).
  rewrite (saved_availability_rows T F U Hcols Hwf HU).
  set (cellsU := map (fun r => map (Pandas.dict_get r) AVAIL_COLUMNS) U) in *.
  rewrite saved_availability_rows; try assumption; try reflexivity.
  - cbn [Pandas.rows]. f_equal. f_equal.
    rewrite filter_app, filter_filter_same.
    rewrite (filter_all_false (other_faculty F) cellsU); [apply app_nil_r|].
    eapply Forall_impl; [|exact HUF]. intros r Hr. unfold other_faculty.
    now rewrite Hr.
  - unfold Pandas.wf. cbn [Pandas.rows Pandas.columns]. apply Forall_app. split.
    + apply Forall_forall. intros r Hr. apply filter_In in Hr as [Hr _].
      unfold Pandas.wf in Hwf. rewrite Forall_forall in Hwf.
      rewrite (Hwf r Hr). now rewrite Hcols.
    + apply Forall_forall. intros r Hr. unfold cellsU in Hr.
      apply in_map_iff in Hr as (r' & <- & _). now rewrite length_map.
Qed.

(** C10.  The save is idempotent.  On frames: over any availability frame
    with the canonical header, removing the rows of [F] and appending the
    submitted rows twice gives the frame that doing it once gives.  Through
    the data directory: after a save by [F] (whose name is not an NA token
    nor empty, as every name the select box of the faculty view offers), a
    second save of the same submitted rows, which reloads what the first
    wrote, ends in the rerun like the first and leaves the directory
    exactly as the first left it: the same files, hence the same rows. *)
Theorem save_avail_idempotent (s : state) (F : string)
    (U : list Pandas.record) :
  Pandas.columns (table_of is_na FAC_AVAIL_FILE (fs s)) = AVAIL_COLUMNS ->
  submitted_by F U ->
  (forall T,
     Pandas.columns T = AVAIL_COLUMNS -> Pandas.wf T ->
     saved_availability (saved_availability T F U) F U
     = saved_availability T F U) /\
  (is_na F = false ->
   F <> "" ->
   forall s2,
     fs s2 = fs (snd (save_avail is_na F U s)) ->
     fst (save_avail is_na F U s) = Raise RerunException /\
     fst (save_avail is_na F U s2) = Raise RerunException /\
     fs (snd (save_avail is_na F U s2)) = fs (snd (save_avail is_na F U s))).
Proof.
  intros Hcols HU. split.
  { intros T HT Hwf. now apply saved_availability_twice. }
  intros HF HF' s2 Hfs.
  pose proof (saved_availability_rows _ F U Hcols (table_of_wf is_na _ _) HU) as HT1.
  pose proof (table_of_normal FAC_AVAIL_FILE (fs s)) as Hnorm.
  pose proof (table_of_wf is_na FAC_AVAIL_FILE (fs s)) as Hwf.
  destruct (submitted_rows_frame F U HU) as (_ & _ & HUF).
  rewrite save_avail_eq in Hfs |- *. cbv zeta in Hfs |- *.
  rewrite Hcols in Hfs |- *.
  change (Pandas.mem "Faculty_Name" AVAIL_COLUMNS) with true in Hfs |- *.
  cbn [fst snd fs show set_fs] in Hfs |- *.
  set (pre := table_of is_na FAC_AVAIL_FILE (fs s)) in *.
  set (cellsU := map (fun r => map (Pandas.dict_get r) AVAIL_COLUMNS) U) in *.
  (* the table the second save reloads *)
  assert (Hpre2 : table_of is_na FAC_AVAIL_FILE (fs s2)
                  = {| Pandas.columns := AVAIL_COLUMNS;
                       Pandas.rows :=
                         map (map (reread is_na))
                             (filter (other_faculty F) (Pandas.rows pre) ++ cellsU) |}).
  { unfold table_of. rewrite Hfs, read_write_path. cbn [Csv.read_csv].
    rewrite parse_to_csv.
    - now rewrite HT1.
    - rewrite HT1. unfold Pandas.wf. cbn [Pandas.rows Pandas.columns].
      apply Forall_app. split.
      + apply Forall_forall. intros r Hr. apply filter_In in Hr as [Hr _].
        unfold Pandas.wf in Hwf. rewrite Forall_forall in Hwf.
        rewrite (Hwf r Hr). fold pre. now rewrite Hcols.
      + apply Forall_forall. intros r Hr. unfold cellsU in Hr.
        apply in_map_iff in Hr as (r' & <- & _). now rewrite length_map.
    - rewrite HT1. discriminate.
    - rewrite HT1. cbn [Pandas.columns]. solve_plain. }
  assert (Hcols2 : Pandas.columns (table_of is_na FAC_AVAIL_FILE (fs s2))
                   = AVAIL_COLUMNS) by now rewrite Hpre2.
  pose proof (saved_availability_rows _ F U Hcols2 (table_of_wf is_na _ _) HU) as HT2.
  rewrite save_avail_eq. cbv zeta. rewrite Hcols2.
  change (Pandas.mem "Faculty_Name" AVAIL_COLUMNS) with true.
  cbn [fst snd fs show set_fs].
  split; [reflexivity|]. split; [reflexivity|].
  rewrite HT2, Hpre2, Hfs, write_write_path, HT1.
  f_equal. f_equal. unfold Csv.to_csv.
  cbn [Pandas.columns Pandas.rows]. f_equal. fold cellsU.
  rewrite (map_app (map (reread is_na))), filter_app, !filter_map_swap.
  rewrite (filter_all_true
             (fun x => other_faculty F (map (reread is_na) x))
             (filter (other_faculty F) (Pandas.rows pre))).
  - rewrite (filter_all_false
               (fun x => other_faculty F (map (reread is_na) x)) cellsU).
    + cbn [map]. rewrite app_nil_r, !map_app. f_equal.
      rewrite map_map. apply map_ext_in. intros r Hr.
      apply filter_In in Hr as [Hr _]. rewrite map_map.
      apply map_ext_in. intros c Hc. apply na_rep_reread.
      rewrite Forall_forall in Hnorm. specialize (Hnorm r Hr).
      rewrite Forall_forall in Hnorm. now apply Hnorm.
    + eapply Forall_impl; [|exact HUF]. intros r Hr. unfold other_faculty.
      now rewrite faculty_is_reread.
  - apply Forall_forall. intros r Hr. apply filter_In in Hr as [Hr Ho].
    apply other_faculty_reread; try assumption.
    rewrite Forall_forall in Hnorm. now apply Hnorm.
Qed.

End AvailFacts.

Lemma save_avail_keeps_other_faculty_witness :
  let pre := table_of Csv.default_na FAC_AVAIL_FILE scenario_store in
  let T := saved_availability pre "Dr. A" dr_a_says_no in
  Pandas.rows T
  = [ [Some "Dr. B"; Some "CS101"; Some "Intro"; Some "Yes"];
      [Some "Dr. A"; Some "CS101"; Some "Intro"; Some "No"] ] /\
  filter (other_faculty "Dr. A") (Pandas.rows T)
  = filter (other_faculty "Dr. A") (Pandas.rows pre).
Proof.
  destruct (save_avail_keeps_other_faculty Csv.default_na (fresh scenario_store)
              "Dr. A" dr_a_says_no) as (_ & _ & Hfilter & _).
  - reflexivity.
  - constructor; [do 3 eexists; reflexivity | constructor].
  - split; [reflexivity | exact Hfilter].
Defined.

Lemma save_avail_idempotent_witness :
  saved_availability
    (saved_availability (table_of Csv.default_na FAC_AVAIL_FILE scenario_store)
                        "Dr. A" dr_a_says_no)
    "Dr. A" dr_a_says_no
  = saved_availability (table_of Csv.default_na FAC_AVAIL_FILE scenario_store)
                       "Dr. A" dr_a_says_no /\
  fs (snd (save_avail Csv.default_na "Dr. A" dr_a_says_no
             (fresh (fs (snd (save_avail Csv.default_na "Dr. A" dr_a_says_no
                                         (fresh scenario_store)))))))
  = fs (snd (save_avail Csv.default_na "Dr. A" dr_a_says_no
                        (fresh scenario_store))).
Proof.
  destruct (save_avail_idempotent Csv.default_na (fresh scenario_store)
              "Dr. A" dr_a_says_no) as [Hpure Hstore].
  - reflexivity.
  - constructor; [do 3 eexists; reflexivity | constructor].
  - split.
    + apply Hpure; [reflexivity | apply table_of_wf].
    + apply Hstore; [reflexivity | discriminate | reflexivity].
Defined.

(** ** Submitting choices *)

Section ChoiceFacts.

Variable is_na : string -> bool.

Lemma NoDup_CHOICE_COLUMNS : NoDup CHOICE_COLUMNS.
Proof. repeat constructor; simpl; intuition discriminate. Qed.

Lemma submit_choices_eq (regd name year section : string)
    (sels : list selection) (s : state) :
  Pandas.columns (table_of is_na CHOICE_FILE (fs s)) = CHOICE_COLUMNS ->
  submit_choices is_na regd name year section sels s
  = (Raise RerunException,
     show (st_info "If you re-submit later with the same Registration Number, your previous selections for these subjects will be replaced.")
       (show (st_success "Your choices have been recorded.")
          (set_fs (write_path (fs s) CHOICE_FILE
                     (Some (Csv.to_csv
                              (saved_choices (table_of is_na CHOICE_FILE (fs s))
                                             regd name year section sels))))
                  s))).
Proof.
  intro Hcols. unfold submit_choices, bind. rewrite load_choices_eq.
  unfold saved_choices.
  set (pre := table_of is_na CHOICE_FILE (fs s)) in *.
  destruct (negb (Pandas.empty pre)) eqn:E.
  - unfold lift.
    rewrite !getitem_present by (rewrite Hcols; reflexivity).
    reflexivity.
  - reflexivity.
Qed.

(** A frame built from choice dicts. *)
Lemma from_choice_rows (regd name year section : string) (sels : list selection) :
  sels <> [] ->
  Pandas.from_records (map (choice_row regd name year section) sels)
  = {| Pandas.columns := CHOICE_COLUMNS;
       Pandas.rows := map (choice_cells regd name year section) sels |}.
Proof.
  intro Hne. unfold Pandas.from_records.
  rewrite (record_columns_uniform CHOICE_COLUMNS).
  - f_equal. rewrite map_map. reflexivity.
  - reflexivity.
  - destruct sels; [congruence | discriminate].
  - apply Forall_forall. intros r Hr. apply in_map_iff in Hr as (sel & <- & _).
    reflexivity.
Qed.

(** The frame written by a submission: the rows it does not replace, in
    their order, followed by the new rows. *)
Lemma saved_choices_rows (pre : Pandas.DataFrame)
    (regd name year section : string) (sels : list selection) :
  Pandas.columns pre = CHOICE_COLUMNS ->
  Pandas.wf pre ->
  Pandas.rows (saved_choices pre regd name year section sels)
  = filter (fun r => negb (replaced regd (map Subject_Code sels) r))
           (Pandas.rows pre)
    ++ map (choice_cells regd name year section) sels
  /\ (Pandas.columns (saved_choices pre regd name year section sels)
      = CHOICE_COLUMNS
      \/ (Pandas.columns (saved_choices pre regd name year section sels) = []
          /\ Pandas.rows (saved_choices pre regd name year section sels) = [])).
Proof.
  intros Hcols Hwf. unfold saved_choices.
  set (new_df := Pandas.from_records _).
  assert (Hnew : (sels = [] /\ new_df = Pandas.DataFrame_nil) \/
                 (new_df = {| Pandas.columns := CHOICE_COLUMNS;
                              Pandas.rows := map (choice_cells regd name year section) sels |})).
  { destruct sels as [|sel sels'] eqn:Es; [left; split; reflexivity|].
    right. unfold new_df. rewrite <- Es. apply from_choice_rows.
    rewrite Es. discriminate. }
  assert (Hnew_rows : Pandas.rows new_df
                      = map (choice_cells regd name year section) sels).
  { destruct Hnew as [[-> ->] | ->]; reflexivity. }
  assert (Hnew_cols : Pandas.columns new_df = CHOICE_COLUMNS
                      \/ Pandas.columns new_df = []).
  { destruct Hnew as [[_ ->] | ->]; [right | left]; reflexivity. }
  set (kept := if negb (Pandas.empty pre) then _ else pre).
  assert (Hkept : Pandas.columns kept = CHOICE_COLUMNS /\
                  Pandas.rows kept
                  = filter (fun r => negb (replaced regd (map Subject_Code sels) r))
                           (Pandas.rows pre) /\
                  Pandas.wf kept).
  { unfold kept. destruct (negb (Pandas.empty pre)) eqn:E.
    - split; [exact Hcols|]. split; [|now apply wf_boolean_index].
      cbn [Pandas.boolean_index Pandas.rows].
      unfold Pandas.series_eq, Pandas.isin, Pandas.mask_not.
      rewrite !map_map, mask_and_map, map_map, select_map, Hcols. reflexivity.
    - split; [exact Hcols|]. split; [|exact Hwf].
      apply negb_false_iff in E. unfold Pandas.empty in E. rewrite Hcols in E.
      simpl in E. apply Nat.eqb_eq in E. apply length_zero_iff_nil in E.
      now rewrite E. }
  destruct Hkept as (Hkc & Hkr & Hkwf).
  destruct (negb (Pandas.empty kept)) eqn:E.
  - rewrite concat_same_labels.
    + cbn [Pandas.columns Pandas.rows]. rewrite Hkc, Hkr. split; [|now left].
      f_equal. rewrite Hnew_rows.
      destruct Hnew as [[-> _] | ->]; [reflexivity|].
      cbn [Pandas.columns]. rewrite <- (map_id (map _ sels)) at 2.
      apply map_ext_in. intros r Hr. apply in_map_iff in Hr as (sel & <- & _).
      apply reindex_id; [apply NoDup_CHOICE_COLUMNS | reflexivity].
    + rewrite Hkc. apply NoDup_CHOICE_COLUMNS.
    + exact Hkwf.
    + rewrite Hkc. destruct Hnew_cols as [-> | ->]; [auto | intros k []].
  - apply negb_false_iff in E. unfold Pandas.empty in E. rewrite Hkc in E.
    simpl in E. apply Nat.eqb_eq in E. apply length_zero_iff_nil in E.
    rewrite <- Hkr, E, Hnew_rows. split; [reflexivity|].
    destruct Hnew as [[-> ->] | ->]; [right; split; reflexivity | now left].
Qed.



Lemma replaced_false_iff (regd : string) (codes : list Pandas.cell)
    (r : list Pandas.cell) :
  replaced regd codes r = false <->
  Pandas.cell_at CHOICE_COLUMNS "Regd_No" r <> Some regd \/
  ~ In (Pandas.cell_at CHOICE_COLUMNS "Subject_Code" r) codes.
Proof.
  unfold replaced. rewrite andb_false_iff. split; intros [H | H].
  - left. intro E. apply eq_str_eq in E. congruence.
  - right. intro E. apply isin_In in E. congruence.
  - left. destruct (Pandas.eq_str _ regd) eqn:E; [|reflexivity].
    apply eq_str_eq in E. contradiction.
  - right. destruct (existsb _ codes) eqn:E; [|reflexivity].
    apply isin_In in E. contradiction.
Qed.

(** What one submission over a table with the canonical header does. *)
Lemma submit_choices_core (s : state) (regd name year section : string)
    (sels : list selection) :
  Pandas.columns (table_of is_na CHOICE_FILE (fs s)) = CHOICE_COLUMNS ->
  let T := saved_choices (table_of is_na CHOICE_FILE (fs s))
                         regd name year section sels in
  (exists s',
     submit_choices is_na regd name year section sels s
     = (Raise RerunException, s') /\
     fs s' = write_path (fs s) CHOICE_FILE (Some (Csv.to_csv T))) /\
  (Pandas.columns T = CHOICE_COLUMNS \/ Pandas.columns T = []) /\
  Pandas.rows T
  = filter (fun r => negb (replaced regd (map Subject_Code sels) r))
           (Pandas.rows (table_of is_na CHOICE_FILE (fs s)))
    ++ map (choice_cells regd name year section) sels.
Proof.
  intros Hcols T. rewrite submit_choices_eq by assumption.
  destruct (saved_choices_rows _ regd name year section sels Hcols
              (table_of_wf is_na _ _)) as [Hrows Hc].
  split; [|split; [|assumption]].
  - eexists. split; reflexivity.
  - destruct Hc as [Hc | [Hc _]]; [now left | now right].
Qed.









End ChoiceFacts.


(** C9.  A resubmission under [regd] leaves every earlier row of [regd]
    for a subject outside the submission in the written frame [T] as it was
    recorded, with its Name, Year and Section; every row of [T] is an
    earlier row or a new row, and the new rows, one per selection, carry
    the identity fields of the current session.  Hence rows of one
    registration number can disagree on Name, Year and Section: student
    21CS001, recorded as Ann of year 1, section A, who submits a
    second-year subject as Anne of year 2, section B, ends with both. *)
Theorem resubmission_keeps_recorded_identity (is_na : string -> bool) :
  (forall (s : state) (regd name year section : string) (sels : list selection),
     Pandas.columns (table_of is_na CHOICE_FILE (fs s)) = CHOICE_COLUMNS ->
     let pre := table_of is_na CHOICE_FILE (fs s) in
     let T := saved_choices pre regd name year section sels in
     (exists s',
        submit_choices is_na regd name year section sels s
        = (Raise RerunException, s') /\
        fs s' = write_path (fs s) CHOICE_FILE (Some (Csv.to_csv T))) /\
     (forall r, In r (Pandas.rows pre) ->
        Pandas.cell_at CHOICE_COLUMNS "Regd_No" r = Some regd ->
        ~ In (Pandas.cell_at CHOICE_COLUMNS "Subject_Code" r)
             (map Subject_Code sels) ->
        In r (Pandas.rows T)) /\
     (forall r, In r (Pandas.rows T) ->
        In r (Pandas.rows pre) \/
        exists sel, In sel sels /\
                    r = choice_cells regd name year section sel) /\
     (forall sel, In sel sels ->
        In (choice_cells regd name year section sel) (Pandas.rows T))) /\
  (let T := saved_choices
              (table_of Csv.default_na CHOICE_FILE resubmission_store)
              "21CS001" "Anne" "2" "B" cs201_with_dr_a in
   exists s' r1 r2,
     submit_choices Csv.default_na "21CS001" "Anne" "2" "B" cs201_with_dr_a
                    (fresh resubmission_store)
     = (Raise RerunException, s') /\
     fs s' = write_path resubmission_store CHOICE_FILE (Some (Csv.to_csv T)) /\
     In r1 (Pandas.rows T) /\ In r2 (Pandas.rows T) /\
     Pandas.cell_at CHOICE_COLUMNS "Regd_No" r1 = Some "21CS001" /\
     Pandas.cell_at CHOICE_COLUMNS "Regd_No" r2 = Some "21CS001" /\
     Pandas.cell_at CHOICE_COLUMNS "Name" r1
     <> Pandas.cell_at CHOICE_COLUMNS "Name" r2 /\
     Pandas.cell_at CHOICE_COLUMNS "Year" r1
     <> Pandas.cell_at CHOICE_COLUMNS "Year" r2 /\
     Pandas.cell_at CHOICE_COLUMNS "Section" r1
     <> Pandas.cell_at CHOICE_COLUMNS "Section" r2).
Proof.
  split.
  - intros s regd name year section sels Hcols pre T.
    destruct (submit_choices_core is_na s regd name year section sels Hcols)
      as (Hrun & _ & Hrows).
    fold pre in Hrows. fold T in Hrun, Hrows.
    split; [exact Hrun|]. split; [|split].
    + intros r Hr _ Hcode. rewrite Hrows. apply in_or_app. left.
      apply filter_In. split; [exact Hr|]. apply negb_true_iff.
      apply replaced_false_iff. now right.
    + intros r Hr. rewrite Hrows in Hr. apply in_app_or in Hr as [Hr | Hr].
      * left. now apply filter_In in Hr.
      * right. apply in_map_iff in Hr as (sel & <- & Hin). eauto.
    + intros sel Hin. rewrite Hrows. apply in_or_app. right. now apply in_map.
  - intro T.
    destruct (submit_choices_core Csv.default_na (fresh resubmission_store)
                "21CS001" "Anne" "2" "B" cs201_with_dr_a eq_refl)
      as ((s' & Hrun & Hfs) & _ & Hrows).
    exists s'.
    exists [Some "21CS001"; Some "Ann"; Some "1"; Some "A"; Some "CS101";
            Some "Intro"; Some "Dr. A"].
    exists [Some "21CS001"; Some "Anne"; Some "2"; Some "B"; Some "CS201";
            Some "Data Structures"; Some "Dr. A"].
    change (fs (fresh resubmission_store)) with resubmission_store in *.
    split; [exact Hrun|]. split; [exact Hfs|]. unfold T. rewrite Hrows.
    repeat split; try discriminate; simpl; tauto.
Qed.

Lemma resubmission_keeps_recorded_identity_witness :
  let T := saved_choices
             (table_of Csv.default_na CHOICE_FILE resubmission_store)
             "21CS001" "Anne" "2" "B" cs201_with_dr_a in
  In [Some "21CS001"; Some "Ann"; Some "1"; Some "A"; Some "MA101";
      Some "Maths"; Some "Dr. B"] (Pandas.rows T) /\
  In [Some "21CS001"; Some "Anne"; Some "2"; Some "B"; Some "CS201";
      Some "Data Structures"; Some "Dr. A"] (Pandas.rows T).
Proof.
  destruct (resubmission_keeps_recorded_identity Csv.default_na) as [H _].
  destruct (H (fresh resubmission_store) "21CS001" "Anne" "2" "B"
              cs201_with_dr_a eq_refl)
    as (_ & Hkeep & _ & Hnew).
  split.
  - apply Hkeep; [simpl; tauto | reflexivity |]. simpl. intuition discriminate.
  - apply (Hnew (mkSelection (Some "CS201") (Some "Data Structures")
                             (Some "Dr. A"))).
    now left.
Defined.

(** ** The workload report *)

(** C4, as the code has it.  In the scenario of the specification, run
    through the script (whatever non-empty name and section the student
    enters), the choices file ends with exactly one row for
    (21CS001, CS101), with Dr. B; the workload table has exactly one line,
    Dr. B with 1; Dr. A, whom no choice names any more, has no line. *)
Theorem scenario_workload_report (name section : string) :
  name <> "" -> section <> "" ->
  let choices := table_of Csv.default_na CHOICE_FILE (scenario_end name section) in
  filter (is_choice_of "21CS001" (Some "CS101")) (Pandas.rows choices)
  = [ [Some "21CS001"; Csv.parse_field Csv.default_na name; Some "1";
       Csv.parse_field Csv.default_na section; Some "CS101"; Some "Intro";
       Some "Dr. B"] ] /\
  faculty_counts choices = Ok [("Dr. B", 1)] /\
  choices_naming "Dr. B" choices = 1 /\
  choices_naming "Dr. A" choices = 0.
Proof.
  intros Hn Hs. destruct name as [|a n]; [congruence|].
  destruct section as [|b m]; [congruence|].
  vm_compute. repeat split.
Qed.

Lemma scenario_workload_report_witness :
  let choices := table_of Csv.default_na CHOICE_FILE (scenario_end "Ann" "A") in
  filter (is_choice_of "21CS001" (Some "CS101")) (Pandas.rows choices)
  = [ [Some "21CS001"; Some "Ann"; Some "1"; Some "A"; Some "CS101";
       Some "Intro"; Some "Dr. B"] ] /\
  faculty_counts choices = Ok [("Dr. B", 1)] /\
  choices_naming "Dr. B" choices = 1 /\
  choices_naming "Dr. A" choices = 0.
Proof.
  apply (scenario_workload_report "Ann" "A"); discriminate.
Defined.

(** C4, as the claim has it, fails: the workload table the code computes in
    the scenario has no line that shows Dr. A with 0; its only line is
    Dr. B with 1. *)
Lemma scenario_report_has_no_line_for_dr_a :
  exists report,
    faculty_counts (table_of Csv.default_na CHOICE_FILE (scenario_end "Ann" "A"))
    = Ok report /\
    report = [("Dr. B", 1)] /\
    ~ In ("Dr. A", 0) report /\
    ~ In "Dr. A" (map fst report).
Proof.
  exists [("Dr. B", 1)]. split; [reflexivity|]. split; [reflexivity|].
  split; simpl; intuition discriminate.
Qed.


(** ** Uploads *)

Section UploadFacts.

Variable is_na : string -> bool.

(** Initialisation writes the availability file only, and what it raises
    is caught by [except Exception]. *)
Lemma initialize_availability_frame (s : state) :
  let (r, s') := initialize_availability_if_empty s in
  subjects_csv (fs s') = subjects_csv (fs s) /\
  faculty_list_csv (fs s') = faculty_list_csv (fs s) /\
  student_choices_csv (fs s') = student_choices_csv (fs s) /\
  subjects_df s' = subjects_df s /\
  faculty_df s' = faculty_df s /\
  page s' = page s /\
  match r with
  | Ok _ => True
  | Raise e => is_Exception e = true /\ s' = s
  end.
Proof.
  rewrite initialize_availability_eq.
  destruct (Pandas.empty (faculty_df s) || Pandas.empty (subjects_df s));
    [repeat split|].
  destruct (Pandas.empty (avail_df s)); [|repeat split].
  destruct (default_availability (faculty_df s) (subjects_df s)) as [rows|e] eqn:E;
    [repeat split|].
  repeat split.
  unfold default_availability in E.
  destruct (rmap _ (Pandas.rows (faculty_df s))) as [l|e'] eqn:E1;
    simpl in E; [discriminate|]. injection E as <-.
  clear - E1. induction (Pandas.rows (faculty_df s)) as [|frow l IH];
    simpl in E1; [discriminate|].
  destruct (default_rows _ (subjects_df s)) as [a|e0] eqn:E2; simpl in E1.
  - destruct (rmap _ l); simpl in E1; [discriminate|]. injection E1 as <-.
    now apply IH.
  - injection E1 as <-. clear - E2. unfold default_rows in E2.
    induction (Pandas.rows (subjects_df s)) as [|srow l IH]; simpl in E2;
      [discriminate|].
    unfold Pandas.row_getitem in E2 at 1 2.
    destruct (Pandas.col_index "Subject_Code" _); simpl in E2;
      [|injection E2 as <-; reflexivity].
    destruct (Pandas.col_index "Subject_Name" _); simpl in E2;
      [|injection E2 as <-; reflexivity].
    destruct (rmap _ l); simpl in E2; [discriminate|]. injection E2 as <-.
    now apply IH.
Qed.

(** C5.  An upload that does not parse to a frame with the three required
    columns is answered by an error message and nothing else: the block
    ends normally in the state it started from, message apart, so the
    subjects file (like every other file) is as it was.  Consequently the
    subjects file differs after the block only for an upload that has the
    required columns. *)
Theorem uploaded_subjects_rejects (s : state) (c : Csv.content) :
  (valid_subjects_upload is_na c = false ->
   exists msg,
     uploaded_subjects is_na (Some c) s = (Ok tt, show (st_error msg) s) /\
     fs (show (st_error msg) s) = fs s) /\
  (subjects_csv (fs (snd (uploaded_subjects is_na (Some c) s)))
   <> subjects_csv (fs s) ->
   valid_subjects_upload is_na c = true).
Proof.
  assert (Hrej : valid_subjects_upload is_na c = false ->
                 exists msg,
                   uploaded_subjects is_na (Some c) s
                   = (Ok tt, show (st_error msg) s)).
  { unfold valid_subjects_upload, uploaded_subjects, try_except, bind, lift.
    destruct (Csv.parse is_na c) as [df|e] eqn:E.
    - intros ->. simpl. eexists. reflexivity.
    - intros _. rewrite (read_csv_raises is_na (Some c) e E). eexists.
      reflexivity. }
  split.
  - intro H. destruct (Hrej H) as (msg & Hrun). exists msg. now split.
  - intro Hneq. destruct (valid_subjects_upload is_na c) eqn:E; [reflexivity|].
    destruct (Hrej eq_refl) as (msg & Hrun). rewrite Hrun in Hneq.
    now contradiction Hneq.
Qed.


(** With the empty field among the NA tokens, a frame of cells as
    [read_csv] produces them, under labels as it gives them, is read back
    from its file as it is. *)
Lemma read_back (T : Pandas.DataFrame) :
  is_na "" = true ->
  Pandas.wf T -> Pandas.columns T <> [] ->
  plain_header (Pandas.columns T) ->
  Forall (Forall (normal is_na)) (Pandas.rows T) ->
  Csv.read_csv is_na (Some (Csv.to_csv T)) = Ok T.
Proof.
  intros Hempty Hwf Hne Hplain Hnorm. cbn [Csv.read_csv].
  rewrite parse_to_csv by assumption. destruct T as [cols rows].
  cbn [Pandas.columns Pandas.rows] in *. f_equal. f_equal.
  rewrite <- (map_id rows) at 2. apply map_ext_in. intros r Hr.
  rewrite <- (map_id r) at 2. apply map_ext_in. intros x Hx.
  rewrite Forall_forall in Hnorm. specialize (Hnorm r Hr).
  rewrite Forall_forall in Hnorm. specialize (Hnorm x Hx).
  unfold reread, Csv.parse_field. destruct x as [v|]; simpl in *.
  - now rewrite Hnorm.
  - now rewrite Hempty.
Qed.

(** The file written for a parsed upload, field by field. *)
Lemma to_csv_parsed (c : Csv.content) (df : Pandas.DataFrame) :
  Csv.parse is_na c = Ok df ->
  exists header lines,
    lines_read c = header :: lines /\
    Pandas.columns df = Csv.labels header /\
    Csv.to_csv df
    = Csv.Table (Csv.labels header)
        (map (stored_line is_na (Csv.width header lines)
                          (Csv.width header lines - length header)) lines).
Proof.
  intro E. destruct (parse_Ok is_na c df E)
    as (header & lines & (h0 & l0 & -> & Hread) & _ & Hcols & Hrows & _).
  exists header, lines. split; [exact Hread|]. split; [exact Hcols|].
  unfold Csv.to_csv.
  rewrite Hcols, Hrows, map_map. f_equal. apply map_ext. intro l.
  unfold Csv.parse_row, Csv.parse_line, stored_line.
  rewrite <- skipn_map, map_app, map_map. f_equal. f_equal.
  - apply map_ext. intro x. unfold Csv.parse_field. now destruct (is_na x).
  - generalize (Csv.width header lines - length l). intro k.
    induction k as [|k IH]; simpl; [reflexivity | now rewrite IH].
Qed.

(** Relabelling a column Faculty_Name, where no column has this label,
    leaves the labels pairwise distinct. *)
Lemma plain_header_rename (cols : list string) (cand : string) :
  plain_header cols ->
  Pandas.mem "Faculty_Name" cols = false ->
  plain_header
    (map (fun k => if String.eqb k cand then "Faculty_Name" else k) cols).
Proof.
  intros [Hnd Hne] Hm.
  assert (Hfac : ~ In "Faculty_Name" cols).
  { intro H. apply mem_In in H. congruence. }
  split.
  - apply Finite.Injective_map_NoDup_in; [|exact Hnd].
    intros x y Hx Hy.
    destruct (String.eqb x cand) eqn:Ex, (String.eqb y cand) eqn:Ey; intro H.
    + apply String.eqb_eq in Ex, Ey. congruence.
    + subst y. contradiction.
    + subst x. contradiction.
    + exact H.
  - intro H. apply in_map_iff in H as (k & Hk & Hin).
    destruct (String.eqb k cand); [discriminate|]. subst k. contradiction.
Qed.

Lemma uploaded_subjects_stores (s : state) (c : Csv.content)
    (df : Pandas.DataFrame) :
  Csv.parse is_na c = Ok df ->
  issubset SUBJECT_COLUMNS (Pandas.columns df) = true ->
  subjects_csv (fs (snd (uploaded_subjects is_na (Some c) s)))
  = Some (Csv.to_csv df).
Proof.
  intros E Hv. unfold uploaded_subjects, try_except, bind, lift. rewrite E, Hv.
  cbn [negb]. unfold save_df_to_csv, st, modify.
  set (s1 := set_subjects_df df _).
  pose proof (initialize_availability_frame s1) as H.
  destruct (initialize_availability_if_empty s1) as [[u|e] s2].
  - destruct H as (H & _). cbn [snd]. rewrite H. reflexivity.
  - destruct H as (H & _ & _ & _ & _ & _ & He & _). rewrite He. cbn [snd].
    unfold show. cbn [fs]. rewrite H. reflexivity.
Qed.

Lemma candidate_spec (cols : list string) (cand : string) :
  candidate cols = Some cand ->
  In cand cols /\ contains "name" (lower cand) = true.
Proof.
  induction cols as [|k cols IH]; simpl; [discriminate|].
  destruct (contains "name" (lower k)) eqn:E.
  - intro H. injection H as <-. split; [now left | exact E].
  - intro H. destruct (IH H). split; [now right | assumption].
Qed.

Lemma uploaded_faculty_stores (s : state) (c : Csv.content)
    (df : Pandas.DataFrame) :
  Csv.parse is_na c = Ok df ->
  (Pandas.mem "Faculty_Name" (Pandas.columns df) = true ->
   faculty_list_csv (fs (snd (uploaded_faculty is_na (Some c) s)))
   = Some (Csv.to_csv df)) /\
  (Pandas.mem "Faculty_Name" (Pandas.columns df) = false ->
   forall cand, candidate (Pandas.columns df) = Some cand ->
   faculty_list_csv (fs (snd (uploaded_faculty is_na (Some c) s)))
   = Some (Csv.to_csv (Pandas.rename df cand "Faculty_Name"))).
Proof.
  intro E.
  assert (Hsave : forall d : Pandas.DataFrame,
    faculty_list_csv
      (fs (snd (try_except
                  (save_df_to_csv d FACULTY_FILE;;
                   st (st_success "faculty_list.csv uploaded and saved.");;
                   modify (set_faculty_df d);;
                   initialize_availability_if_empty)
                  (fun _ => st (st_error "Error reading file")) s)))
    = Some (Csv.to_csv d)).
  { intro d. unfold try_except, bind, save_df_to_csv, st, modify.
    set (s1 := set_faculty_df d _).
    pose proof (initialize_availability_frame s1) as H.
    destruct (initialize_availability_if_empty s1) as [[u|e] s2].
    - destruct H as (_ & H & _). cbn [snd]. rewrite H. reflexivity.
    - destruct H as (_ & H & _ & _ & _ & _ & He & _). rewrite He. cbn [snd].
      unfold show. cbn [fs]. rewrite H. reflexivity. }
  split.
  - intro Hm. rewrite <- (Hsave df).
    unfold uploaded_faculty, try_except, bind, lift. rewrite E, Hm. reflexivity.
  - intros Hm cand Hc. rewrite <- (Hsave (Pandas.rename df cand "Faculty_Name")).
    unfold uploaded_faculty, try_except, bind, lift, ret. rewrite E, Hm, Hc.
    reflexivity.
Qed.

(** C7, as the code has it.  What is stored is the frame [read_csv] makes
    of the upload, not the upload.  For an upload that parses to the frame
    [df] (the empty field being an NA token, as in pandas), the file
    written for [df] has for header the labels [read_csv] gives the header
    line of the upload (that line itself when its fields are pairwise
    distinct and none is empty) and, for each line under it that is not
    blank, the fields of the line with an NA token written as the empty
    field, a short line filled up with empty fields, and the fields in
    front of the labelled ones left out; a line with one field per label
    and no NA token is stored as uploaded, when the first line under the
    header is no longer than the header.  When [df] has the three subject
    columns, the subjects block stores that file, and reading it gives
    [df] again, every column and every cell; when [df] has a Faculty_Name
    column the faculty block does the same with the faculty file; when it
    has none but some label contains "name" in any case, the faculty block
    stores [df] with that column, the first such, relabelled Faculty_Name,
    the other labels and all cells as read. *)
Theorem upload_stores_uploaded_content (s : state) (c : Csv.content)
    (df : Pandas.DataFrame) :
  is_na "" = true ->
  Csv.parse is_na c = Ok df ->
  (exists header lines,
     lines_read c = header :: lines /\
     Pandas.columns df = Csv.labels header /\
     (plain_header header -> Pandas.columns df = header) /\
     Csv.to_csv df
     = Csv.Table (Csv.labels header)
         (map (stored_line is_na (Csv.width header lines)
                           (Csv.width header lines - length header)) lines) /\
     (Csv.width header lines = length header ->
      forall line, In line lines ->
        length line = length header ->
        (forall x, In x line -> is_na x = false) ->
        stored_line is_na (Csv.width header lines)
                    (Csv.width header lines - length header) line
        = line)) /\
  (issubset SUBJECT_COLUMNS (Pandas.columns df) = true ->
   subjects_csv (fs (snd (uploaded_subjects is_na (Some c) s)))
   = Some (Csv.to_csv df) /\
   Csv.read_csv is_na
     (subjects_csv (fs (snd (uploaded_subjects is_na (Some c) s)))) = Ok df) /\
  (Pandas.mem "Faculty_Name" (Pandas.columns df) = true ->
   faculty_list_csv (fs (snd (uploaded_faculty is_na (Some c) s)))
   = Some (Csv.to_csv df) /\
   Csv.read_csv is_na
     (faculty_list_csv (fs (snd (uploaded_faculty is_na (Some c) s)))) = Ok df) /\
  (Pandas.mem "Faculty_Name" (Pandas.columns df) = false ->
   forall cand, candidate (Pandas.columns df) = Some cand ->
   In cand (Pandas.columns df) /\
   contains "name" (lower cand) = true /\
   Csv.read_csv is_na
     (faculty_list_csv (fs (snd (uploaded_faculty is_na (Some c) s))))
   = Ok {| Pandas.columns :=
             map (fun k => if String.eqb k cand then "Faculty_Name" else k)
                 (Pandas.columns df);
           Pandas.rows := Pandas.rows df |}).
Proof.
  intros Hempty E.
  pose proof (parse_normal is_na c df E) as Hnorm.
  pose proof (parse_columns is_na c df E) as Hne.
  destruct (parse_Ok is_na c df E) as (header & lines & _ & _ & Hcols & _ & Hwf).
  assert (Hplain : plain_header (Pandas.columns df))
    by (rewrite Hcols; apply labels_are_plain).
  destruct (uploaded_faculty_stores s c df E) as [Hfac Hren].
  split; [|split; [|split]].
  - destruct (to_csv_parsed c df E) as (h & ls & Hread & Hh & Hfile).
    exists h, ls. split; [exact Hread|]. split; [exact Hh|].
    split; [intro Hp; now rewrite Hh, labels_plain|]. split; [exact Hfile|].
    intros Hw line _ Hlen Hna. unfold stored_line.
    rewrite Hw, Hlen, Nat.sub_diag. cbn [skipn repeat]. rewrite app_nil_r.
    rewrite <- (map_id line) at 2. apply map_ext_in. intros x Hx.
    now rewrite (Hna x Hx).
  - intro Hv. rewrite (uploaded_subjects_stores s c df E Hv).
    split; [reflexivity | now apply read_back].
  - intro Hm. rewrite (Hfac Hm). split; [reflexivity | now apply read_back].
  - intros Hm cand Hc. destruct (candidate_spec _ _ Hc) as [Hin Hname].
    split; [exact Hin|]. split; [exact Hname|].
    rewrite (Hren Hm cand Hc). apply read_back; try assumption.
    + unfold Pandas.wf, Pandas.rename. cbn [Pandas.columns Pandas.rows].
      rewrite length_map. exact Hwf.
    + unfold Pandas.rename. cbn [Pandas.columns].
      destruct (Pandas.columns df); [congruence | discriminate].
    + unfold Pandas.rename. cbn [Pandas.columns].
      now apply plain_header_rename.
Qed.

End UploadFacts.

Lemma uploaded_subjects_rejects_witness :
  exists msg,
    uploaded_subjects Csv.default_na (Some subjects_without_name)
                      (fresh scenario_store)
    = (Ok tt, show (st_error msg) (fresh scenario_store)) /\
    fs (show (st_error msg) (fresh scenario_store)) = scenario_store.
Proof.
  destruct (uploaded_subjects_rejects Csv.default_na (fresh scenario_store)
              subjects_without_name) as [H _].
  exact (H eq_refl).
Defined.

Lemma upload_stores_uploaded_content_witness :
  Csv.read_csv Csv.default_na
    (subjects_csv (fs (snd (uploaded_subjects Csv.default_na
                              (Some subjects_with_teacher)
                              (fresh scenario_store)))))
  = Ok {| Pandas.columns := ["Year"; "Subject_Code"; "Subject_Name"; "Teacher NAME"];
          Pandas.rows := [ [Some "1"; Some "CS101"; Some "Intro"; Some "Dr. A"];
                           [Some "1"; Some "MA101"; None; Some "Dr. B"] ] |} /\
  Csv.read_csv Csv.default_na
    (faculty_list_csv (fs (snd (uploaded_faculty Csv.default_na
                                  (Some subjects_with_teacher)
                                  (fresh scenario_store)))))
  = Ok {| Pandas.columns := ["Year"; "Subject_Code"; "Faculty_Name"; "Teacher NAME"];
          Pandas.rows := [ [Some "1"; Some "CS101"; Some "Intro"; Some "Dr. A"];
                           [Some "1"; Some "MA101"; None; Some "Dr. B"] ] |}.
Proof.
  destruct (upload_stores_uploaded_content Csv.default_na (fresh scenario_store)
              subjects_with_teacher
              {| Pandas.columns := ["Year"; "Subject_Code"; "Subject_Name"; "Teacher NAME"];
                 Pandas.rows := [ [Some "1"; Some "CS101"; Some "Intro"; Some "Dr. A"];
                                  [Some "1"; Some "MA101"; None; Some "Dr. B"] ] |}
              eq_refl eq_refl) as (_ & Hsub & _ & Hfac).
  split.
  - exact (proj2 (Hsub eq_refl)).
  - exact (proj2 (proj2 (Hfac eq_refl "Subject_Name" eq_refl))).
Defined.

(** C7, as the claim has it, fails: an accepted upload is not stored as
    uploaded.  A subject code "NA" is stored as the empty field and a line
    without its last field gets one; a header field that repeats another
    is stored with a number after it. *)
Lemma upload_is_not_stored_as_uploaded :
  valid_subjects_upload Csv.default_na subjects_with_na_code = true /\
  subjects_csv (fs (snd (uploaded_subjects Csv.default_na
                           (Some subjects_with_na_code)
                           (fresh scenario_store))))
  = Some (Csv.Table ["Year"; "Subject_Code"; "Subject_Name"]
            [ ["2"; ""; "Numerical Analysis"]; ["2"; "CS201"; ""] ]) /\
  subjects_csv (fs (snd (uploaded_subjects Csv.default_na
                           (Some subjects_with_na_code)
                           (fresh scenario_store))))
  <> Some subjects_with_na_code /\
  faculty_list_csv (fs (snd (uploaded_faculty Csv.default_na
                               (Some faculty_with_two_depts)
                               (fresh scenario_store))))
  = Some (Csv.Table ["Faculty_Name"; "Dept"; "Dept.1"]
            [ ["Dr. A"; "CS"; "EE"] ]) /\
  faculty_list_csv (fs (snd (uploaded_faculty Csv.default_na
                               (Some faculty_with_two_depts)
                               (fresh scenario_store))))
  <> Some faculty_with_two_depts.
Proof.
  split; [reflexivity|]. split; [reflexivity|]. split; [discriminate|].
  split; [reflexivity | discriminate].
Qed.

(** ** The selection form *)

Lemma In_insert_sorted (x y : string) (l : list string) :
  In y (Pandas.insert_sorted x l) <-> y = x \/ In y l.
Proof.
  induction l as [|z l IH]; simpl.
  - intuition.
  - destruct (String.leb x z); simpl; [intuition|]. rewrite IH. intuition.
Qed.

Lemma In_sorted (y : string) (l : list string) :
  In y (Pandas.sorted l) <-> In y l.
Proof.
  induction l as [|x l IH]; simpl; [tauto|].
  rewrite In_insert_sorted, IH. intuition.
Qed.

Lemma NoDup_insert_sorted (x : string) (l : list string) :
  ~ In x l -> NoDup l -> NoDup (Pandas.insert_sorted x l).
Proof.
  induction l as [|z l IH]; intros Hx Hl; simpl.
  - repeat constructor. tauto.
  - destruct (String.leb x z); [now constructor|].
    apply NoDup_cons_iff in Hl as [Hz Hl]. constructor.
    + rewrite In_insert_sorted. simpl in Hx. intuition.
    + apply IH; [|assumption]. simpl in Hx. tauto.
Qed.

Lemma NoDup_sorted (l : list string) : NoDup l -> NoDup (Pandas.sorted l).
Proof.
  induction 1 as [|x l Hx Hl IH]; simpl; [constructor|].
  apply NoDup_insert_sorted; [|exact IH]. now rewrite In_sorted.
Qed.

Lemma In_unique (y : string) (l : list string) :
  In y (Pandas.unique l) <-> In y l.
Proof.
  induction l as [|x l IH]; simpl; [tauto|].
  rewrite filter_In, IH. destruct (String.eqb_spec y x) as [-> | Hne]; simpl.
  - tauto.
  - intuition congruence.
Qed.

Lemma NoDup_unique (l : list string) : NoDup (Pandas.unique l).
Proof.
  induction l as [|x l IH]; simpl; constructor.
  - rewrite filter_In, String.eqb_refl. simpl. intros [_ H]. discriminate.
  - now apply NoDup_filter.
Qed.

Lemma In_dropna (y : string) (s : Pandas.series) :
  In y (Pandas.dropna s) <-> In (Some y) s.
Proof.
  induction s as [|[x|] s IH]; simpl; [tauto | |].
  - rewrite IH. intuition congruence.
  - rewrite IH. intuition congruence.
Qed.

(** The candidates are exactly the distinct names of the faculty frame. *)
Lemma all_faculties_spec (faculty : Pandas.DataFrame) :
  NoDup (all_faculties faculty) /\
  forall n, In n (all_faculties faculty) <-> In (Some n) (name_column faculty).
Proof.
  unfold all_faculties, name_column.
  destruct (Pandas.getitem faculty "Faculty_Name"); split;
    try (apply NoDup_sorted, NoDup_unique);
    intro n; now rewrite In_sorted, In_unique, In_dropna.
Qed.

Lemma widget_keys_app (p q : list ui_event) :
  widget_keys (p ++ q) = widget_keys p ++ widget_keys q.
Proof. unfold widget_keys. apply flat_map_app. Qed.

Lemma shows_nil (s : state) : shows [] s = s.
Proof. destruct s. unfold shows. simpl. now rewrite app_nil_r. Qed.

Lemma shows_cons (e : ui_event) (es : list ui_event) (s : state) :
  shows es (show e s) = shows (e :: es) s.
Proof. unfold shows, show. simpl. now rewrite <- app_assoc. Qed.

Lemma string_length_append (a b : string) :
  String.length (a ++ b)%string = String.length a + String.length b.
Proof. induction a as [|x a IH]; simpl; [reflexivity | now rewrite IH]. Qed.

Lemma str_key_injective (regd : string) (a b : string) :
  (a ++ "_" ++ regd)%string = (b ++ "_" ++ regd)%string -> a = b.
Proof.
  revert b. induction a as [|x a IH]; intros [|y b] H; simpl in H.
  - reflexivity.
  - exfalso. apply (f_equal String.length) in H. simpl in H.
    rewrite string_length_append in H. simpl in H. lia.
  - exfalso. apply (f_equal String.length) in H. simpl in H.
    rewrite string_length_append in H. simpl in H. lia.
  - injection H as -> H. f_equal. now apply IH.
Qed.

Lemma selection_step (user : widgets) (faculty : Pandas.DataFrame)
    (regd : string) (cols : list string) (row : list Pandas.cell)
    (s s' : state) (sel : selection) :
  (scode <- lift (Pandas.row_getitem cols row "Subject_Code");;
   sname <- lift (Pandas.row_getitem cols row "Subject_Name");;
   selected_fac <- selectbox user
                     (Pandas.str sname ++ " (" ++ Pandas.str scode ++ ")")
                     (all_faculties faculty) 0
                     (Pandas.str scode ++ "_" ++ regd);;
   ret (mkSelection scode sname selected_fac)) s = (Ok sel, s') ->
  sel = selection_of user faculty regd cols row /\
  s' = show (selection_box faculty regd cols row) s /\
  ~ In (selection_key regd cols row) (widget_keys (page s)).
Proof.
  unfold bind, lift, ret, selectbox, Pandas.row_getitem, selection_of,
    selection_box, selection_key, Pandas.cell_at.
  destruct (Pandas.col_index "Subject_Code" cols) as [i|]; [|discriminate].
  destruct (Pandas.col_index "Subject_Name" cols) as [j|]; [|discriminate].
  destruct (Pandas.mem _ (widget_keys (page s))) eqn:E; [discriminate|].
  intro H. injection H as <- <-. repeat split.
  intro Hin. apply mem_In in Hin. congruence.
Qed.

Lemma selection_loop_inv (user : widgets) (faculty : Pandas.DataFrame)
    (regd : string) (cols : list string) (rows : list (list Pandas.cell)) :
  forall (s s' : state) (sels : list selection),
    for_each
      (fun row =>
         scode <- lift (Pandas.row_getitem cols row "Subject_Code");;
         sname <- lift (Pandas.row_getitem cols row "Subject_Name");;
         selected_fac <- selectbox user
                           (Pandas.str sname ++ " (" ++ Pandas.str scode ++ ")")
                           (all_faculties faculty) 0
                           (Pandas.str scode ++ "_" ++ regd);;
         ret (mkSelection scode sname selected_fac))
      rows s = (Ok sels, s') ->
    sels = map (selection_of user faculty regd cols) rows /\
    s' = shows (map (selection_box faculty regd cols) rows) s /\
    NoDup (map (selection_key regd cols) rows) /\
    (forall row, In row rows ->
                 ~ In (selection_key regd cols row) (widget_keys (page s))).
Proof.
  induction rows as [|row rows IH]; intros s s' sels H.
  - simpl in H. injection H as <- <-. rewrite shows_nil.
    repeat split; [constructor | intros ? []].
  - cbn [for_each] in H. unfold bind at 1 in H.
    match type of H with
    | context [match ?step with _ => _ end] => destruct step as [[y|e] s1] eqn:E1
    end; [|discriminate].
    apply selection_step in E1 as (-> & -> & Hfresh).
    unfold bind at 1 in H.
    match type of H with
    | context [match ?rest with _ => _ end] => destruct rest as [[ys|e] s2] eqn:E2
    end; [|discriminate].
    unfold ret in H. injection H as <- <-.
    apply IH in E2 as (-> & -> & Hnd & Hrest).
    assert (Hold : forall r, In r rows ->
                   selection_key regd cols r <> selection_key regd cols row /\
                   ~ In (selection_key regd cols r) (widget_keys (page s))).
    { intros r Hr. specialize (Hrest r Hr). unfold show in Hrest. simpl in Hrest.
      rewrite widget_keys_app in Hrest. simpl in Hrest.
      split; intro Hk; apply Hrest, in_or_app.
      - right. left. now symmetry.
      - now left. }
    repeat split.
    + now rewrite shows_cons.
    + simpl. constructor; [|exact Hnd]. intro Hin.
      apply in_map_iff in Hin as (r & Hk & Hr).
      destruct (Hold r Hr) as [Hne _]. now apply Hne.
    + intros r [<- | Hr]; [exact Hfresh | now apply (Hold r Hr)].
Qed.

(** A form that rendered without an error: one select box per row of
    [year_subjects], each over all faculty names, one entry of [selections]
    per row with the value of its box, and subject codes that are pairwise
    distinct (their keys are). *)
Lemma faculty_selection_form_rendered (user : widgets) (regd : string)
    (year_subjects : Pandas.DataFrame) (s s' : state) (sels : list selection) :
  faculty_selection_form user regd year_subjects s = (Ok sels, s') ->
  sels = map (selection_of user (faculty_df s) regd (Pandas.columns year_subjects))
             (Pandas.rows year_subjects) /\
  s' = shows (map (selection_box (faculty_df s) regd (Pandas.columns year_subjects))
                  (Pandas.rows year_subjects)) s /\
  NoDup (map Subject_Code sels).
Proof.
  unfold faculty_selection_form, bind at 1, gets. intro H.
  apply selection_loop_inv in H as (-> & -> & Hnd & _).
  repeat split. rewrite map_map. cbn [Subject_Code selection_of].
  apply (NoDup_map_inv (fun c => (Pandas.str c ++ "_" ++ regd)%string)).
  rewrite map_map. exact Hnd.
Qed.

(** ** Blocks that ignore availability *)

Section Independence.

Variable is_na : string -> bool.

Lemma ignores_ret {A : Type} (a : A) : ignores_availability (ret a).
Proof. intros s1 s2 H. now split. Qed.

Lemma ignores_raise {A : Type} (e : exn) : ignores_availability (@raise A e).
Proof. intros s1 s2 H. now split. Qed.

Lemma ignores_lift {A : Type} (r : result A) : ignores_availability (lift r).
Proof. intros s1 s2 H. now split. Qed.

Lemma ignores_bind {A B : Type} (m : M A) (k : A -> M B) :
  ignores_availability m ->
  (forall a, ignores_availability (k a)) ->
  ignores_availability (bind m k).
Proof.
  intros Hm Hk s1 s2 H. unfold bind. destruct (Hm s1 s2 H) as [Hr Hs].
  destruct (m s1) as [[a|e] s1'], (m s2) as [[a'|e'] s2']; simpl in Hr, Hs;
    try discriminate.
  - injection Hr as <-. now apply Hk.
  - injection Hr as <-. now split.
Qed.

Lemma ignores_try_except {A : Type} (body : M A) (handler : exn -> M A) :
  ignores_availability body ->
  (forall e, ignores_availability (handler e)) ->
  ignores_availability (try_except body handler).
Proof.
  intros Hb Hh s1 s2 H. unfold try_except. destruct (Hb s1 s2 H) as [Hr Hs].
  destruct (body s1) as [[a|e] s1'], (body s2) as [[a'|e'] s2']; simpl in Hr, Hs;
    try discriminate.
  - injection Hr as <-. now split.
  - injection Hr as <-. destruct (is_Exception e); [now apply Hh | now split].
Qed.

Lemma ignores_gets_subjects : ignores_availability (gets subjects_df).
Proof.
  intros s1 s2 H. split; [|exact H]. simpl.
  destruct H as (_ & _ & _ & -> & _). reflexivity.
Qed.

Lemma ignores_gets_faculty : ignores_availability (gets faculty_df).
Proof.
  intros s1 s2 H. split; [|exact H]. simpl.
  destruct H as (_ & _ & _ & _ & -> & _). reflexivity.
Qed.

Lemma ignores_st (e : ui_event) : ignores_availability (st e).
Proof.
  intros s1 s2 (H1 & H2 & H3 & H4 & H5 & H6 & H7). split; [reflexivity|].
  unfold st, modify, show, same_but_availability. simpl.
  repeat split; try assumption. now rewrite H7.
Qed.

Lemma ignores_selectbox (user : widgets) (label : string)
    (options : list string) (index : nat) (key : string) :
  ignores_availability (selectbox user label options index key).
Proof.
  intros s1 s2 H. pose proof H as (H1 & H2 & H3 & H4 & H5 & H6 & H7).
  unfold selectbox. rewrite H7.
  destruct (Pandas.mem key (widget_keys (page s2))); [now split|].
  split; [reflexivity|]. apply (ignores_st (st_selectbox label options key) s1 s2 H).
Qed.

Lemma ignores_for_each {A B : Type} (f : A -> M B) (l : list A) :
  (forall x, ignores_availability (f x)) ->
  ignores_availability (for_each f l).
Proof.
  intro Hf. induction l as [|x l IH]; simpl.
  - apply ignores_ret.
  - apply ignores_bind; [apply Hf|]. intro y.
    apply ignores_bind; [exact IH|]. intro ys. apply ignores_ret.
Qed.

Lemma ignores_load_choices : ignores_availability (load_choices is_na).
Proof.
  intros s1 s2 H. rewrite !load_choices_eq. simpl. split; [|exact H].
  unfold table_of. simpl. destruct H as (_ & _ & -> & _). reflexivity.
Qed.

Lemma ignores_save_choices (df : Pandas.DataFrame) :
  ignores_availability (save_df_to_csv df CHOICE_FILE).
Proof.
  intros s1 s2 (H1 & H2 & H3 & H4 & H5 & H6 & H7). split; [reflexivity|].
  unfold save_df_to_csv, modify, same_but_availability. simpl.
  repeat split; assumption.
Qed.

Create HintDb ignores.

#[local] Hint Resolve ignores_ret ignores_lift ignores_gets_subjects
  ignores_gets_faculty ignores_st ignores_selectbox ignores_load_choices
  ignores_save_choices : ignores.

Ltac ignores_step :=
  first
    [ apply ignores_bind; [|intro]
    | apply ignores_for_each; intro
    | solve [auto with ignores]
    | apply ignores_raise
    | match goal with
      | |- ignores_availability (if ?b then _ else _) => destruct b
      | |- ignores_availability (match ?x with _ => _ end) => destruct x
      end ].

Lemma ignores_faculty_selection_form (user : widgets) (regd : string)
    (year_subjects : Pandas.DataFrame) :
  ignores_availability (faculty_selection_form user regd year_subjects).
Proof. unfold faculty_selection_form. repeat ignores_step. Qed.

Lemma ignores_submit_choices (regd name year section : string)
    (sels : list selection) :
  ignores_availability (submit_choices is_na regd name year section sels).
Proof. unfold submit_choices, st_rerun. repeat ignores_step. Qed.

Lemma ignores_student_section (inp : student_input) :
  ignores_availability (student_section is_na inp).
Proof.
  unfold student_section, st_stop.
  repeat first [ apply ignores_faculty_selection_form
               | apply ignores_submit_choices
               | ignores_step ].
Qed.

End Independence.

(** ** The student section, end to end *)

Section StudentFacts.

Variable is_na : string -> bool.

Lemma selection_loop_raises (user : widgets) (faculty : Pandas.DataFrame)
    (regd : string) (cols : list string) (rows : list (list Pandas.cell)) :
  forall (s s' : state) (e : exn),
    for_each
      (fun row =>
         scode <- lift (Pandas.row_getitem cols row "Subject_Code");;
         sname <- lift (Pandas.row_getitem cols row "Subject_Name");;
         selected_fac <- selectbox user
                           (Pandas.str sname ++ " (" ++ Pandas.str scode ++ ")")
                           (all_faculties faculty) 0
                           (Pandas.str scode ++ "_" ++ regd);;
         ret (mkSelection scode sname selected_fac))
      rows s = (Raise e, s') ->
    is_Exception e = true.
Proof.
  induction rows as [|row rows IH]; intros s s' e H; [discriminate|].
  cbn [for_each] in H. unfold bind at 1 in H.
  match type of H with
  | context [match ?step with _ => _ end] => destruct step as [[y|e1] s1] eqn:E1
  end.
  - unfold bind at 1 in H.
    match type of H with
    | context [match ?rest with _ => _ end] => destruct rest as [[ys|e2] s2] eqn:E2
    end; [discriminate|].
    injection H as <- _. now apply IH in E2.
  - injection H as <- _. clear - E1.
    unfold bind, lift, ret, selectbox, Pandas.row_getitem in E1.
    destruct (Pandas.col_index "Subject_Code" cols);
      [|injection E1 as <- _; reflexivity].
    destruct (Pandas.col_index "Subject_Name" cols);
      [|injection E1 as <- _; reflexivity].
    destruct (Pandas.mem _ (widget_keys (page s))); simpl in E1.
    + injection E1 as <- _. reflexivity.
    + discriminate E1.
Qed.

(** A submission that ends in the rerun has written the frame
    [saved_choices] and shown its two messages. *)
Lemma submit_choices_rerun (regd name year section : string)
    (sels : list selection) (s s' : state) :
  submit_choices is_na regd name year section sels s
  = (Raise RerunException, s') ->
  s' = show (st_info "If you re-submit later with the same Registration Number, your previous selections for these subjects will be replaced.")
         (show (st_success "Your choices have been recorded.")
            (set_fs (write_path (fs s) CHOICE_FILE
                       (Some (Csv.to_csv
                                (saved_choices (table_of is_na CHOICE_FILE (fs s))
                                               regd name year section sels))))
                    s)).
Proof.
  unfold submit_choices, bind. rewrite load_choices_eq. unfold saved_choices.
  set (pre := table_of is_na CHOICE_FILE (fs s)).
  destruct (negb (Pandas.empty pre)) eqn:E.
  - unfold lift.
    destruct (Pandas.mem "Regd_No" (Pandas.columns pre)) eqn:E1.
    + rewrite (getitem_present _ _ E1).
      destruct (Pandas.mem "Subject_Code" (Pandas.columns pre)) eqn:E2.
      * rewrite (getitem_present _ _ E2). intro H. now injection H as <-.
      * apply col_index_None in E2. unfold Pandas.getitem at 1. rewrite E2.
        discriminate.
    + apply col_index_None in E1. unfold Pandas.getitem at 1. rewrite E1.
      discriminate.
  - intro H. now injection H as <-.
Qed.


(** The student section ends in the rerun only after a submission: the
    login form was complete, the page got one select box per subject row of
    the chosen year, each over all faculty names, and the choices file was
    written with the selections read off those boxes. *)
Lemma student_section_rerun (inp : student_input) (s s' : state) :
  student_section is_na inp s = (Raise RerunException, s') ->
  exists year,
    let subject_rows := rows_of_year (subjects_df s) year in
    let sels :=
      map (selection_of (selection_widgets inp) (faculty_df s) (in_regd inp)
                        (Pandas.columns (subjects_df s)))
          subject_rows in
    pick (years_of (subjects_df s)) 0 (year_picked inp) = Some year /\
    NoDup (map Subject_Code sels) /\
    page s'
    = page s
      ++ st_success "Subjects loaded. Please select one faculty for each subject below."
         :: map (selection_box (faculty_df s) (in_regd inp)
                               (Pandas.columns (subjects_df s)))
                subject_rows
      ++ [ st_success "Your choices have been recorded.";
           st_info "If you re-submit later with the same Registration Number, your previous selections for these subjects will be replaced." ] /\
    fs s'
    = write_path (fs s) CHOICE_FILE
        (Some (Csv.to_csv
                 (saved_choices (table_of is_na CHOICE_FILE (fs s))
                    (in_regd inp) (in_name inp) year (in_section inp) sels))).
Proof.
  unfold student_section. unfold bind at 1 2 3, gets. cbn [fst snd].
  destruct (Pandas.empty (subjects_df s) || Pandas.empty (faculty_df s)).
  { unfold bind, st, modify, st_stop, raise. discriminate. }
  unfold ret at 1. unfold bind at 1, lift at 1.
  destruct (Pandas.mem "Year" (Pandas.columns (subjects_df s))) eqn:EY.
  2:{ apply col_index_None in EY. unfold Pandas.getitem. rewrite EY. discriminate. }
  rewrite (getitem_present _ _ EY).
  destruct (submit_login inp); [|discriminate].
  fold (years_of (subjects_df s)).
  destruct (pick _ 0 (year_picked inp)) as [year|] eqn:Eyear; [|discriminate].
  destruct (falsy (in_regd inp) || falsy (in_name inp) || falsy year
            || falsy (in_section inp)); [discriminate|].
  set (ys := Pandas.boolean_index (subjects_df s) _).
  assert (Hys : Pandas.rows ys = rows_of_year (subjects_df s) year).
  { unfold ys, rows_of_year. cbn [Pandas.boolean_index Pandas.rows].
    now rewrite map_map, select_map. }
  assert (Hcols : Pandas.columns ys = Pandas.columns (subjects_df s))
    by reflexivity.
  destruct (Pandas.empty ys); [discriminate|].
  unfold bind at 1, st at 1, modify at 1.
  set (s1 := show _ s). unfold bind at 1.
  destruct (faculty_selection_form _ _ ys s1) as [[sels|e] s2] eqn:Ef.
  2:{ intro H. injection H as -> _. unfold faculty_selection_form in Ef.
      unfold bind at 1, gets in Ef. apply selection_loop_raises in Ef.
      discriminate. }
  apply faculty_selection_form_rendered in Ef as (Hsels & Hs2 & Hnd).
  destruct (submit_choices_pressed inp); [|discriminate].
  intro H. apply submit_choices_rerun in H.
  exists year. cbv zeta.
  rewrite Hys, Hcols in Hsels, Hs2. change (faculty_df s1) with (faculty_df s) in *.
  rewrite <- Hsels. split; [reflexivity|]. split; [exact Hnd|].
  subst s' s2. unfold s1, shows, show, set_fs. cbn [page fs].
  split; [|reflexivity].
  rewrite <- !app_assoc. reflexivity.
Qed.

End StudentFacts.

(** ** The faculty view's form and names *)

Lemma for_each_Forall {A B : Type} (P : B -> Prop) (f : A -> M B) :
  (forall x s y s', f x s = (Ok y, s') -> P y) ->
  forall l s ys s', for_each f l s = (Ok ys, s') -> Forall P ys.
Proof.
  intros Hf. induction l as [|x l IH]; intros s ys s' H.
  - injection H as <- _. constructor.
  - cbn [for_each] in H. unfold bind at 1 in H.
    destruct (f x s) as [[y|e] s1] eqn:E1; [|discriminate].
    unfold bind at 1 in H.
    destruct (for_each f l s1) as [[ys'|e] s2] eqn:E2; [|discriminate].
    injection H as <- _. constructor; [now apply Hf in E1 | now apply IH in E2].
Qed.

(** The rows the availability form collects are rows of the selected
    faculty member. *)
Lemma availability_form_submitted (user : widgets) (F : string)
    (my_avail : Pandas.DataFrame) (s s' : state) (U : list Pandas.record) :
  availability_form user F my_avail s = (Ok U, s') -> submitted_by F U.
Proof.
  unfold availability_form, submitted_by. apply for_each_Forall.
  intros row s0 y s0'. unfold bind, lift, ret, selectbox.
  destruct (Pandas.row_getitem _ row "Subject_Code") as [code|]; [|discriminate].
  destruct (Pandas.row_getitem _ row "Subject_Name") as [sname|]; [|discriminate].
  destruct (Pandas.mem _ (widget_keys (page s0))); [discriminate|].
  intro H. injection H as <- _. eauto.
Qed.

(** The names the select boxes offer over a loaded faculty frame are
    never NA tokens. *)
Lemma offered_name_not_na (is_na : string -> bool) (s s' : state)
    (faculty : Pandas.DataFrame) (n : string) :
  load_faculty is_na s = (Ok faculty, s') ->
  In n (all_faculties faculty) -> is_na n = false.
Proof.
  intros Hload Hin.
  assert (Hnorm : Forall (Forall (normal is_na)) (Pandas.rows faculty)).
  { unfold load_faculty, try_except, bind, read_file, ret in Hload.
    destruct (Csv.read_csv is_na (read_path (fs s) FACULTY_FILE)) as [d|e] eqn:E.
    - injection Hload as <- _.
      assert (Hd : Forall (Forall (normal is_na)) (Pandas.rows d)).
      { destruct (read_path (fs s) FACULTY_FILE) as [c|]; [|discriminate].
        now apply parse_normal in E. }
      now destruct (negb _ && _).
    - rewrite (read_csv_raises is_na _ e E) in Hload. injection Hload as <- _.
      constructor. }
  apply all_faculties_spec in Hin. unfold name_column in Hin.
  assert (Hcell : exists r i, In r (Pandas.rows faculty) /\ nth i r Pandas.NaN = Some n).
  { destruct (Pandas.getitem faculty "Faculty_Name") as [names|] eqn:E.
    - unfold Pandas.getitem in E.
      destruct (Pandas.col_index "Faculty_Name" (Pandas.columns faculty)) as [i|];
        [|discriminate].
      injection E as <-. apply in_map_iff in Hin as (r & Hr & Hin). eauto.
    - unfold Pandas.iloc_col0 in Hin.
      apply in_map_iff in Hin as (r & Hr & Hin). eauto. }
  destruct Hcell as (r & i & Hr & Hi).
  rewrite Forall_forall in Hnorm. specialize (Hnorm r Hr).
  destruct (Nat.lt_ge_cases i (length r)) as [Hlt | Hge].
  - rewrite Forall_forall in Hnorm.
    specialize (Hnorm (nth i r Pandas.NaN) (nth_In r Pandas.NaN Hlt)).
    now rewrite Hi in Hnorm.
  - rewrite nth_overflow in Hi by assumption. discriminate.
Qed.

Lemma pick_offered (options : list string) (index : nat) (v : string) :
  In v options -> pick options index (Some v) = Some v.
Proof. intro H. unfold pick. apply mem_In in H. now rewrite H. Qed.

(** C8.  The candidates of the selection form are exactly the distinct
    names of the faculty frame.  A form that renders puts one select box on
    the page per row of [year_subjects], each over all those candidates,
    and records for each row the candidate the student set in its box.  A
    submission writes a row for every recorded selection, with the faculty
    selected.  Whenever the student section gets as far as the rerun, the
    boxes on the page are those of the subject rows of the chosen year and
    the choices file holds the frame made of their values.  None of this
    looks at availability: from two states that differ only in the
    availability frame and file, the student section ends the same way,
    with the same page and the same choices file. *)
Theorem selection_form_offers_all_faculty (is_na : string -> bool) :
  (forall faculty,
     NoDup (all_faculties faculty) /\
     (forall n, In n (all_faculties faculty)
                <-> In (Some n) (name_column faculty))) /\
  (forall user regd year_subjects s s' sels,
     faculty_selection_form user regd year_subjects s = (Ok sels, s') ->
     page s' = page s ++ map (selection_box (faculty_df s) regd
                                (Pandas.columns year_subjects))
                             (Pandas.rows year_subjects) /\
     sels = map (selection_of user (faculty_df s) regd
                   (Pandas.columns year_subjects))
                (Pandas.rows year_subjects) /\
     (forall row f,
        In row (Pandas.rows year_subjects) ->
        In f (all_faculties (faculty_df s)) ->
        user (selection_key regd (Pandas.columns year_subjects) row) = Some f ->
        Faculty_Selected
          (selection_of user (faculty_df s) regd
             (Pandas.columns year_subjects) row) = Some f)) /\
  (forall s regd name year section sels sel,
     Pandas.columns (table_of is_na CHOICE_FILE (fs s)) = CHOICE_COLUMNS ->
     In sel sels ->
     let T := saved_choices (table_of is_na CHOICE_FILE (fs s))
                            regd name year section sels in
     (exists s',
        submit_choices is_na regd name year section sels s
        = (Raise RerunException, s') /\
        fs s' = write_path (fs s) CHOICE_FILE (Some (Csv.to_csv T))) /\
     In (choice_cells regd name year section sel) (Pandas.rows T)) /\
  (forall inp s s',
     student_section is_na inp s = (Raise RerunException, s') ->
     exists year,
       let subject_rows := rows_of_year (subjects_df s) year in
       let sels :=
         map (selection_of (selection_widgets inp) (faculty_df s) (in_regd inp)
                           (Pandas.columns (subjects_df s)))
             subject_rows in
       pick (years_of (subjects_df s)) 0 (year_picked inp) = Some year /\
       NoDup (map Subject_Code sels) /\
       page s'
       = page s
         ++ st_success "Subjects loaded. Please select one faculty for each subject below."
            :: map (selection_box (faculty_df s) (in_regd inp)
                                  (Pandas.columns (subjects_df s)))
                   subject_rows
         ++ [ st_success "Your choices have been recorded.";
              st_info "If you re-submit later with the same Registration Number, your previous selections for these subjects will be replaced." ] /\
       fs s'
       = write_path (fs s) CHOICE_FILE
           (Some (Csv.to_csv
                    (saved_choices (table_of is_na CHOICE_FILE (fs s))
                       (in_regd inp) (in_name inp) year (in_section inp) sels)))) /\
  (forall inp, ignores_availability (student_section is_na inp)).
Proof.
  split; [exact all_faculties_spec|]. split; [|split; [|split]].
  - intros user regd ys s s' sels H.
    apply faculty_selection_form_rendered in H as (-> & -> & _).
    repeat split. intros row f _ Hf Hu. cbn [selection_of Faculty_Selected].
    rewrite Hu. now apply pick_offered.
  - intros s regd name year section sels sel Hcols Hin T.
    destruct (submit_choices_core is_na s regd name year section sels Hcols)
      as (Hrun & _ & Hrows).
    fold T in Hrun, Hrows. split; [exact Hrun|].
    rewrite Hrows. apply in_or_app. right. now apply in_map.
  - exact (student_section_rerun is_na).
  - exact (ignores_student_section is_na).
Qed.

Lemma selection_form_offers_all_faculty_witness :
  Pandas.rows (avail_df resubmission_loaded)
  = [ [Some "Dr. A"; Some "CS101"; Some "Intro"; Some "Yes"];
      [Some "Dr. B"; Some "CS101"; Some "Intro"; Some "No"];
      [Some "Dr. A"; Some "MA101"; Some "Maths"; Some "Yes"];
      [Some "Dr. B"; Some "MA101"; Some "Maths"; Some "Yes"] ] /\
  page (snd (student_section Csv.default_na student_21CS003 resubmission_loaded))
  = [ st_success "Subjects loaded. Please select one faculty for each subject below.";
      st_selectbox "Intro (CS101)" ["Dr. A"; "Dr. B"] "CS101_21CS003";
      st_selectbox "Maths (MA101)" ["Dr. A"; "Dr. B"] "MA101_21CS003";
      st_success "Your choices have been recorded.";
      st_info "If you re-submit later with the same Registration Number, your previous selections for these subjects will be replaced." ] /\
  In [Some "21CS003"; Some "Cy"; Some "1"; Some "B"; Some "CS101"; Some "Intro";
      Some "Dr. B"]
     (Pandas.rows
        (table_of Csv.default_na CHOICE_FILE
           (fs (snd (student_section Csv.default_na student_21CS003
                                     resubmission_loaded))))).
Proof.
  destruct (selection_form_offers_all_faculty Csv.default_na)
    as (_ & _ & _ & Hrun & _).
  destruct (Hrun student_21CS003 resubmission_loaded
              (snd (student_section Csv.default_na student_21CS003
                                    resubmission_loaded))
              eq_refl)
    as (year & Hyear & _ & Hpage & Hfs).
  assert (Hy : year = "1") by (vm_compute in Hyear; now injection Hyear).
  rewrite Hy in Hpage, Hfs.
  split; [reflexivity|]. split.
  - rewrite Hpage. reflexivity.
  - rewrite Hfs. vm_compute. tauto.
Defined.

(** * Further properties of the script *)

(** ** The data files *)

Section ExtraFiles.

Variable is_na : string -> bool.

(** X1.  [ensure_data_files] returns normally and touches nothing but
    missing paths: a path that exists keeps its content, a missing path is
    created with just the canonical header of its table; the frames and the
    page are as before.  Run again, it changes nothing. *)
Theorem ensure_data_files_creates_missing (s : state) :
  exists s',
    ensure_data_files s = (Ok tt, s') /\
    (forall p,
       read_path (fs s') p
       = match read_path (fs s) p with
         | Some c => Some c
         | None => Some (header_only p)
         end) /\
    subjects_df s' = subjects_df s /\ faculty_df s' = faculty_df s /\
    choices_df s' = choices_df s /\ avail_df s' = avail_df s /\
    page s' = page s /\
    ensure_data_files s' = (Ok tt, s').
Proof.
  destruct s as [[f1 f2 f3 f4] sd fd cd ad pg].
  destruct f1, f2, f3, f4; eexists; (split; [reflexivity|]);
    (split; [intros []; reflexivity|]); repeat split.
Qed.

(** X2.  A file created by [ensure_data_files] is read without an error
    as the empty frame under the canonical header, whatever the NA filter,
    and the loader of the table returns that frame. *)
Theorem created_file_loads_empty (s : state) (p : path) :
  read_path (fs s) p = None ->
  let s' := snd (ensure_data_files s) in
  Csv.read_csv is_na (read_path (fs s') p)
  = Ok (Pandas.DataFrame_columns (canonical_header p)) /\
  loader is_na p s' = (Ok (Pandas.DataFrame_columns (canonical_header p)), s').
Proof.
  intros Hp s'. subst s'.
  destruct s as [[f1 f2 f3 f4] sd fd cd ad pg].
  destruct f1, f2, f3, f4; destruct p; simpl in Hp; try discriminate;
    split; reflexivity.
Qed.

(** X3.  [load_faculty] returns normally with a frame that always has a
    Faculty_Name column.  When the file reads as a frame without that
    column, the frame returned has the same rows, its first column is the
    one labelled Faculty_Name, and the names are the cells of that first
    column. *)
Theorem load_faculty_has_name_column (s : state) :
  exists d,
    load_faculty is_na s = (Ok d, s) /\
    Pandas.mem "Faculty_Name" (Pandas.columns d) = true /\
    (forall d0,
       Csv.read_csv is_na (faculty_list_csv (fs s)) = Ok d0 ->
       Pandas.rows d = Pandas.rows d0 /\
       (Pandas.mem "Faculty_Name" (Pandas.columns d0) = true -> d = d0) /\
       (Pandas.mem "Faculty_Name" (Pandas.columns d0) = false ->
        hd "" (Pandas.columns d) = "Faculty_Name" /\
        name_column d = Pandas.iloc_col0 d0)).
Proof.
  unfold load_faculty, try_except, bind, read_file, ret. cbn [read_path].
  destruct (Csv.read_csv is_na (faculty_list_csv (fs s))) as [d0|e] eqn:E.
  - assert (Hcols : Pandas.columns d0 <> []).
    { destruct (faculty_list_csv (fs s)) as [c|]; [|discriminate].
      now apply parse_columns in E. }
    destruct (Pandas.mem "Faculty_Name" (Pandas.columns d0)) eqn:Em.
    + exists d0. cbn [negb andb]. split; [reflexivity|]. split; [exact Em|].
      intros d1 H1. injection H1 as <-. split; [reflexivity|].
      split; [reflexivity|]. intro H. rewrite Em in H. discriminate H.
    + destruct d0 as [[|h cols] rows]; [exfalso; apply Hcols; reflexivity|].
      cbn [Pandas.columns Pandas.shape1 length negb andb Nat.ltb Nat.leb hd].
      eexists. split; [reflexivity|].
      unfold Pandas.rename. cbn [Pandas.columns Pandas.rows map].
      rewrite String.eqb_refl. split; [reflexivity|].
      intros d1 H1. injection H1 as <-. cbn [Pandas.rows Pandas.columns].
      split; [reflexivity|]. split; [intro H; cbn [Pandas.columns] in Em; rewrite Em in H; discriminate H|].
      intros _. split; [reflexivity|].
      unfold name_column, Pandas.getitem. cbn [Pandas.columns Pandas.col_index].
      reflexivity.
  - rewrite (read_csv_raises is_na _ e E). eexists. split; [reflexivity|].
    split; [reflexivity|]. intros d0 H. discriminate.
Qed.

(** X4.  Saving and loading is a round trip for the frames the script
    holds: a frame with at least one column, its labels pairwise distinct
    and none empty (as [read_csv] gives them: it numbers a repeated label
    and names an empty one), one cell per column in every row and no cell
    that is an NA token, written to a path and loaded again by the loader
    of that path, comes back as it was (the empty field being an NA token,
    as in pandas; for the faculty path the frame is to have its
    Faculty_Name column). *)
Theorem save_then_load (s : state) (p : path) (df : Pandas.DataFrame) :
  is_na "" = true ->
  Pandas.wf df ->
  Pandas.columns df <> [] ->
  plain_header (Pandas.columns df) ->
  Forall (Forall (normal is_na)) (Pandas.rows df) ->
  (p = FACULTY_FILE -> Pandas.mem "Faculty_Name" (Pandas.columns df) = true) ->
  (save_df_to_csv df p;; loader is_na p) s
  = (Ok df, set_fs (write_path (fs s) p (Some (Csv.to_csv df))) s).
Proof.
  intros Hempty Hwf Hne Hplain Hnorm Hfac.
  pose proof (read_back is_na df Hempty Hwf Hne Hplain Hnorm) as Hread.
  unfold bind, save_df_to_csv, modify.
  set (s1 := set_fs _ s).
  assert (Hfile : Csv.read_csv is_na (read_path (fs s1) p) = Ok df)
    by (unfold s1; cbn [fs set_fs]; now rewrite read_write_path).
  destruct p; cbn [loader];
    unfold load_subjects, load_faculty, load_choices, load_availability,
      try_except, bind, read_file, ret; rewrite Hfile; try reflexivity.
  rewrite (Hfac eq_refl). reflexivity.
Qed.

End ExtraFiles.

Lemma created_file_loads_empty_witness :
  loader Csv.default_na CHOICE_FILE
         (snd (ensure_data_files (fresh (mkStore None None None None))))
  = (Ok (Pandas.DataFrame_columns CHOICE_COLUMNS),
     snd (ensure_data_files (fresh (mkStore None None None None)))).
Proof.
  exact (proj2 (created_file_loads_empty Csv.default_na
                  (fresh (mkStore None None None None)) CHOICE_FILE eq_refl)).
Defined.

Lemma save_then_load_witness :
  (save_df_to_csv
     {| Pandas.columns := AVAIL_COLUMNS;
        Pandas.rows := [ [Some "Dr. A"; Some "CS101"; None; Some "No"] ] |}
     FAC_AVAIL_FILE;;
   loader Csv.default_na FAC_AVAIL_FILE) (fresh scenario_store)
  = (Ok {| Pandas.columns := AVAIL_COLUMNS;
           Pandas.rows := [ [Some "Dr. A"; Some "CS101"; None; Some "No"] ] |},
     set_fs (write_path scenario_store FAC_AVAIL_FILE
               (Some (Csv.Table AVAIL_COLUMNS [ ["Dr. A"; "CS101"; ""; "No"] ])))
            (fresh scenario_store)).
Proof.
  apply (save_then_load Csv.default_na (fresh scenario_store) FAC_AVAIL_FILE
           {| Pandas.columns := AVAIL_COLUMNS;
              Pandas.rows := [ [Some "Dr. A"; Some "CS101"; None; Some "No"] ] |}).
  - reflexivity.
  - repeat constructor.
  - discriminate.
  - solve_plain.
  - repeat constructor.
  - discriminate.
Defined.

(** ** Initialisation of the availability *)

Lemma empty_false (df : Pandas.DataFrame) :
  Pandas.empty df = false <->
  Pandas.columns df <> [] /\ Pandas.rows df <> [].
Proof.
  unfold Pandas.empty. rewrite orb_false_iff, !Nat.eqb_neq.
  destruct (Pandas.columns df), (Pandas.rows df); simpl;
    intuition (discriminate || congruence).
Qed.

(** The first subject row decides whether the loops raise. *)
Lemma default_rows_KeyError (fname : Pandas.cell) (subjects : Pandas.DataFrame) :
  Pandas.rows subjects <> [] ->
  (Pandas.mem "Subject_Code" (Pandas.columns subjects) = false ->
   default_rows fname subjects = Raise (KeyError "Subject_Code")) /\
  (Pandas.mem "Subject_Code" (Pandas.columns subjects) = true ->
   Pandas.mem "Subject_Name" (Pandas.columns subjects) = false ->
   default_rows fname subjects = Raise (KeyError "Subject_Name")).
Proof.
  intro Hne. unfold default_rows.
  destruct (Pandas.rows subjects) as [|srow l]; [contradiction|]. split.
  - intro Hc. apply col_index_None in Hc. cbn [rmap].
    unfold Pandas.row_getitem at 1. rewrite Hc. reflexivity.
  - intros Hc Hn. apply col_index_None in Hn. cbn [rmap].
    rewrite (row_getitem_present _ srow _ Hc). cbn [rbind].
    unfold Pandas.row_getitem at 1. rewrite Hn. reflexivity.
Qed.

Lemma default_availability_KeyError (faculty subjects : Pandas.DataFrame) :
  Pandas.rows faculty <> [] ->
  Pandas.rows subjects <> [] ->
  (Pandas.mem "Subject_Code" (Pandas.columns subjects) = false ->
   default_availability faculty subjects = Raise (KeyError "Subject_Code")) /\
  (Pandas.mem "Subject_Code" (Pandas.columns subjects) = true ->
   Pandas.mem "Subject_Name" (Pandas.columns subjects) = false ->
   default_availability faculty subjects = Raise (KeyError "Subject_Name")).
Proof.
  intros HF HS. unfold default_availability.
  destruct (Pandas.rows faculty) as [|frow l]; [contradiction|].
  cbn [rmap].
  destruct (default_rows_KeyError (fname_of (Pandas.columns faculty) frow)
              subjects HS) as [H1 H2].
  split.
  - intro Hc. rewrite (H1 Hc). reflexivity.
  - intros Hc Hn. rewrite (H2 Hc Hn). reflexivity.
Qed.

(** The frame built from the default rows. *)
Lemma default_availability_frame (faculty subjects : Pandas.DataFrame) :
  Pandas.empty faculty = false ->
  Pandas.empty subjects = false ->
  Pandas.mem "Subject_Code" (Pandas.columns subjects) = true ->
  Pandas.mem "Subject_Name" (Pandas.columns subjects) = true ->
  exists recs,
    default_availability faculty subjects = Ok recs /\
    Pandas.from_records recs
    = {| Pandas.columns := AVAIL_COLUMNS;
         Pandas.rows := default_cells faculty subjects |} /\
    default_cells faculty subjects <> [].
Proof.
  intros EF ES Hc Hn. rewrite (default_availability_Ok _ _ Hc Hn).
  set (recs := flat_map _ (Pandas.rows faculty)).
  assert (Hrows : map (fun r => map (Pandas.dict_get r) AVAIL_COLUMNS) recs
                  = default_cells faculty subjects).
  { unfold recs, default_cells. rewrite map_flat_map.
    apply flat_map_ext. intro frow. now rewrite map_map. }
  assert (Hlen : length (default_cells faculty subjects)
                 = length (Pandas.rows faculty) * length (Pandas.rows subjects))
    by apply length_cross.
  apply empty_false in EF as [_ EF]. apply empty_false in ES as [_ ES].
  assert (Hcells : default_cells faculty subjects <> []).
  { intro Hnil. rewrite Hnil in Hlen. simpl in Hlen.
    destruct (Pandas.rows faculty); [contradiction|].
    destruct (Pandas.rows subjects); [contradiction|]. simpl in Hlen. lia. }
  assert (Hne : recs <> []).
  { intro Hnil. rewrite Hnil in Hrows. simpl in Hrows. now symmetry in Hrows. }
  assert (Hall : Forall (fun r => exists f c n a, r = availability_row f c n a)
                        recs).
  { apply Forall_forall. intros r Hr. unfold recs in Hr.
    apply in_flat_map in Hr as (frow & _ & Hr).
    apply in_map_iff in Hr as (srow & <- & _). eauto. }
  exists recs. split; [reflexivity|].
  rewrite (from_availability_rows _ Hne Hall), Hrows. split; [reflexivity|].
  exact Hcells.
Qed.

(** Default rows that were built come from a subjects frame that has both
    columns. *)
Lemma default_availability_Ok_columns (faculty subjects : Pandas.DataFrame)
    (recs : list Pandas.record) :
  Pandas.empty faculty = false ->
  Pandas.empty subjects = false ->
  default_availability faculty subjects = Ok recs ->
  Pandas.mem "Subject_Code" (Pandas.columns subjects) = true /\
  Pandas.mem "Subject_Name" (Pandas.columns subjects) = true.
Proof.
  intros EF ES H.
  apply empty_false in EF as [_ EF]. apply empty_false in ES as [_ ES].
  destruct (default_availability_KeyError faculty subjects EF ES) as [H1 H2].
  destruct (Pandas.mem "Subject_Code" (Pandas.columns subjects)) eqn:Hc.
  - destruct (Pandas.mem "Subject_Name" (Pandas.columns subjects)) eqn:Hn.
    + now split.
    + rewrite (H2 eq_refl eq_refl) in H. discriminate.
  - rewrite (H1 eq_refl) in H. discriminate.
Qed.

(** X5.  Initialising twice is initialising once: whatever the state, a
    second call of [initialize_availability_if_empty] right after the first
    changes nothing, because the first leaves the availability frame
    non-empty whenever it writes. *)
Theorem initialize_availability_twice (s : state) :
  (initialize_availability_if_empty;; initialize_availability_if_empty) s
  = initialize_availability_if_empty s.
Proof.
  unfold bind. rewrite (initialize_availability_eq s).
  destruct (Pandas.empty (faculty_df s) || Pandas.empty (subjects_df s)) eqn:G.
  - rewrite initialize_availability_eq, G. reflexivity.
  - destruct (Pandas.empty (avail_df s)) eqn:EA.
    + destruct (default_availability (faculty_df s) (subjects_df s))
        as [recs|e] eqn:ED; [|reflexivity].
      apply orb_false_iff in G as [EF ES].
      destruct (default_availability_Ok_columns _ _ recs EF ES ED) as [Hc Hn].
      destruct (default_availability_frame _ _ EF ES Hc Hn)
        as (recs' & ED' & Hframe & Hcells).
      rewrite ED in ED'. injection ED' as <-.
      rewrite initialize_availability_eq.
      cbn [faculty_df subjects_df avail_df set_fs set_avail_df].
      rewrite EF, ES. cbn [orb]. rewrite Hframe.
      replace (Pandas.empty _) with false; [reflexivity|].
      symmetry. apply empty_false. cbn [Pandas.columns Pandas.rows].
      split; [discriminate|exact Hcells].
    + rewrite initialize_availability_eq, G, EA. reflexivity.
Qed.

(** X6.  When initialisation has work to do (both reference frames
    non-empty, availability empty) over a subjects frame that lacks the
    code or the name column, it raises the [KeyError] of the first column
    missing and leaves files, frames and page as they were.  With both
    columns there, it returns normally. *)
Theorem initialize_availability_raises (s : state) :
  nothing_to_initialize s = false ->
  (Pandas.mem "Subject_Code" (Pandas.columns (subjects_df s)) = false ->
   initialize_availability_if_empty s = (Raise (KeyError "Subject_Code"), s)) /\
  (Pandas.mem "Subject_Code" (Pandas.columns (subjects_df s)) = true ->
   Pandas.mem "Subject_Name" (Pandas.columns (subjects_df s)) = false ->
   initialize_availability_if_empty s = (Raise (KeyError "Subject_Name"), s)) /\
  (Pandas.mem "Subject_Code" (Pandas.columns (subjects_df s)) = true ->
   Pandas.mem "Subject_Name" (Pandas.columns (subjects_df s)) = true ->
   fst (initialize_availability_if_empty s) = Ok tt).
Proof.
  unfold nothing_to_initialize. intro G.
  apply orb_false_iff in G as [G EA]. apply negb_false_iff in EA.
  rewrite initialize_availability_eq, G, EA.
  apply orb_false_iff in G as [EF ES].
  pose proof (proj2 (proj1 (empty_false _) EF)) as HF.
  pose proof (proj2 (proj1 (empty_false _) ES)) as HS.
  destruct (default_availability_KeyError _ _ HF HS) as [H1 H2].
  split; [|split].
  - intro Hc. now rewrite (H1 Hc).
  - intros Hc Hn. now rewrite (H2 Hc Hn).
  - intros Hc Hn.
    destruct (default_availability_frame _ _ EF ES Hc Hn) as (recs & -> & _).
    reflexivity.
Qed.

Lemma initialize_availability_raises_witness :
  initialize_availability_if_empty
    (loaded Csv.default_na nameless_subjects_store)
  = (Raise (KeyError "Subject_Name"),
     loaded Csv.default_na nameless_subjects_store).
Proof.
  apply (proj1 (proj2 (initialize_availability_raises
                         (loaded Csv.default_na nameless_subjects_store)
                         eq_refl))); reflexivity.
Defined.

(** ** The admin view *)

Lemma reset_availability_eq (s : state) :
  reset_availability s =
  if Pandas.empty (faculty_df s) || Pandas.empty (subjects_df s)
  then (Ok tt, show (st_error "Upload faculty_list.csv and subjects.csv first.") s)
  else
    match default_availability (faculty_df s) (subjects_df s) with
    | Ok rows =>
        (Raise RerunException,
         show (st_success "Faculty availability has been (re)initialized.")
           (set_fs (write_path (fs s) FAC_AVAIL_FILE
                      (Some (Csv.to_csv (Pandas.from_records rows))))
                   (set_avail_df (Pandas.from_records rows) s)))
    | Raise e => (Raise e, s)
    end.
Proof.
  unfold reset_availability, bind, gets, lift, modify, save_df_to_csv, st,
    st_rerun, raise. simpl.
  destruct (Pandas.empty (faculty_df s) || Pandas.empty (subjects_df s));
    [reflexivity|].
  destruct (default_availability (faculty_df s) (subjects_df s)); reflexivity.
Qed.

(** X7.  The reset button.  With an empty reference frame it shows an
    error and writes nothing.  Otherwise (the subjects frame having its
    code and name columns) it replaces the availability frame and file by
    the default rows, one "Yes" row per faculty row and subject row,
    whatever answers they held, and reruns; the file is the one
    initialisation writes from the same frames over an empty availability. *)
Theorem reset_availability_overwrites (s : state) :
  (Pandas.empty (faculty_df s) || Pandas.empty (subjects_df s) = true ->
   reset_availability s
   = (Ok tt, show (st_error "Upload faculty_list.csv and subjects.csv first.") s)) /\
  (Pandas.empty (faculty_df s) || Pandas.empty (subjects_df s) = false ->
   Pandas.mem "Subject_Code" (Pandas.columns (subjects_df s)) = true ->
   Pandas.mem "Subject_Name" (Pandas.columns (subjects_df s)) = true ->
   let T := default_frame (faculty_df s) (subjects_df s) in
   reset_availability s
   = (Raise RerunException,
      show (st_success "Faculty availability has been (re)initialized.")
        (set_fs (write_path (fs s) FAC_AVAIL_FILE (Some (Csv.to_csv T)))
                (set_avail_df T s))) /\
   fs (snd (reset_availability s))
   = fs (snd (initialize_availability_if_empty
                (set_avail_df Pandas.DataFrame_nil s)))).
Proof.
  rewrite reset_availability_eq, initialize_availability_eq.
  cbn [faculty_df subjects_df avail_df set_avail_df fs].
  split.
  - intros ->. reflexivity.
  - intros G Hc Hn. rewrite G.
    apply orb_false_iff in G as [EF ES].
    destruct (default_availability_frame _ _ EF ES Hc Hn)
      as (recs & -> & -> & _).
    split; reflexivity.
Qed.

Lemma reset_availability_overwrites_witness :
  faculty_availability_csv (fs resubmission_loaded)
  = Some (Csv.Table AVAIL_COLUMNS
            [ ["Dr. A"; "CS101"; "Intro"; "Yes"];
              ["Dr. B"; "CS101"; "Intro"; "No"];
              ["Dr. A"; "MA101"; "Maths"; "Yes"];
              ["Dr. B"; "MA101"; "Maths"; "Yes"] ]) /\
  fst (reset_availability resubmission_loaded) = Raise RerunException /\
  faculty_availability_csv (fs (snd (reset_availability resubmission_loaded)))
  = Some (Csv.Table AVAIL_COLUMNS
            [ ["Dr. A"; "CS101"; "Intro"; "Yes"];
              ["Dr. A"; "MA101"; "Maths"; "Yes"];
              ["Dr. B"; "CS101"; "Intro"; "Yes"];
              ["Dr. B"; "MA101"; "Maths"; "Yes"] ]).
Proof.
  destruct (proj2 (reset_availability_overwrites resubmission_loaded)
              eq_refl eq_refl eq_refl) as [Hrun _].
  rewrite Hrun. repeat split.
Defined.

Section ExtraAdmin.

Variable is_na : string -> bool.

(** X8.  The clear button ends in the rerun with the choices file holding
    just its canonical header, whatever it held and even if it was missing;
    the other three files are as they were, the message is shown, and
    loading the choices afterwards gives the empty frame under the
    canonical header. *)
Theorem clear_choices_leaves_header (s : state) :
  exists s',
    clear_choices s = (Raise RerunException, s') /\
    read_path (fs s') CHOICE_FILE = Some (header_only CHOICE_FILE) /\
    (forall p, p <> CHOICE_FILE -> read_path (fs s') p = read_path (fs s) p) /\
    page s' = page s ++ [st_success "All student choices cleared."] /\
    load_choices is_na s'
    = (Ok (Pandas.DataFrame_columns CHOICE_COLUMNS), s').
Proof.
  eexists. split; [reflexivity|]. split; [reflexivity|].
  split; [intros [] Hp; try reflexivity; now contradiction Hp|].
  split; reflexivity.
Qed.

Lemma initialize_availability_idle (s : state) :
  Pandas.empty (avail_df s) = false ->
  initialize_availability_if_empty s = (Ok tt, s).
Proof.
  intro EA. rewrite initialize_availability_eq, EA.
  now destruct (Pandas.empty (faculty_df s) || Pandas.empty (subjects_df s)).
Qed.

(** X9.  Once there is availability data, no upload touches it: after
    the subjects block or the faculty block, on any upload, the
    availability file and frame are what they were, so the subject names
    and faculty names copied into them are not brought up to date. *)
Theorem uploads_keep_availability (s : state) (upload : option Csv.content) :
  Pandas.empty (avail_df s) = false ->
  (let s' := snd (uploaded_subjects is_na upload s) in
   faculty_availability_csv (fs s') = faculty_availability_csv (fs s) /\
   avail_df s' = avail_df s) /\
  (let s' := snd (uploaded_faculty is_na upload s) in
   faculty_availability_csv (fs s') = faculty_availability_csv (fs s) /\
   avail_df s' = avail_df s).
Proof.
  intro EA. destruct upload as [c|]; [|repeat split].
  unfold uploaded_subjects, uploaded_faculty, try_except, bind, lift.
  destruct (Csv.parse is_na c) as [df|e] eqn:E.
  - split.
    + destruct (negb (issubset SUBJECT_COLUMNS (Pandas.columns df)));
        [repeat split|].
      cbn [save_df_to_csv st modify]. rewrite initialize_availability_idle
        by exact EA. repeat split.
    + destruct (negb (Pandas.mem "Faculty_Name" (Pandas.columns df))).
      * destruct (candidate (Pandas.columns df)); [|repeat split].
        cbn [ret save_df_to_csv st modify].
        rewrite initialize_availability_idle by exact EA. repeat split.
      * cbn [ret save_df_to_csv st modify].
        rewrite initialize_availability_idle by exact EA. repeat split.
  - rewrite (read_csv_raises is_na (Some c) e E). repeat split.
Qed.

(** X10.  A valid subjects upload is never answered by an error: the
    block returns normally with the file stored, the success message shown
    and the subjects frame replaced.  When the faculty frame and the upload
    are non-empty and there is no availability data yet, it goes on to
    initialise the availability over the uploaded subjects; otherwise the
    availability is not touched. *)
Theorem uploaded_subjects_valid (s : state) (c : Csv.content)
    (df : Pandas.DataFrame) :
  Csv.parse is_na c = Ok df ->
  issubset SUBJECT_COLUMNS (Pandas.columns df) = true ->
  let s1 := set_subjects_df df
              (show (st_success "subjects.csv uploaded and saved.")
                 (set_fs (write_path (fs s) SUBJECTS_FILE (Some (Csv.to_csv df)))
                         s)) in
  (nothing_to_initialize s1 = true ->
   uploaded_subjects is_na (Some c) s = (Ok tt, s1)) /\
  (nothing_to_initialize s1 = false ->
   let T := default_frame (faculty_df s) df in
   uploaded_subjects is_na (Some c) s
   = (Ok tt,
      set_fs (write_path (fs s1) FAC_AVAIL_FILE (Some (Csv.to_csv T)))
             (set_avail_df T s1))).
Proof.
  intros E Hsub s1.
  assert (Hrun : uploaded_subjects is_na (Some c) s
                 = match initialize_availability_if_empty s1 with
                   | (Ok a, s') => (Ok a, s')
                   | (Raise e, s') =>
                       if is_Exception e
                       then (Ok tt, show (st_error "Error reading file") s')
                       else (Raise e, s')
                   end).
  { unfold uploaded_subjects, try_except, bind, lift. rewrite E, Hsub.
    reflexivity. }
  rewrite Hrun, initialize_availability_eq. unfold nothing_to_initialize.
  split.
  - intro G.
    destruct (Pandas.empty (faculty_df s1) || Pandas.empty (subjects_df s1));
      [reflexivity|].
    cbn [orb] in G. apply negb_true_iff in G. now rewrite G.
  - intros G.
    destruct (Pandas.empty (faculty_df s1) || Pandas.empty (subjects_df s1)) eqn:G1;
      [discriminate|].
    cbn [orb] in G. apply negb_false_iff in G. rewrite G.
    apply orb_false_iff in G1 as [EF ES].
    assert (Hc : Pandas.mem "Subject_Code" (Pandas.columns (subjects_df s1)) = true).
    { unfold issubset, SUBJECT_COLUMNS in Hsub. simpl in Hsub.
      now destruct (Pandas.mem "Year" _), (Pandas.mem "Subject_Code" _). }
    assert (Hn : Pandas.mem "Subject_Name" (Pandas.columns (subjects_df s1)) = true).
    { unfold issubset, SUBJECT_COLUMNS in Hsub. simpl in Hsub.
      now destruct (Pandas.mem "Year" _), (Pandas.mem "Subject_Code" _),
        (Pandas.mem "Subject_Name" _). }
    destruct (default_availability_frame _ _ EF ES Hc Hn)
      as (recs & -> & -> & _).
    reflexivity.
Qed.

(** X11.  A faculty upload that is not accepted stores nothing.  One that
    cannot be parsed is answered by "Error reading file" and the block
    returns; one that parses to a frame with no Faculty_Name column and no
    header containing "name" is answered by an error message and stops the
    run.  In both cases files and frames are as before. *)
Theorem uploaded_faculty_rejects (s : state) (c : Csv.content) :
  (forall e, Csv.parse is_na c = Raise e ->
     uploaded_faculty is_na (Some c) s
     = (Ok tt, show (st_error "Error reading file") s)) /\
  (forall df, Csv.parse is_na c = Ok df ->
     Pandas.mem "Faculty_Name" (Pandas.columns df) = false ->
     Forall (fun h => contains "name" (lower h) = false) (Pandas.columns df) ->
     uploaded_faculty is_na (Some c) s
     = (Raise StopException,
        show (st_error "faculty_list.csv must contain a Faculty_Name column (or a column with 'name' in its header).") s)).
Proof.
  unfold uploaded_faculty, try_except, bind, lift. split.
  - intros e E. rewrite E, (read_csv_raises is_na (Some c) e E). reflexivity.
  - intros df E Hm Hall. rewrite E, Hm.
    assert (Hcand : candidate (Pandas.columns df) = None).
    { clear - Hall. induction Hall as [|h l Hh _ IH]; simpl; [reflexivity|].
      now rewrite Hh. }
    rewrite Hcand. reflexivity.
Qed.

(** X12.  A faculty upload that is accepted is stored (under the renamed
    column where it had no Faculty_Name), the success message is shown and
    the faculty frame replaced.  The initialisation that follows runs inside
    the same [try]: when it has work to do over a subjects frame without
    its code or name column, the block still returns normally, with the file
    stored and "Error reading file" shown after the success message;
    otherwise availability is initialised over the uploaded names, or left
    alone when there is nothing to initialise. *)
Theorem uploaded_faculty_valid (s : state) (c : Csv.content)
    (df df' : Pandas.DataFrame) :
  Csv.parse is_na c = Ok df ->
  accepted_faculty df = Some df' ->
  let s1 := set_faculty_df df'
              (show (st_success "faculty_list.csv uploaded and saved.")
                 (set_fs (write_path (fs s) FACULTY_FILE (Some (Csv.to_csv df')))
                         s)) in
  (nothing_to_initialize s1 = true ->
   uploaded_faculty is_na (Some c) s = (Ok tt, s1)) /\
  (nothing_to_initialize s1 = false ->
   Pandas.mem "Subject_Code" (Pandas.columns (subjects_df s)) = true ->
   Pandas.mem "Subject_Name" (Pandas.columns (subjects_df s)) = true ->
   let T := default_frame df' (subjects_df s) in
   uploaded_faculty is_na (Some c) s
   = (Ok tt,
      set_fs (write_path (fs s1) FAC_AVAIL_FILE (Some (Csv.to_csv T)))
             (set_avail_df T s1))) /\
  (nothing_to_initialize s1 = false ->
   Pandas.mem "Subject_Code" (Pandas.columns (subjects_df s))
   && Pandas.mem "Subject_Name" (Pandas.columns (subjects_df s)) = false ->
   uploaded_faculty is_na (Some c) s
   = (Ok tt, show (st_error "Error reading file") s1)).
Proof.
  intros E Hacc s1.
  assert (Hrun : uploaded_faculty is_na (Some c) s
                 = match initialize_availability_if_empty s1 with
                   | (Ok a, s') => (Ok a, s')
                   | (Raise e, s') =>
                       if is_Exception e
                       then (Ok tt, show (st_error "Error reading file") s')
                       else (Raise e, s')
                   end).
  { unfold uploaded_faculty, try_except, bind, lift. rewrite E.
    unfold accepted_faculty in Hacc.
    destruct (Pandas.mem "Faculty_Name" (Pandas.columns df)); cbn [negb].
    - injection Hacc as <-. reflexivity.
    - destruct (candidate (Pandas.columns df)); [|discriminate].
      injection Hacc as <-. reflexivity. }
  rewrite Hrun. split; [|split].
  - intro G. rewrite initialize_availability_eq.
    unfold nothing_to_initialize in G.
    destruct (Pandas.empty (faculty_df s1) || Pandas.empty (subjects_df s1));
      [reflexivity|].
    cbn [orb] in G. apply negb_true_iff in G. now rewrite G.
  - intros G Hc Hn. rewrite initialize_availability_eq.
    unfold nothing_to_initialize in G.
    destruct (Pandas.empty (faculty_df s1) || Pandas.empty (subjects_df s1)) eqn:G1;
      [discriminate|].
    cbn [orb] in G. apply negb_false_iff in G. rewrite G.
    apply orb_false_iff in G1 as [EF ES].
    destruct (default_availability_frame (faculty_df s1) (subjects_df s1)
                EF ES Hc Hn) as (recs & -> & -> & _).
    reflexivity.
  - intros G Hmiss. rewrite initialize_availability_eq.
    unfold nothing_to_initialize in G.
    destruct (Pandas.empty (faculty_df s1) || Pandas.empty (subjects_df s1)) eqn:G1;
      [discriminate|].
    cbn [orb] in G. apply negb_false_iff in G. rewrite G.
    apply orb_false_iff in G1 as [EF ES].
    destruct (default_availability_KeyError (faculty_df s1) (subjects_df s1)
                (proj2 (proj1 (empty_false _) EF))
                (proj2 (proj1 (empty_false _) ES))) as [H1 H2].
    change (subjects_df s1) with (subjects_df s) in H1, H2 |- *.
    destruct (Pandas.mem "Subject_Code" (Pandas.columns (subjects_df s))).
    + destruct (Pandas.mem "Subject_Name" (Pandas.columns (subjects_df s)));
        [discriminate|].
      rewrite (H2 eq_refl eq_refl). reflexivity.
    + rewrite (H1 eq_refl). reflexivity.
Qed.

End ExtraAdmin.

Lemma uploads_keep_availability_witness :
  faculty_availability_csv
    (fs (snd (uploaded_subjects Csv.default_na (Some subjects_with_teacher)
                                resubmission_loaded)))
  = faculty_availability_csv (fs resubmission_loaded) /\
  faculty_availability_csv
    (fs (snd (uploaded_faculty Csv.default_na (Some two_teachers)
                               resubmission_loaded)))
  = faculty_availability_csv (fs resubmission_loaded).
Proof.
  split.
  - exact (proj1 (proj1 (uploads_keep_availability Csv.default_na
                           resubmission_loaded (Some subjects_with_teacher)
                           eq_refl))).
  - exact (proj1 (proj2 (uploads_keep_availability Csv.default_na
                           resubmission_loaded (Some two_teachers)
                           eq_refl))).
Defined.

Lemma uploaded_subjects_valid_witness :
  fst (uploaded_subjects Csv.default_na (Some subjects_with_teacher)
                         scenario_state) = Ok tt /\
  faculty_availability_csv
    (fs (snd (uploaded_subjects Csv.default_na (Some subjects_with_teacher)
                                scenario_state)))
  = Some (Csv.Table AVAIL_COLUMNS
            [ ["Dr. A"; "CS101"; "Intro"; "Yes"];
              ["Dr. A"; "MA101"; ""; "Yes"];
              ["Dr. B"; "CS101"; "Intro"; "Yes"];
              ["Dr. B"; "MA101"; ""; "Yes"] ]).
Proof.
  rewrite (proj2 (uploaded_subjects_valid Csv.default_na scenario_state
                    subjects_with_teacher _ eq_refl eq_refl) eq_refl).
  split; reflexivity.
Defined.

Lemma uploaded_faculty_rejects_witness :
  uploaded_faculty Csv.default_na (Some subjects_without_name)
                   (fresh scenario_store)
  = (Raise StopException,
     show (st_error "faculty_list.csv must contain a Faculty_Name column (or a column with 'name' in its header).")
          (fresh scenario_store)).
Proof.
  apply (proj2 (uploaded_faculty_rejects Csv.default_na (fresh scenario_store)
                  subjects_without_name) _ eq_refl eq_refl).
  repeat constructor.
Defined.

Lemma uploaded_faculty_valid_witness :
  fst (uploaded_faculty Csv.default_na (Some two_teachers)
         (loaded Csv.default_na nameless_subjects_store)) = Ok tt /\
  faculty_list_csv
    (fs (snd (uploaded_faculty Csv.default_na (Some two_teachers)
                (loaded Csv.default_na nameless_subjects_store))))
  = Some (Csv.Table ["Faculty_Name"; "Room"] [ ["Dr. C"; "12"]; ["Dr. D"; "14"] ]) /\
  page (snd (uploaded_faculty Csv.default_na (Some two_teachers)
               (loaded Csv.default_na nameless_subjects_store)))
  = [ st_success "faculty_list.csv uploaded and saved.";
      st_error "Error reading file" ].
Proof.
  rewrite (proj2 (proj2 (uploaded_faculty_valid Csv.default_na
                           (loaded Csv.default_na nameless_subjects_store)
                           two_teachers _ _ eq_refl eq_refl))
             eq_refl eq_refl).
  repeat split.
Defined.

(** ** Reports *)

Lemma ascending_insert_sorted (x : string) (l : list string) :
  ascending l -> ~ In x l -> ascending (Pandas.insert_sorted x l).
Proof.
  induction l as [|y l IH]; intros Hl Hx; [simpl; auto|].
  assert (Hxy : y <> x) by (intro E; apply Hx; now left).
  assert (Hxl : ~ In x l) by (intro H; apply Hx; now right).
  cbn [Pandas.insert_sorted].
  destruct (String.leb x y) eqn:Exy.
  - cbn [ascending]. split; [split; [exact Exy|congruence]|exact Hl].
  - assert (Eyx : String.leb y x = true)
      by (destruct (String.leb_total x y); congruence).
    destruct Hl as [Hhead Hl]. specialize (IH Hl Hxl).
    destruct l as [|z l]; [simpl; auto|].
    cbn [Pandas.insert_sorted] in IH |- *.
    destruct (String.leb x z).
    + split; [split; assumption|exact IH].
    + split; [exact Hhead|exact IH].
Qed.

Lemma ascending_sorted (l : list string) :
  NoDup l -> ascending (Pandas.sorted l).
Proof.
  induction 1 as [|x l Hx Hl IH]; [exact I|].
  cbn [Pandas.sorted]. apply ascending_insert_sorted; [exact IH|].
  now rewrite In_sorted.
Qed.

Lemma count_str_dropna {A : Type} (g : A -> Pandas.cell) (F : string)
    (l : list A) :
  Pandas.count_str F (Pandas.dropna (map g l))
  = length (filter (fun r => Pandas.eq_str (g r) F) l).
Proof.
  unfold Pandas.count_str. induction l as [|r l IH]; [reflexivity|].
  cbn [map Pandas.dropna filter]. destruct (g r) as [x|]; cbn [Pandas.eq_str].
  - cbn [filter]. rewrite (String.eqb_sym F x).
    destruct (String.eqb x F); cbn [length]; now rewrite IH.
  - exact IH.
Qed.

Lemma count_str_pos (F : string) (l : list string) :
  0 < Pandas.count_str F l <-> In F l.
Proof.
  unfold Pandas.count_str. induction l as [|x l IH]; simpl; [split; [lia|tauto]|].
  destruct (String.eqb F x) eqn:E.
  - apply String.eqb_eq in E. subst. simpl. split; [now left|lia].
  - apply String.eqb_neq in E. rewrite IH. split; [now right|].
    intros [H|H]; [congruence|exact H].
Qed.

Lemma list_sum_cons (a : nat) (l : list nat) :
  list_sum (a :: l) = a + list_sum l.
Proof. reflexivity. Qed.

Lemma sum_indicator (x : string) (ks : list string) :
  NoDup ks -> In x ks ->
  list_sum (map (fun k => if String.eqb k x then 1 else 0) ks) = 1.
Proof.
  induction 1 as [|k ks Hk Hks IH]; intro Hin; [contradiction|].
  cbn [map]. rewrite !list_sum_cons. destruct (String.eqb k x) eqn:E.
  - apply String.eqb_eq in E. subst k.
    assert (H0 : list_sum (map (fun k => if String.eqb k x then 1 else 0) ks) = 0).
    { clear - Hk. induction ks as [|k ks IH]; [reflexivity|].
      cbn [map]. rewrite !list_sum_cons. destruct (String.eqb k x) eqn:E.
      - apply String.eqb_eq in E. subst. exfalso. apply Hk. now left.
      - rewrite IH; [reflexivity|]. intro H. apply Hk. now right. }
    rewrite H0. reflexivity.
  - apply String.eqb_neq in E. destruct Hin as [Hin|Hin]; [congruence|].
    now rewrite IH.
Qed.

Lemma sum_counts (ks l : list string) :
  NoDup ks -> (forall x, In x l -> In x ks) ->
  list_sum (map (fun k => Pandas.count_str k l) ks) = length l.
Proof.
  intros Hks. induction l as [|x l IH]; intro Hin.
  - unfold Pandas.count_str. simpl. clear. induction ks; simpl; auto.
  - assert (Hsplit : forall ks',
              list_sum (map (fun k => Pandas.count_str k (x :: l)) ks')
              = list_sum (map (fun k => if String.eqb k x then 1 else 0) ks')
                + list_sum (map (fun k => Pandas.count_str k l) ks')).
    { induction ks' as [|k ks' IH']; [reflexivity|].
      cbn [map]. rewrite !list_sum_cons. rewrite IH'. unfold Pandas.count_str.
      cbn [filter]. destruct (String.eqb k x); cbn [length]; lia. }
    rewrite Hsplit, sum_indicator, IH; [reflexivity| |exact Hks|].
    + intros y Hy. apply Hin. now right.
    + apply Hin. now left.
Qed.

Lemma length_dropna {A : Type} (g : A -> Pandas.cell) (l : list A) :
  length (Pandas.dropna (map g l))
  = length (filter (fun r => match g r with Some _ => true | None => false end) l).
Proof.
  induction l as [|r l IH]; [reflexivity|].
  cbn [map Pandas.dropna filter]. destruct (g r); cbn [length]; now rewrite IH.
Qed.

Lemma faculty_counts_eq (choices : Pandas.DataFrame) :
  Pandas.mem "Faculty_Selected" (Pandas.columns choices) = true ->
  let keys := Pandas.dropna
                (map (Pandas.cell_at (Pandas.columns choices) "Faculty_Selected")
                     (Pandas.rows choices)) in
  faculty_counts choices
  = Ok (map (fun k => (k, Pandas.count_str k keys))
            (Pandas.sorted (Pandas.unique keys))).
Proof.
  intro Hm. unfold faculty_counts, Pandas.groupby_size.
  rewrite (getitem_present choices _ Hm). reflexivity.
Qed.

Lemma In_report (choices : Pandas.DataFrame) (F : string) (n : nat) :
  let keys := Pandas.dropna
                (map (Pandas.cell_at (Pandas.columns choices) "Faculty_Selected")
                     (Pandas.rows choices)) in
  In (F, n) (map (fun k => (k, Pandas.count_str k keys))
                 (Pandas.sorted (Pandas.unique keys)))
  <-> n = choices_naming F choices /\ 0 < n.
Proof.
  intro keys. unfold choices_naming.
  rewrite <- (count_str_dropna
                (Pandas.cell_at (Pandas.columns choices) "Faculty_Selected") F).
  fold keys. rewrite in_map_iff. split.
  - intros (k & E & Hk). injection E as -> <-.
    split; [reflexivity|]. apply count_str_pos.
    now rewrite In_sorted, In_unique in Hk.
  - intros [-> Hpos]. exists F. split; [reflexivity|].
    rewrite In_sorted, In_unique. now apply count_str_pos.
Qed.

(** X13.  The workload table.  On a frame without the Faculty_Selected
    column the group-by raises [KeyError].  Otherwise the table lists the
    faculty names in strictly ascending order, each once; a name is listed
    exactly when some choice row names it, with the number of those rows;
    and the counts add up to the number of choice rows that name anyone.
    So a faculty member nobody chose has no line, and rows without a name
    are not counted. *)
Theorem faculty_counts_spec (choices : Pandas.DataFrame) :
  (Pandas.mem "Faculty_Selected" (Pandas.columns choices) = false ->
   faculty_counts choices = Raise (KeyError "Faculty_Selected")) /\
  (Pandas.mem "Faculty_Selected" (Pandas.columns choices) = true ->
   exists report,
     faculty_counts choices = Ok report /\
     ascending (map fst report) /\
     (forall F n, In (F, n) report
                  <-> n = choices_naming F choices /\ 0 < n) /\
     list_sum (map snd report) = choices_named choices).
Proof.
  split.
  - intro Hm. apply col_index_None in Hm.
    unfold faculty_counts, Pandas.groupby_size, Pandas.getitem.
    rewrite Hm. reflexivity.
  - intro Hm. rewrite (faculty_counts_eq choices Hm).
    set (keys := Pandas.dropna _).
    eexists. split; [reflexivity|]. split; [|split].
    + rewrite map_map. cbn [fst]. rewrite map_id.
      apply ascending_sorted, NoDup_unique.
    + intros F n. apply In_report.
    + rewrite map_map. cbn [snd]. rewrite sum_counts.
      * unfold keys, choices_named. apply length_dropna.
      * apply NoDup_sorted, NoDup_unique.
      * intros x Hx. now rewrite In_sorted, In_unique.
Qed.

Lemma faculty_counts_spec_witness :
  exists report,
    faculty_counts (table_of Csv.default_na CHOICE_FILE resubmission_store)
    = Ok report /\
    ascending (map fst report) /\
    (In ("Dr. A", 2) report <-> 2 = 2 /\ 0 < 2) /\
    list_sum (map snd report) = 3.
Proof.
  destruct (proj2 (faculty_counts_spec
                     (table_of Csv.default_na CHOICE_FILE resubmission_store))
              eq_refl) as (report & Hrun & Hasc & Hin & Hsum).
  exists report. split; [exact Hrun|]. split; [exact Hasc|].
  split; [exact (Hin "Dr. A" 2)|exact Hsum].
Defined.

(** X14.  The list "my students" of the faculty view and the workload
    table of the admin view agree: over a non-empty choices frame with the
    Faculty_Selected column, the list of a faculty member holds exactly the
    choice rows that name them, in order, and the workload table has a line
    for them exactly when that list is non-empty, with its length for the
    count. *)
Theorem my_students_match_workload (choices : Pandas.DataFrame) (F : string) :
  Pandas.empty choices = false ->
  Pandas.mem "Faculty_Selected" (Pandas.columns choices) = true ->
  exists m report,
    my_students choices F = Ok m /\
    faculty_counts choices = Ok report /\
    Pandas.columns m = Pandas.columns choices /\
    Pandas.rows m
    = filter (fun r => Pandas.eq_str
                         (Pandas.cell_at (Pandas.columns choices)
                                         "Faculty_Selected" r) F)
             (Pandas.rows choices) /\
    (forall n, In (F, n) report <-> n = length (Pandas.rows m) /\ 0 < n) /\
    (Pandas.empty m = true <-> ~ In F (map fst report)).
Proof.
  intros Hne Hm. unfold my_students, rows_where. rewrite Hne. cbn [negb].
  rewrite (getitem_present choices _ Hm). cbn [rbind].
  rewrite (faculty_counts_eq choices Hm).
  set (keys := Pandas.dropna _).
  eexists. eexists. split; [reflexivity|]. split; [reflexivity|].
  unfold Pandas.boolean_index, Pandas.series_eq. cbn [Pandas.columns Pandas.rows].
  rewrite map_map, select_map.
  split; [reflexivity|]. split; [reflexivity|].
  assert (Hlen : length (filter (fun r => Pandas.eq_str
                                   (Pandas.cell_at (Pandas.columns choices)
                                                   "Faculty_Selected" r) F)
                                (Pandas.rows choices))
                 = Pandas.count_str F keys)
    by (symmetry; apply count_str_dropna).
  split.
  - intro n. rewrite Hlen. unfold keys.
    rewrite (In_report choices F n). unfold choices_naming.
    now rewrite <- count_str_dropna.
  - rewrite map_map. cbn [fst]. rewrite map_id, In_sorted, In_unique.
    rewrite <- count_str_pos, <- Hlen. unfold Pandas.empty.
    cbn [Pandas.columns Pandas.rows].
    apply empty_false in Hne as [Hcols _].
    destruct (Pandas.columns choices); [contradiction|]. cbn [length Nat.eqb orb].
    rewrite Nat.eqb_eq. lia.
Qed.

Lemma my_students_match_workload_witness :
  exists m report,
    my_students (table_of Csv.default_na CHOICE_FILE resubmission_store) "Dr. A"
    = Ok m /\
    faculty_counts (table_of Csv.default_na CHOICE_FILE resubmission_store)
    = Ok report /\
    Pandas.rows m
    = [ [Some "21CS001"; Some "Ann"; Some "1"; Some "A"; Some "CS101";
         Some "Intro"; Some "Dr. A"];
        [Some "21CS002"; Some "Bob"; Some "1"; Some "A"; Some "CS101";
         Some "Intro"; Some "Dr. A"] ] /\
    (In ("Dr. A", 2) report <-> 2 = length (Pandas.rows m) /\ 0 < 2).
Proof.
  destruct (my_students_match_workload
              (table_of Csv.default_na CHOICE_FILE resubmission_store) "Dr. A"
              eq_refl eq_refl)
    as (m & report & Hm & Hr & _ & Hrows & Hin & _).
  exists m, report. split; [exact Hm|]. split; [exact Hr|].
  split; [exact Hrows|exact (Hin 2)].
Defined.

(** ** The forms *)

(** A loop that puts one keyed select box per element on the page. *)
Section KeyedLoop.

Variables A B : Type.
Variable f : A -> M B.
Variable out : A -> B.
Variable box : A -> ui_event.
Variable key : A -> string.

Hypothesis f_step :
  forall x s,
    f x s = if Pandas.mem (key x) (widget_keys (page s))
            then (Raise (DuplicateWidgetID (key x)), s)
            else (Ok (out x), show (box x) s).

Hypothesis box_key : forall x, widget_keys [box x] = [key x].

Lemma keyed_loop_renders (l : list A) :
  forall s,
    NoDup (map key l) ->
    (forall x, In x l -> ~ In (key x) (widget_keys (page s))) ->
    for_each f l s = (Ok (map out l), shows (map box l) s).
Proof.
  induction l as [|x l IH]; intros s Hnd Hfresh.
  - cbn [for_each map]. now rewrite shows_nil.
  - cbn [for_each map]. unfold bind at 1. rewrite f_step.
    assert (Hx : Pandas.mem (key x) (widget_keys (page s)) = false).
    { destruct (Pandas.mem (key x) (widget_keys (page s))) eqn:E; [|reflexivity].
      apply mem_In in E. exfalso. apply (Hfresh x); [now left|exact E]. }
    rewrite Hx. unfold bind at 1.
    apply NoDup_cons_iff in Hnd as [Hnew Hnd].
    rewrite (IH (show (box x) s)); [now rewrite shows_cons|exact Hnd|].
    intros y Hy Hin. cbn [show page] in Hin.
    rewrite widget_keys_app, box_key in Hin.
    apply in_app_or in Hin as [Hin|[Hin|[]]].
    + now apply (Hfresh y); [right|].
    + apply Hnew. rewrite Hin. now apply in_map.
Qed.

Lemma keyed_loop_raises (l : list A) :
  forall s s' e,
    for_each f l s = (Raise e, s') ->
    exists x, In x l /\ e = DuplicateWidgetID (key x) /\ fs s' = fs s.
Proof.
  induction l as [|x l IH]; intros s s' e H; [discriminate|].
  cbn [for_each] in H. unfold bind at 1 in H. rewrite f_step in H.
  destruct (Pandas.mem (key x) (widget_keys (page s))).
  - injection H as <- <-. exists x. repeat split. now left.
  - unfold bind at 1 in H.
    destruct (for_each f l (show (box x) s)) as [[ys|e'] s2] eqn:E2;
      [discriminate|].
    injection H as <- <-. apply IH in E2 as (y & Hy & He & Hfs).
    exists y. repeat split; [now right|exact He|exact Hfs].
Qed.

Lemma keyed_loop_Ok (l : list A) :
  forall s s' ys,
    for_each f l s = (Ok ys, s') ->
    NoDup (map key l) /\
    (forall x, In x l -> ~ In (key x) (widget_keys (page s))).
Proof.
  induction l as [|x l IH]; intros s s' ys H.
  - split; [constructor|intros ? []].
  - cbn [for_each] in H. unfold bind at 1 in H. rewrite f_step in H.
    destruct (Pandas.mem (key x) (widget_keys (page s))) eqn:Ex; [discriminate|].
    unfold bind at 1 in H.
    destruct (for_each f l (show (box x) s)) as [[ys'|e'] s2] eqn:E2;
      [|discriminate].
    apply IH in E2 as [Hnd Hfresh].
    assert (Hold : forall y, In y l ->
                   key y <> key x /\ ~ In (key y) (widget_keys (page s))).
    { intros y Hy. specialize (Hfresh y Hy). cbn [show page] in Hfresh.
      rewrite widget_keys_app, box_key in Hfresh.
      split; intro Hk; apply Hfresh, in_or_app.
      - right. left. now symmetry.
      - now left. }
    split.
    + cbn [map]. constructor; [|exact Hnd]. intro Hin.
      apply in_map_iff in Hin as (y & Hk & Hy).
      now apply (proj1 (Hold y Hy)).
    + intros y [<-|Hy]; [|now apply (Hold y Hy)].
      intro Hin. apply mem_In in Hin. congruence.
Qed.

End KeyedLoop.

Lemma NoDup_keys_codes (g : string -> string) (cols : list string)
    (rows : list (list Pandas.cell)) :
  (forall a b, g a = g b -> a = b) ->
  NoDup (map (fun row => g (printed_code cols row)) rows)
  <-> NoDup (map (printed_code cols) rows).
Proof.
  intro Hinj. split.
  - intro H. apply (NoDup_map_inv g). now rewrite map_map.
  - intro H. rewrite <- (map_map (printed_code cols) g).
    now apply NoDup_map_injective.
Qed.

Lemma avail_key_injective (a b : string) :
  ("avail_" ++ a)%string = ("avail_" ++ b)%string -> a = b.
Proof. intro H. now injection H. Qed.

Lemma selection_body_step (user : widgets) (faculty : Pandas.DataFrame)
    (regd : string) (cols : list string) :
  Pandas.mem "Subject_Code" cols = true ->
  Pandas.mem "Subject_Name" cols = true ->
  forall row s,
    (scode <- lift (Pandas.row_getitem cols row "Subject_Code");;
     sname <- lift (Pandas.row_getitem cols row "Subject_Name");;
     selected_fac <- selectbox user
                       (Pandas.str sname ++ " (" ++ Pandas.str scode ++ ")")
                       (all_faculties faculty) 0
                       (Pandas.str scode ++ "_" ++ regd);;
     ret (mkSelection scode sname selected_fac)) s
    = if Pandas.mem (selection_key regd cols row) (widget_keys (page s))
      then (Raise (DuplicateWidgetID (selection_key regd cols row)), s)
      else (Ok (selection_of user faculty regd cols row),
            show (selection_box faculty regd cols row) s).
Proof.
  intros Hc Hn row s. unfold bind, lift.
  rewrite (row_getitem_present cols row _ Hc),
    (row_getitem_present cols row _ Hn).
  unfold selectbox, selection_key, selection_of, selection_box, selection_key, ret.
  now destruct (Pandas.mem _ (widget_keys (page s))).
Qed.

Lemma availability_body_step (user : widgets) (F : string)
    (cols : list string) :
  Pandas.mem "Subject_Code" cols = true ->
  Pandas.mem "Subject_Name" cols = true ->
  forall row s,
    (code <- lift (Pandas.row_getitem cols row "Subject_Code");;
     sname <- lift (Pandas.row_getitem cols row "Subject_Name");;
     opt <- selectbox user
              (Pandas.str sname ++ " (" ++ Pandas.str code ++ ") - Available?")
              ["Yes"; "No"]
              (if String.eqb (lower (strip (Pandas.str (current_of cols row))))
                             "yes"
               then 0 else 1)
              ("avail_" ++ Pandas.str code);;
     ret (availability_row (Some F) code sname opt)) s
    = if Pandas.mem (availability_key cols row) (widget_keys (page s))
      then (Raise (DuplicateWidgetID (availability_key cols row)), s)
      else (Ok (availability_entry user F cols row),
            show (availability_box cols row) s).
Proof.
  intros Hc Hn row s. unfold bind, lift.
  rewrite (row_getitem_present cols row _ Hc),
    (row_getitem_present cols row _ Hn).
  unfold selectbox, availability_key, availability_entry, availability_box,
    availability_key, availability_index, ret.
  now destruct (Pandas.mem _ (widget_keys (page s))).
Qed.

Lemma faculty_selection_form_eq (user : widgets) (regd : string)
    (year_subjects : Pandas.DataFrame) (s : state) :
  faculty_selection_form user regd year_subjects s
  = for_each
      (fun row =>
         scode <- lift (Pandas.row_getitem (Pandas.columns year_subjects) row
                                           "Subject_Code");;
         sname <- lift (Pandas.row_getitem (Pandas.columns year_subjects) row
                                           "Subject_Name");;
         selected_fac <- selectbox user
                           (Pandas.str sname ++ " (" ++ Pandas.str scode ++ ")")
                           (all_faculties (faculty_df s)) 0
                           (Pandas.str scode ++ "_" ++ regd);;
         ret (mkSelection scode sname selected_fac))
      (Pandas.rows year_subjects) s.
Proof. reflexivity. Qed.

(** X15.  The selection form renders exactly when the subject rows print
    pairwise distinct codes (the page holding none of their keys yet): then
    it puts one select box per row on the page and returns one selection
    per row.  When two rows of the year print the same code, the form
    raises [DuplicateWidgetID] for the key of one of its rows, nothing is
    written, and the student cannot submit. *)
Theorem faculty_selection_form_renders (user : widgets) (regd : string)
    (year_subjects : Pandas.DataFrame) (s : state) :
  Pandas.mem "Subject_Code" (Pandas.columns year_subjects) = true ->
  Pandas.mem "Subject_Name" (Pandas.columns year_subjects) = true ->
  (forall row, In row (Pandas.rows year_subjects) ->
     ~ In (selection_key regd (Pandas.columns year_subjects) row)
          (widget_keys (page s))) ->
  let cols := Pandas.columns year_subjects in
  let rows := Pandas.rows year_subjects in
  (NoDup (map (printed_code cols) rows) ->
   faculty_selection_form user regd year_subjects s
   = (Ok (map (selection_of user (faculty_df s) regd cols) rows),
      shows (map (selection_box (faculty_df s) regd cols) rows) s)) /\
  (~ NoDup (map (printed_code cols) rows) ->
   exists row s',
     In row rows /\
     faculty_selection_form user regd year_subjects s
     = (Raise (DuplicateWidgetID (selection_key regd cols row)), s') /\
     fs s' = fs s).
Proof.
  intros Hc Hn Hfresh cols rows.
  pose proof (selection_body_step user (faculty_df s) regd cols Hc Hn) as Hstep.
  assert (Hbox : forall row,
            widget_keys [selection_box (faculty_df s) regd cols row]
            = [selection_key regd cols row]) by reflexivity.
  assert (Hkeys : NoDup (map (selection_key regd cols) rows)
                  <-> NoDup (map (printed_code cols) rows)).
  { apply (NoDup_keys_codes (fun c => (c ++ "_" ++ regd)%string)).
    apply str_key_injective. }
  rewrite !faculty_selection_form_eq. subst cols rows. split.
  - intro Hnd. apply (keyed_loop_renders _ _ _ _ _ _ Hstep Hbox).
    + now apply Hkeys.
    + exact Hfresh.
  - intro Hdup.
    match goal with
    | |- context [for_each ?f ?l s] =>
        destruct (for_each f l s) as [[sels|e] s'] eqn:E
    end.
    + apply (keyed_loop_Ok _ _ _ _ _ _ Hstep Hbox) in E as [Hnd _].
      exfalso. now apply Hdup, Hkeys.
    + apply (keyed_loop_raises _ _ _ _ _ _ Hstep) in E
        as (row & Hrow & -> & Hfs).
      exists row, s'. now repeat split.
Qed.

Lemma faculty_selection_form_renders_witness :
  exists row s',
    In row (Pandas.rows cs101_twice) /\
    faculty_selection_form always_dr_b "21CS001" cs101_twice scenario_state
    = (Raise (DuplicateWidgetID
                (selection_key "21CS001" (Pandas.columns cs101_twice) row)), s') /\
    fs s' = fs scenario_state.
Proof.
  apply (faculty_selection_form_renders always_dr_b "21CS001" cs101_twice
           scenario_state eq_refl eq_refl).
  - intros row _ [].
  - intro H. inversion H as [|x l Hx _]. apply Hx. now left.
Defined.

(** X16.  Every selection of a rendered form names a faculty member on
    offer: whatever value arrives for a select box, what is recorded is one
    of the names of the faculty frame, and it is missing only when that
    frame offers no name at all. *)
Theorem selections_are_offered (user : widgets) (regd : string)
    (year_subjects : Pandas.DataFrame) (s s' : state) (sels : list selection) :
  faculty_selection_form user regd year_subjects s = (Ok sels, s') ->
  Forall (fun sel =>
            match Faculty_Selected sel with
            | Some f => In f (all_faculties (faculty_df s))
            | None => all_faculties (faculty_df s) = []
            end) sels.
Proof.
  intro H. apply faculty_selection_form_rendered in H as (-> & _ & _).
  apply Forall_forall. intros sel Hin.
  apply in_map_iff in Hin as (row & <- & _).
  cbn [selection_of Faculty_Selected]. unfold pick.
  set (options := all_faculties (faculty_df s)).
  assert (Hdefault : match nth_error options 0 with
                     | Some f => In f options
                     | None => options = []
                     end).
  { destruct options as [|f l]; [reflexivity|]. now left. }
  destruct (user _) as [v|]; [|exact Hdefault].
  destruct (Pandas.mem v options) eqn:E; [|exact Hdefault].
  now apply mem_In.
Qed.

Lemma selections_are_offered_witness :
  Forall (fun sel =>
            match Faculty_Selected sel with
            | Some f => In f (all_faculties (faculty_df resubmission_loaded))
            | None => all_faculties (faculty_df resubmission_loaded) = []
            end)
         (map (selection_of (fun _ => Some "Dr. Nobody")
                            (faculty_df resubmission_loaded) "21CS003"
                            (Pandas.columns year1_subjects))
              (Pandas.rows year1_subjects)).
Proof.
  apply (selections_are_offered (fun _ => Some "Dr. Nobody") "21CS003"
           year1_subjects resubmission_loaded
           (snd (faculty_selection_form (fun _ => Some "Dr. Nobody") "21CS003"
                   year1_subjects resubmission_loaded))).
  reflexivity.
Defined.

(** X17.  The availability form, over rows with the code and name
    columns and a page holding none of its keys: it renders exactly when
    the rows print pairwise distinct subject codes, and then returns one
    row per subject under the selected faculty member's name whose answer
    is "Yes" or "No" and nothing else.  The key of a box names the subject
    only, not the member.  When the session holds no value under the key,
    the answer is "Yes" when the stored answer reads "yes" once stripped of
    its white space (that of Unicode, as [str.strip] does) and lowered, and
    "No" for anything else.  When the session holds "Yes" or "No" under
    the key, that is the answer for every row with this key, whoever the
    member and whatever the stored answer: a value left by the form of
    another member is taken over.  When two rows print the same code the
    form raises [DuplicateWidgetID] and nothing is written. *)
Theorem availability_form_renders (user : widgets) (F : string)
    (my_avail : Pandas.DataFrame) (s : state) :
  Pandas.mem "Subject_Code" (Pandas.columns my_avail) = true ->
  Pandas.mem "Subject_Name" (Pandas.columns my_avail) = true ->
  (forall row, In row (Pandas.rows my_avail) ->
     ~ In (availability_key (Pandas.columns my_avail) row)
          (widget_keys (page s))) ->
  let cols := Pandas.columns my_avail in
  let rows := Pandas.rows my_avail in
  (NoDup (map (printed_code cols) rows) ->
   availability_form user F my_avail s
   = (Ok (map (availability_entry user F cols) rows),
      shows (map (availability_box cols) rows) s)) /\
  (~ NoDup (map (printed_code cols) rows) ->
   exists row s',
     In row rows /\
     availability_form user F my_avail s
     = (Raise (DuplicateWidgetID (availability_key cols row)), s') /\
     fs s' = fs s) /\
  (forall row,
     Pandas.dict_get (availability_entry user F cols row) "Faculty_Name" = Some F /\
     (Pandas.dict_get (availability_entry user F cols row) "Available" = Some "Yes"
      \/ Pandas.dict_get (availability_entry user F cols row) "Available" = Some "No") /\
     (user (availability_key cols row) = None ->
      Pandas.dict_get (availability_entry user F cols row) "Available"
      = if String.eqb (lower (strip (Pandas.str (current_of cols row)))) "yes"
        then Some "Yes" else Some "No") /\
     (forall v, user (availability_key cols row) = Some v ->
        In v ["Yes"; "No"] ->
        forall F' cols' row',
          availability_key cols' row' = availability_key cols row ->
          Pandas.dict_get (availability_entry user F' cols' row') "Available"
          = Some v)).
Proof.
  intros Hc Hn Hfresh cols rows.
  pose proof (availability_body_step user F cols Hc Hn) as Hstep.
  assert (Hbox : forall row,
            widget_keys [availability_box cols row]
            = [availability_key cols row]) by reflexivity.
  assert (Hkeys : NoDup (map (availability_key cols) rows)
                  <-> NoDup (map (printed_code cols) rows)).
  { apply (NoDup_keys_codes (fun c => ("avail_" ++ c)%string)).
    apply avail_key_injective. }
  unfold availability_form. subst cols rows. split; [|split].
  - intro Hnd. apply (keyed_loop_renders _ _ _ _ _ _ Hstep Hbox).
    + now apply Hkeys.
    + exact Hfresh.
  - intro Hdup.
    match goal with
    | |- context [for_each ?f ?l s] =>
        destruct (for_each f l s) as [[sels|e] s'] eqn:E
    end.
    + apply (keyed_loop_Ok _ _ _ _ _ _ Hstep Hbox) in E as [Hnd _].
      exfalso. now apply Hdup, Hkeys.
    + apply (keyed_loop_raises _ _ _ _ _ _ Hstep) in E
        as (row & Hrow & -> & Hfs).
      exists row, s'. now repeat split.
  - intro row. unfold availability_entry, availability_row, availability_index.
    cbn [Pandas.dict_get String.eqb Ascii.eqb Bool.eqb].
    split; [reflexivity|]. unfold pick. split; [|split].
    + destruct (user _) as [v|].
      * destruct (Pandas.mem v ["Yes"; "No"]) eqn:E.
        -- apply mem_In in E as [<-|[<-|[]]]; auto.
        -- destruct (String.eqb _ "yes"); auto.
      * destruct (String.eqb _ "yes"); auto.
    + intros ->. now destruct (String.eqb _ "yes").
    + intros v Hv Hin F' cols' row' Hkey. rewrite Hkey, Hv.
      apply mem_In in Hin. now rewrite Hin.
Qed.

Lemma availability_form_renders_witness :
  (exists row s',
     In row (Pandas.rows (table_of Csv.default_na FAC_AVAIL_FILE
                                   resubmission_store)) /\
     availability_form (fun _ => None) "Dr. B"
       (table_of Csv.default_na FAC_AVAIL_FILE resubmission_store)
       (fresh resubmission_store)
     = (Raise (DuplicateWidgetID (availability_key AVAIL_COLUMNS row)), s') /\
     fs s' = resubmission_store) /\
  Pandas.dict_get
    (availability_entry (fun _ => None) "Dr. B" AVAIL_COLUMNS
       [Some "Dr. B"; Some "CS101"; Some "Intro"; Some (" YES" ++ nbsp)%string])
    "Available"
  = Some "Yes" /\
  Pandas.dict_get
    (availability_entry left_by_another_member "Dr. A" AVAIL_COLUMNS
       [Some "Dr. A"; Some "CS101"; Some "Intro"; Some "Yes"])
    "Available"
  = Some "No".
Proof.
  destruct (availability_form_renders (fun _ => None) "Dr. B"
              (table_of Csv.default_na FAC_AVAIL_FILE resubmission_store)
              (fresh resubmission_store) eq_refl eq_refl)
    as (_ & Hdup & Hrow).
  - intros row _ [].
  - split; [|split].
    + apply Hdup. intro H. vm_compute in H. inversion H as [|x l Hx _].
      apply Hx. now left.
    + exact (proj1 (proj2 (proj2
               (Hrow [Some "Dr. B"; Some "CS101"; Some "Intro";
                      Some (" YES" ++ nbsp)%string]))) eq_refl).
    + destruct (availability_form_renders left_by_another_member "Dr. B"
                  (table_of Csv.default_na FAC_AVAIL_FILE scenario_store)
                  (fresh scenario_store) eq_refl eq_refl)
        as (_ & _ & Hleft).
      * intros row _ [].
      * apply (proj2 (proj2 (proj2
                 (Hleft [Some "Dr. B"; Some "CS101"; Some "Intro"; Some "No"])))
                 "No" eq_refl).
        -- simpl. tauto.
        -- reflexivity.
Defined.

(** ** What the blocks write *)

Lemma keeps_ret {A : Type} (a : A) : keeps_files (ret a).
Proof. intro s. reflexivity. Qed.

Lemma keeps_raise {A : Type} (e : exn) : keeps_files (@raise A e).
Proof. intro s. reflexivity. Qed.

Lemma keeps_stop {A : Type} : keeps_files (@st_stop A).
Proof. intro s. reflexivity. Qed.

Lemma keeps_rerun {A : Type} : keeps_files (@st_rerun A).
Proof. intro s. reflexivity. Qed.

Lemma keeps_lift {A : Type} (r : result A) : keeps_files (lift r).
Proof. intro s. reflexivity. Qed.

Lemma keeps_gets {A : Type} (f : state -> A) : keeps_files (gets f).
Proof. intro s. reflexivity. Qed.

Lemma keeps_st (e : ui_event) : keeps_files (st e).
Proof. intro s. reflexivity. Qed.

Lemma keeps_set_subjects (d : Pandas.DataFrame) :
  keeps_files (modify (set_subjects_df d)).
Proof. intro s. reflexivity. Qed.

Lemma keeps_set_faculty (d : Pandas.DataFrame) :
  keeps_files (modify (set_faculty_df d)).
Proof. intro s. reflexivity. Qed.

Lemma keeps_set_choices (d : Pandas.DataFrame) :
  keeps_files (modify (set_choices_df d)).
Proof. intro s. reflexivity. Qed.

Lemma keeps_set_avail (d : Pandas.DataFrame) :
  keeps_files (modify (set_avail_df d)).
Proof. intro s. reflexivity. Qed.

Lemma keeps_bind {A B : Type} (m : M A) (k : A -> M B) :
  keeps_files m -> (forall a, keeps_files (k a)) -> keeps_files (bind m k).
Proof.
  intros Hm Hk s. unfold bind. specialize (Hm s).
  destruct (m s) as [[a|e] s1]; cbn [snd] in *; [|exact Hm].
  now rewrite Hk.
Qed.

Lemma keeps_try_except {A : Type} (body : M A) (handler : exn -> M A) :
  keeps_files body -> (forall e, keeps_files (handler e)) ->
  keeps_files (try_except body handler).
Proof.
  intros Hb Hh s. unfold try_except. specialize (Hb s).
  destruct (body s) as [[a|e] s1]; cbn [snd] in *; [exact Hb|].
  destruct (is_Exception e); [|exact Hb]. now rewrite Hh.
Qed.

Lemma keeps_for_each {A B : Type} (f : A -> M B) (l : list A) :
  (forall x, keeps_files (f x)) -> keeps_files (for_each f l).
Proof.
  intro Hf. induction l as [|x l IH]; cbn [for_each]; [apply keeps_ret|].
  apply keeps_bind; [apply Hf|]. intro y.
  apply keeps_bind; [exact IH|]. intro ys. apply keeps_ret.
Qed.

Lemma keeps_selectbox (user : widgets) (label : string) (options : list string)
    (index : nat) (key : string) :
  keeps_files (selectbox user label options index key).
Proof.
  intro s. unfold selectbox.
  now destruct (Pandas.mem key (widget_keys (page s))).
Qed.

Lemma keeps_read_file (is_na : string -> bool) (p : path) :
  keeps_files (read_file is_na p).
Proof. intro s. reflexivity. Qed.

Create HintDb files.

#[export] Hint Resolve keeps_ret keeps_raise keeps_stop keeps_rerun keeps_lift keeps_gets
  keeps_st keeps_set_subjects keeps_set_faculty keeps_set_choices
  keeps_set_avail keeps_selectbox keeps_read_file : files.

Ltac keeps_step :=
  first
    [ apply keeps_bind; [|intro]
    | apply keeps_try_except; [|intro]
    | apply keeps_for_each; intro
    | solve [auto with files]
    | match goal with
      | |- keeps_files (if ?b then _ else _) => destruct b
      | |- keeps_files (match ?x with _ => _ end) => destruct x
      end ].

Lemma confined_keeps {A : Type} (W : path -> bool) (m : M A) :
  keeps_files m -> confined W m.
Proof. intros H s p. rewrite H. now split. Qed.

Lemma confined_bind {A B : Type} (W : path -> bool) (m : M A) (k : A -> M B) :
  confined W m -> (forall a, confined W (k a)) -> confined W (bind m k).
Proof.
  intros Hm Hk s p. unfold bind. destruct (Hm s p) as [H1 H2].
  destruct (m s) as [[a|e] s1]; cbn [snd] in *; [|now split].
  destruct (Hk a s1 p) as [H3 H4]. split.
  - intro HW. now rewrite H3, H1.
  - intro Hex. now apply H4, H2.
Qed.

Lemma confined_try_except {A : Type} (W : path -> bool) (body : M A)
    (handler : exn -> M A) :
  confined W body -> (forall e, confined W (handler e)) ->
  confined W (try_except body handler).
Proof.
  intros Hb Hh s p. unfold try_except. destruct (Hb s p) as [H1 H2].
  destruct (body s) as [[a|e] s1]; cbn [snd] in *; [now split|].
  destruct (is_Exception e); [|now split].
  destruct (Hh e s1 p) as [H3 H4]. split.
  - intro HW. now rewrite H3, H1.
  - intro Hex. now apply H4, H2.
Qed.

Lemma confined_save (W : path -> bool) (df : Pandas.DataFrame) (q : path) :
  W q = true -> confined W (save_df_to_csv df q).
Proof.
  intros HW s p. unfold save_df_to_csv, modify, exists_path.
  cbn [snd fs set_fs]. split.
  - intro Hp. destruct p, q; try reflexivity; congruence.
  - destruct p, q; cbn [read_path write_path subjects_csv faculty_list_csv
                         student_choices_csv faculty_availability_csv];
      intros H; try exact H; discriminate.
Qed.

Ltac confined_step :=
  first
    [ apply confined_bind; [|intro]
    | apply confined_try_except; [|intro]
    | apply confined_save; reflexivity
    | apply confined_keeps; solve [repeat keeps_step]
    | match goal with
      | |- confined _ (if ?b then _ else _) => destruct b
      | |- confined _ (match ?x with _ => _ end) => destruct x
      end ].

Lemma wobr_keeps {A : Type} (m : M A) :
  keeps_files m -> writes_only_before_rerun m.
Proof. intros H s. right. apply H. Qed.

Lemma wobr_bind {A B : Type} (m : M A) (k : A -> M B) :
  keeps_files m -> (forall a, writes_only_before_rerun (k a)) ->
  writes_only_before_rerun (bind m k).
Proof.
  intros Hm Hk s. unfold bind. specialize (Hm s).
  destruct (m s) as [[a|e] s1]; cbn [snd fst] in *; [|now right].
  destruct (Hk a s1) as [H|H]; [now left|right]. now rewrite H.
Qed.

Lemma wobr_then {A B : Type} (m : M A) (k : A -> M B) :
  writes_only_before_rerun m -> (forall a, keeps_files (k a)) ->
  writes_only_before_rerun (bind m k).
Proof.
  intros Hm Hk s. unfold bind. specialize (Hm s).
  destruct (m s) as [[a|e] s1]; cbn [snd fst] in *.
  - destruct Hm as [Hm|Hm]; [discriminate|]. right. now rewrite Hk.
  - destruct Hm as [Hm|Hm]; [left|now right].
    injection Hm as ->. reflexivity.
Qed.

Section ExtraViews.

Variable is_na : string -> bool.

Lemma keeps_load_choices : keeps_files (load_choices is_na).
Proof. unfold load_choices. repeat keeps_step. Qed.

Lemma keeps_load_availability : keeps_files (load_availability is_na).
Proof. unfold load_availability. repeat keeps_step. Qed.

Lemma keeps_load_subjects : keeps_files (load_subjects is_na).
Proof. unfold load_subjects. repeat keeps_step. Qed.

Lemma keeps_load_faculty : keeps_files (load_faculty is_na).
Proof. unfold load_faculty. repeat keeps_step. Qed.

Hint Resolve keeps_load_choices keeps_load_availability keeps_load_subjects
  keeps_load_faculty : files.

Lemma keeps_faculty_selection_form (user : widgets) (regd : string)
    (year_subjects : Pandas.DataFrame) :
  keeps_files (faculty_selection_form user regd year_subjects).
Proof. unfold faculty_selection_form. repeat keeps_step. Qed.

Lemma keeps_availability_form (user : widgets) (F : string)
    (my_avail : Pandas.DataFrame) :
  keeps_files (availability_form user F my_avail).
Proof. unfold availability_form. repeat keeps_step. Qed.

Lemma keeps_previous_submissions (regd : string) :
  keeps_files (previous_submissions is_na regd).
Proof. unfold previous_submissions. repeat keeps_step. Qed.

Lemma keeps_load_existing_dataframes :
  keeps_files (load_existing_dataframes is_na).
Proof. unfold load_existing_dataframes. repeat keeps_step. Qed.

Hint Resolve keeps_faculty_selection_form keeps_availability_form
  keeps_previous_submissions keeps_load_existing_dataframes : files.

Lemma wobr_submit_choices (regd name year section : string)
    (sels : list selection) :
  writes_only_before_rerun (submit_choices is_na regd name year section sels).
Proof.
  intro s. unfold submit_choices, bind. rewrite load_choices_eq.
  set (pre := table_of is_na CHOICE_FILE (fs s)).
  destruct (negb (Pandas.empty pre)).
  - unfold lift.
    destruct (Pandas.getitem pre "Regd_No"); [|now right].
    destruct (Pandas.getitem pre "Subject_Code"); [|now right].
    now left.
  - now left.
Qed.

Lemma confined_student_section (inp : student_input) :
  confined (path_eqb CHOICE_FILE) (student_section is_na inp).
Proof.
  unfold student_section. repeat confined_step.
Qed.

Lemma wobr_student_section (inp : student_input) :
  writes_only_before_rerun (student_section is_na inp).
Proof.
  unfold student_section.
  repeat first
    [ apply wobr_submit_choices
    | apply wobr_bind; [solve [repeat keeps_step]|intro]
    | apply wobr_keeps; solve [repeat keeps_step]
    | match goal with
      | |- writes_only_before_rerun (if ?b then _ else _) => destruct b
      | |- writes_only_before_rerun (match ?x with _ => _ end) => destruct x
      end ].
Qed.

(** X18.  The student mode (the two forms and the list of previous
    submissions) writes nothing but the choices file, removes no file, and
    writes at all only in a run that ends with the rerun after a recorded
    submission: when it returns, stops or fails, every file is as it
    was. *)
Theorem student_mode_writes_choices_only (inp : student_input) (s : state) :
  (forall p, p <> CHOICE_FILE ->
     read_path (fs (snd (student_mode is_na inp s))) p = read_path (fs s) p) /\
  (forall p, exists_path (fs s) p ->
     exists_path (fs (snd (student_mode is_na inp s))) p) /\
  (fst (student_mode is_na inp s) <> Raise RerunException ->
   fs (snd (student_mode is_na inp s)) = fs s).
Proof.
  assert (Hconf : confined (path_eqb CHOICE_FILE) (student_mode is_na inp)).
  { unfold student_mode. apply confined_bind;
      [apply confined_student_section|intro].
    apply confined_keeps, keeps_previous_submissions. }
  assert (Hw : writes_only_before_rerun (student_mode is_na inp)).
  { unfold student_mode. apply wobr_then; [apply wobr_student_section|].
    intro. apply keeps_previous_submissions. }
  split; [|split].
  - intros p Hp. apply (Hconf s p). now destruct p.
  - intros p. apply (Hconf s p).
  - intro Hne. now destruct (Hw s).
Qed.

Lemma confined_faculty_view (inp : faculty_input) :
  confined (path_eqb FAC_AVAIL_FILE) (faculty_view is_na inp).
Proof.
  unfold faculty_view. repeat confined_step.
Qed.

Lemma confined_initialize :
  confined (path_eqb FAC_AVAIL_FILE) initialize_availability_if_empty.
Proof. unfold initialize_availability_if_empty. repeat confined_step. Qed.

(** X19.  The faculty view writes nothing but the availability file and
    removes no file: the subjects, the faculty list and the students'
    choices are as they were, whatever the member picks or presses. *)
Theorem faculty_view_writes_availability_only (inp : faculty_input)
    (s : state) :
  (forall p, p <> FAC_AVAIL_FILE ->
     read_path (fs (snd (faculty_view is_na inp s))) p = read_path (fs s) p) /\
  (forall p, exists_path (fs s) p ->
     exists_path (fs (snd (faculty_view is_na inp s))) p).
Proof.
  split.
  - intros p Hp. apply (confined_faculty_view inp s p). now destruct p.
  - intros p. apply (confined_faculty_view inp s p).
Qed.

Lemma confined_uploaded_subjects (upload : option Csv.content) :
  confined (upload_writes SUBJECTS_FILE) (uploaded_subjects is_na upload).
Proof. unfold uploaded_subjects. repeat confined_step. Qed.

Lemma confined_uploaded_faculty (upload : option Csv.content) :
  confined (upload_writes FACULTY_FILE) (uploaded_faculty is_na upload).
Proof. unfold uploaded_faculty. repeat confined_step. Qed.

(** X20.  An upload block writes nothing but its own file and, through
    the initialisation, the availability file, and removes no file: the
    subjects upload leaves the faculty list and the choices alone, the
    faculty upload the subjects and the choices, whatever is uploaded. *)
Theorem uploads_write_own_file (upload : option Csv.content) (s : state) :
  (forall p, upload_writes SUBJECTS_FILE p = false ->
     read_path (fs (snd (uploaded_subjects is_na upload s))) p
     = read_path (fs s) p) /\
  (forall p, upload_writes FACULTY_FILE p = false ->
     read_path (fs (snd (uploaded_faculty is_na upload s))) p
     = read_path (fs s) p) /\
  (forall p, exists_path (fs s) p ->
     exists_path (fs (snd (uploaded_subjects is_na upload s))) p /\
     exists_path (fs (snd (uploaded_faculty is_na upload s))) p).
Proof.
  split; [|split].
  - intros p Hp. now apply (confined_uploaded_subjects upload s p).
  - intros p Hp. now apply (confined_uploaded_faculty upload s p).
  - intros p Hp. split.
    + now apply (confined_uploaded_subjects upload s p).
    + now apply (confined_uploaded_faculty upload s p).
Qed.

Lemma ensure_data_files_files (s : state) (p : path) :
  fst (ensure_data_files s) = Ok tt /\
  read_path (fs (snd (ensure_data_files s))) p = Some (ensured (fs s) p).
Proof.
  destruct s as [[f1 f2 f3 f4] sd fd cd ad pg].
  destruct f1, f2, f3, f4; destruct p; split; reflexivity.
Qed.

Lemma confined_weaken {A : Type} (W W' : path -> bool) (m : M A) :
  (forall p, W p = true -> W' p = true) -> confined W m -> confined W' m.
Proof.
  intros HW Hm s p. destruct (Hm s p) as [H1 H2]. split; [|exact H2].
  intro Hp. apply H1. destruct (W p) eqn:E; [|reflexivity].
  apply HW in E. congruence.
Qed.

Lemma confined_after_ensure (m : mode) :
  confined (mode_writes m)
    (load_existing_dataframes is_na;;
     initialize_availability_if_empty;;
     match m with
     | Student_Section inp => student_mode is_na inp
     | Faculty_View inp => faculty_view is_na inp
     end).
Proof.
  apply confined_bind;
    [apply confined_keeps, keeps_load_existing_dataframes|intros _].
  apply confined_bind.
  - apply (confined_weaken (path_eqb FAC_AVAIL_FILE));
      [|apply confined_initialize].
    intros []; destruct m; simpl; congruence.
  - intros _. destruct m as [inp|inp].
    + unfold student_mode. apply confined_bind.
      * apply (confined_weaken (path_eqb CHOICE_FILE));
          [|apply confined_student_section].
        intros []; simpl; congruence.
      * intros _. apply confined_keeps, keeps_previous_submissions.
    + apply (confined_weaken (path_eqb FAC_AVAIL_FILE));
        [|apply confined_faculty_view].
      intros []; simpl; congruence.
Qed.

Lemma bind_fs_ext {A B : Type} (m : M A) (k k' : A -> M B) :
  (forall a s, fs (snd (k a s)) = fs (snd (k' a s))) ->
  forall s, fs (snd (bind m k s)) = fs (snd (bind m k' s)).
Proof.
  intros H s. unfold bind. destruct (m s) as [[a|e] s1]; [apply H|reflexivity].
Qed.

(** X21.  A run of the whole script in the student or the faculty mode.
    Afterwards all four files exist.  A file the mode does not write (the
    subjects and the faculty list in both modes, the choices as well in
    the faculty mode) holds what it held before the run, or just its
    canonical header if it was missing.  The list of previous submissions
    under the student's forms makes no difference to the files. *)
Theorem script_leaves_other_files (m : mode) (s : state) :
  (forall p, exists_path (fs (snd (script_with_list is_na m s))) p) /\
  (forall p, mode_writes m p = false ->
     read_path (fs (snd (script_with_list is_na m s))) p
     = Some (ensured (fs s) p)) /\
  fs (snd (script is_na m s)) = fs (snd (script_with_list is_na m s)).
Proof.
  pose proof (confined_after_ensure m) as Hrest.
  assert (Hrun : forall p,
            (mode_writes m p = false ->
             read_path (fs (snd (script_with_list is_na m s))) p
             = Some (ensured (fs s) p)) /\
            exists_path (fs (snd (script_with_list is_na m s))) p).
  { intro p. destruct (ensure_data_files_files s p) as [Hok Hp].
    match type of Hrest with
    | confined _ ?rest =>
        assert (Heq : script_with_list is_na m s
                      = rest (snd (ensure_data_files s)))
    end.
    { unfold script_with_list. unfold bind at 1.
      destruct (ensure_data_files s) as [[[]|e] s1]; [reflexivity|discriminate]. }
    rewrite Heq. destruct (Hrest (snd (ensure_data_files s)) p) as [H1 H2].
    split.
    - intro HW. now rewrite (H1 HW).
    - apply H2. unfold exists_path. now rewrite Hp. }
  split; [|split].
  - intro p. apply Hrun.
  - intro p. apply Hrun.
  - unfold script, script_with_list.
    apply bind_fs_ext. intros _ s1. apply bind_fs_ext. intros _ s2.
    apply bind_fs_ext. intros _ s3. destruct m as [inp|inp]; [|reflexivity].
    unfold student_mode, bind.
    destruct (student_section is_na inp s3) as [[a|e] s4]; [|reflexivity].
    symmetry. apply keeps_previous_submissions.
Qed.

End ExtraViews.

Lemma clear_choices_leaves_header_witness :
  exists s',
    clear_choices (fresh resubmission_store) = (Raise RerunException, s') /\
    read_path (fs s') CHOICE_FILE = Some (Csv.Table CHOICE_COLUMNS []) /\
    read_path (fs s') FAC_AVAIL_FILE = read_path resubmission_store FAC_AVAIL_FILE /\
    load_choices Csv.default_na s'
    = (Ok (Pandas.DataFrame_columns CHOICE_COLUMNS), s').
Proof.
  destruct (clear_choices_leaves_header Csv.default_na (fresh resubmission_store))
    as (s' & Hrun & Hfile & Hother & _ & Hload).
  exists s'. split; [exact Hrun|]. split; [exact Hfile|].
  split; [|exact Hload]. apply Hother. discriminate.
Defined.

Lemma student_mode_writes_choices_only_witness :
  read_path (fs (snd (student_mode Csv.default_na student_21CS003
                                   resubmission_loaded))) FAC_AVAIL_FILE
  = read_path (fs resubmission_loaded) FAC_AVAIL_FILE /\
  exists_path (fs (snd (student_mode Csv.default_na student_21CS003
                                     resubmission_loaded))) SUBJECTS_FILE.
Proof.
  destruct (student_mode_writes_choices_only Csv.default_na student_21CS003
              resubmission_loaded) as (Hother & Hex & _).
  split.
  - apply Hother. discriminate.
  - apply Hex. discriminate.
Defined.

Lemma faculty_view_writes_availability_only_witness :
  read_path
    (fs (snd (faculty_view Csv.default_na
                (mkFacultyInput (Some "Dr. B") (fun _ => Some "No") true)
                resubmission_loaded))) CHOICE_FILE
  = read_path (fs resubmission_loaded) CHOICE_FILE.
Proof.
  apply (proj1 (faculty_view_writes_availability_only Csv.default_na
                  (mkFacultyInput (Some "Dr. B") (fun _ => Some "No") true)
                  resubmission_loaded)).
  discriminate.
Defined.

Lemma uploads_write_own_file_witness :
  read_path (fs (snd (uploaded_subjects Csv.default_na
                        (Some subjects_with_teacher) scenario_state)))
            FACULTY_FILE
  = read_path (fs scenario_state) FACULTY_FILE /\
  read_path (fs (snd (uploaded_faculty Csv.default_na
                        (Some two_teachers) scenario_state)))
            SUBJECTS_FILE
  = read_path (fs scenario_state) SUBJECTS_FILE.
Proof.
  destruct (uploads_write_own_file Csv.default_na (Some subjects_with_teacher)
              scenario_state) as (H1 & _ & _).
  destruct (uploads_write_own_file Csv.default_na (Some two_teachers)
              scenario_state) as (_ & H2 & _).
  split; [apply H1|apply H2]; reflexivity.
Defined.

Lemma script_leaves_other_files_witness :
  read_path (fs (snd (script_with_list Csv.default_na
                        (student_21CS001 "Ann" "A" "Dr. A")
                        (fresh scenario_start)))) FACULTY_FILE
  = Some (Csv.Table FACULTY_COLUMNS [ ["Dr. A"]; ["Dr. B"] ]).
Proof.
  apply (proj1 (proj2 (script_leaves_other_files Csv.default_na
                         (student_21CS001 "Ann" "A" "Dr. A")
                         (fresh scenario_start)))).
  reflexivity.
Defined.

(** ** Edges of the views *)

Lemma bind_run {A B : Type} (m : M A) (k : A -> M B) (s s1 : state) (a : A) :
  m s = (Ok a, s1) -> bind m k s = k a s1.
Proof. intro H. unfold bind. now rewrite H. Qed.

Section ExtraEdges.

Variable is_na : string -> bool.

(** X22.  The login form of the student section, over non-empty
    reference frames and a subjects frame with its Year column.  Until the
    form is submitted the section shows and writes nothing.  Submitted with
    the registration number, the name or the section left empty, it shows
    "Please fill all fields to proceed." and nothing else: no selection
    form, no write. *)
Theorem incomplete_login_is_refused (inp : student_input) (s : state) :
  Pandas.empty (subjects_df s) = false ->
  Pandas.empty (faculty_df s) = false ->
  Pandas.mem "Year" (Pandas.columns (subjects_df s)) = true ->
  (submit_login inp = false -> student_section is_na inp s = (Ok tt, s)) /\
  (submit_login inp = true ->
   in_regd inp = "" \/ in_name inp = "" \/ in_section inp = "" ->
   student_section is_na inp s
   = (Ok tt, show (st_error "Please fill all fields to proceed.") s)).
Proof.
  intros ES EF EY.
  split; [intros Hs|intros Hs Hfield];
    unfold student_section; unfold bind at 1 2 3, gets; rewrite ES, EF;
    cbn [orb]; unfold ret at 1; unfold bind at 1, lift at 1;
    rewrite (getitem_present _ _ EY), Hs; [reflexivity|].
  destruct (pick _ 0 (year_picked inp)) as [year|]; [|reflexivity].
  replace (falsy (in_regd inp) || falsy (in_name inp) || falsy year
           || falsy (in_section inp)) with true; [reflexivity|].
  unfold falsy.
  destruct Hfield as [-> | [-> | ->]]; cbn [String.eqb];
    rewrite ?orb_true_r; reflexivity.
Qed.

(** X23.  A write block that finds its table without a key column fails
    before it writes.  Over a non-empty choices table that lacks the
    Regd_No or the Subject_Code column a submission raises [KeyError] and
    leaves the state as it was; over an availability table that lacks the
    Faculty_Name column a save raises [KeyError] with every file as it
    was. *)
Theorem write_blocks_need_key_columns (s : state) :
  (forall regd name year section sels,
     Pandas.empty (table_of is_na CHOICE_FILE (fs s)) = false ->
     Pandas.mem "Regd_No" (Pandas.columns (table_of is_na CHOICE_FILE (fs s)))
     && Pandas.mem "Subject_Code"
          (Pandas.columns (table_of is_na CHOICE_FILE (fs s))) = false ->
     exists k,
       submit_choices is_na regd name year section sels s
       = (Raise (KeyError k), s)) /\
  (forall F U,
     Pandas.mem "Faculty_Name"
       (Pandas.columns (table_of is_na FAC_AVAIL_FILE (fs s))) = false ->
     exists s',
       save_avail is_na F U s = (Raise (KeyError "Faculty_Name"), s') /\
       fs s' = fs s).
Proof.
  split.
  - intros regd name year section sels Hne Hmiss.
    unfold submit_choices. unfold bind at 1. rewrite load_choices_eq.
    set (pre := table_of is_na CHOICE_FILE (fs s)) in *.
    rewrite Hne. cbn [negb]. unfold bind, lift.
    destruct (Pandas.mem "Regd_No" (Pandas.columns pre)) eqn:E1.
    + rewrite (getitem_present _ _ E1).
      cbn [andb] in Hmiss. apply col_index_None in Hmiss.
      unfold Pandas.getitem. rewrite Hmiss. eexists. reflexivity.
    + apply col_index_None in E1. unfold Pandas.getitem at 1. rewrite E1.
      eexists. reflexivity.
  - intros F U Hmiss. rewrite save_avail_eq. cbv zeta. rewrite Hmiss.
    eexists. split; reflexivity.
Qed.

(** X24.  The options of the select boxes.  The faculty names offered by
    both views and the years offered at the login are in strictly ascending
    order, so each is offered once; the years are exactly the values of the
    Year column, missing ones left out. *)
Theorem options_are_ascending (faculty subjects : Pandas.DataFrame) :
  ascending (all_faculties faculty) /\
  ascending (years_of subjects) /\
  (forall y, In y (years_of subjects)
             <-> In (Some y) (map (Pandas.cell_at (Pandas.columns subjects) "Year")
                                  (Pandas.rows subjects))).
Proof.
  split; [|split].
  - unfold all_faculties.
    destruct (Pandas.getitem faculty "Faculty_Name");
      apply ascending_sorted, NoDup_unique.
  - apply ascending_sorted, NoDup_unique.
  - intro y. unfold years_of. now rewrite In_sorted, In_unique, In_dropna.
Qed.

End ExtraEdges.

Lemma incomplete_login_is_refused_witness :
  student_section Csv.default_na student_without_name resubmission_loaded
  = (Ok tt, show (st_error "Please fill all fields to proceed.")
                 resubmission_loaded).
Proof.
  apply (proj2 (incomplete_login_is_refused Csv.default_na student_without_name
                  resubmission_loaded eq_refl eq_refl eq_refl) eq_refl).
  right. left. reflexivity.
Defined.

Lemma write_blocks_need_key_columns_witness :
  (exists k,
     submit_choices Csv.default_na "21CS001" "Ann" "1" "A" cs101_with_dr_b
                    (fresh foreign_tables_store)
     = (Raise (KeyError k), fresh foreign_tables_store)) /\
  (exists s',
     save_avail Csv.default_na "Dr. A" dr_a_says_no (fresh foreign_tables_store)
     = (Raise (KeyError "Faculty_Name"), s') /\
     fs s' = foreign_tables_store).
Proof.
  destruct (write_blocks_need_key_columns Csv.default_na
              (fresh foreign_tables_store)) as [H1 H2].
  split.
  - exact (H1 "21CS001" "Ann" "1" "A" cs101_with_dr_b eq_refl eq_refl).
  - exact (H2 "Dr. A" dr_a_says_no eq_refl).
Defined.

(** ** A visit to the faculty view *)

Section ExtraVisit.

Variable is_na : string -> bool.

Lemma rows_where_canonical (d : Pandas.DataFrame) (k F : string) :
  Pandas.mem k (Pandas.columns d) = true ->
  exists m,
    rows_where d k F = Ok m /\
    (Pandas.empty m = false -> Pandas.columns m = Pandas.columns d) /\
    (Forall (fun r => Pandas.eq_str (Pandas.cell_at (Pandas.columns d) k r) F
                      = false) (Pandas.rows d) ->
     Pandas.empty m = true).
Proof.
  intro Hk. unfold rows_where.
  destruct (Pandas.empty d) eqn:E; cbn [negb].
  - eexists. split; [reflexivity|]. split; [discriminate|reflexivity].
  - rewrite (getitem_present d k Hk). cbn [rbind]. eexists.
    split; [reflexivity|]. split; [reflexivity|].
    intro Hnone. unfold Pandas.empty, Pandas.boolean_index, Pandas.series_eq.
    cbn [Pandas.columns Pandas.rows].
    rewrite map_map, select_map, filter_all_false by exact Hnone.
    apply orb_true_r.
Qed.

Lemma appended_defaults (pre subjects : Pandas.DataFrame) (F : string) :
  Pandas.columns pre = AVAIL_COLUMNS ->
  Pandas.wf pre ->
  Pandas.empty subjects = false ->
  Pandas.mem "Subject_Code" (Pandas.columns subjects) = true ->
  Pandas.mem "Subject_Name" (Pandas.columns subjects) = true ->
  exists recs,
    default_rows (Some F) subjects = Ok recs /\
    (if negb (Pandas.empty pre)
     then Pandas.concat pre (Pandas.from_records recs)
     else Pandas.from_records recs)
    = {| Pandas.columns := AVAIL_COLUMNS;
         Pandas.rows := Pandas.rows pre ++ default_cells_of F subjects |}.
Proof.
  intros Hcols Hwf ES Hc Hn. rewrite (default_rows_Ok _ _ Hc Hn).
  set (recs := map _ (Pandas.rows subjects)).
  assert (Hcells : map (fun r => map (Pandas.dict_get r) AVAIL_COLUMNS) recs
                   = default_cells_of F subjects).
  { unfold recs, default_cells_of. rewrite map_map. reflexivity. }
  assert (Hne : recs <> []).
  { apply empty_false in ES as [_ ES]. unfold recs.
    destruct (Pandas.rows subjects); [contradiction|discriminate]. }
  assert (Hall : Forall (fun r => exists f c n a, r = availability_row f c n a)
                        recs).
  { apply Forall_forall. intros r Hr. unfold recs in Hr.
    apply in_map_iff in Hr as (srow & <- & _). eauto. }
  exists recs. split; [reflexivity|].
  rewrite (from_availability_rows _ Hne Hall), Hcells.
  destruct (Pandas.empty pre) eqn:E; cbn [negb].
  - unfold Pandas.empty in E. rewrite Hcols in E. cbn [length Nat.eqb orb] in E.
    apply Nat.eqb_eq, length_zero_iff_nil in E. now rewrite E.
  - rewrite concat_same_labels.
    + cbn [Pandas.columns Pandas.rows]. rewrite Hcols. f_equal. f_equal.
      rewrite <- (map_id (default_cells_of F subjects)) at 2.
      apply map_ext_in. intros r Hr. apply reindex_id.
      * repeat constructor; simpl; intuition discriminate.
      * unfold default_cells_of in Hr. apply in_map_iff in Hr as (srow & <- & _).
        reflexivity.
    + rewrite Hcols. repeat constructor; simpl; intuition discriminate.
    + exact Hwf.
    + cbn [Pandas.columns]. now rewrite Hcols.
Qed.

(** X25.  A visit to the faculty view writes.  When the member picked
    has no row in the availability file (the choices and availability
    tables having their canonical columns, the subjects frame being
    non-empty with its code and name columns), the view appends one "Yes"
    row per subject row for them to the rows on file and stores the result,
    without "Save Availability" being pressed, and whether or not the form
    below renders. *)
Theorem faculty_view_creates_default_rows (inp : faculty_input) (s : state)
    (F : string) :
  Pandas.empty (faculty_df s) = false ->
  pick (all_faculties (faculty_df s)) 0 (name_picked inp) = Some F ->
  F <> "" ->
  Pandas.columns (table_of is_na CHOICE_FILE (fs s)) = CHOICE_COLUMNS ->
  Pandas.columns (table_of is_na FAC_AVAIL_FILE (fs s)) = AVAIL_COLUMNS ->
  Forall (fun r => faculty_is F r = false)
         (Pandas.rows (table_of is_na FAC_AVAIL_FILE (fs s))) ->
  Pandas.empty (subjects_df s) = false ->
  Pandas.mem "Subject_Code" (Pandas.columns (subjects_df s)) = true ->
  Pandas.mem "Subject_Name" (Pandas.columns (subjects_df s)) = true ->
  save_avail_pressed inp = false ->
  fs (snd (faculty_view is_na inp s))
  = write_path (fs s) FAC_AVAIL_FILE
      (Some (Csv.to_csv
               {| Pandas.columns := AVAIL_COLUMNS;
                  Pandas.rows :=
                    Pandas.rows (table_of is_na FAC_AVAIL_FILE (fs s))
                    ++ default_cells_of F (subjects_df s) |})).
Proof.
  intros EF Hpick HF Hchoices Havail Hnone ES Hc Hn Hsave.
  unfold faculty_view.
  rewrite (bind_run _ _ s s (faculty_df s)) by reflexivity.
  rewrite EF. rewrite (bind_run _ _ s s tt) by reflexivity.
  rewrite Hpick. destruct F as [|a F']; [contradiction|].
  set (F := String a F') in *.
  cbv iota.
  erewrite bind_run by reflexivity.
  rewrite (bind_run _ _ _ _ _ (load_choices_eq is_na _)).
  erewrite bind_run by reflexivity.
  cbn [fs show set_choices_df].
  assert (Hsel : Pandas.mem "Faculty_Selected"
                   (Pandas.columns (table_of is_na CHOICE_FILE (fs s))) = true)
    by now rewrite Hchoices.
  destruct (rows_where_canonical (table_of is_na CHOICE_FILE (fs s))
              "Faculty_Selected" F Hsel) as (ms & Hms & Hcols & _).
  rewrite (bind_run _ _ _ _ ms) by (unfold lift; now rewrite Hms).
  assert (Hlist : exists s2,
            (if Pandas.empty ms
             then st (st_info "No students have selected you yet.")
             else
               lift (Pandas.getitem ms "Subject_Code");;
               lift (Pandas.getitem ms "Regd_No");; ret tt)
              (set_choices_df (table_of is_na CHOICE_FILE (fs s))
                 (show (st_success ("Logged in as: " ++ F)) s))
            = (Ok tt, s2) /\ fs s2 = fs s /\ subjects_df s2 = subjects_df s).
  { destruct (Pandas.empty ms) eqn:Ems.
    - eexists. split; [reflexivity|]. split; reflexivity.
    - specialize (Hcols eq_refl). rewrite Hchoices in Hcols.
      unfold bind, lift.
      rewrite (getitem_present ms "Subject_Code") by now rewrite Hcols.
      rewrite (getitem_present ms "Regd_No") by now rewrite Hcols.
      eexists. split; [reflexivity|]. split; reflexivity. }
  destruct Hlist as (s2 & Hlist & Hfs2 & Hsub2).
  rewrite (bind_run _ _ _ _ _ Hlist).
  rewrite (bind_run _ _ _ _ _ (load_availability_eq is_na _)).
  erewrite bind_run by reflexivity.
  erewrite bind_run by reflexivity.
  cbn [fs subjects_df set_avail_df]. rewrite Hfs2, Hsub2, ES.
  erewrite bind_run by reflexivity.
  set (pre := table_of is_na FAC_AVAIL_FILE (fs s)) in *.
  assert (Hfn : Pandas.mem "Faculty_Name" (Pandas.columns pre) = true)
    by now rewrite Havail.
  destruct (rows_where_canonical pre "Faculty_Name" F Hfn)
    as (ma & Hma & _ & Hempty).
  rewrite Havail in Hempty. specialize (Hempty Hnone).
  rewrite (bind_run _ _ _ _ ma) by (unfold lift; now rewrite Hma).
  rewrite Hempty.
  destruct (appended_defaults pre (subjects_df s) F Havail
              (table_of_wf is_na FAC_AVAIL_FILE (fs s)) ES Hc Hn)
    as (recs & Hrecs & HT).
  set (T := {| Pandas.columns := AVAIL_COLUMNS;
               Pandas.rows := Pandas.rows pre
                              ++ default_cells_of F (subjects_df s) |}) in *.
  match goal with
  | |- fs (snd (bind ?block _ ?s3)) = _ =>
      assert (Hblock : exists my_avail,
                block s3
                = (Ok my_avail,
                   set_fs (write_path (fs s3) FAC_AVAIL_FILE (Some (Csv.to_csv T)))
                          (set_avail_df T s3)))
  end.
  { unfold bind, lift, modify, save_df_to_csv, ret. rewrite Hrecs, HT.
    eexists. reflexivity. }
  destruct Hblock as (my_avail & Hblock).
  rewrite (bind_run _ _ _ _ _ Hblock).
  match goal with
  | |- fs (snd (?rest ?s4)) = _ =>
      assert (Hrest : keeps_files rest)
  end.
  { rewrite Hsave. apply keeps_bind; [apply keeps_availability_form|].
    intro. apply keeps_ret. }
  rewrite Hrest. cbn [fs set_fs set_avail_df]. now rewrite Hfs2.
Qed.

End ExtraVisit.

Lemma faculty_view_creates_default_rows_witness :
  faculty_availability_csv
    (fs (snd (faculty_view Csv.default_na (visit_of "Dr. C")
                (loaded Csv.default_na newcomer_store))))
  = Some (Csv.Table AVAIL_COLUMNS
            [ ["Dr. A"; "CS101"; "Intro"; "No"];
              ["Dr. C"; "CS101"; "Intro"; "Yes"] ]).
Proof.
  rewrite (faculty_view_creates_default_rows Csv.default_na (visit_of "Dr. C")
             (loaded Csv.default_na newcomer_store) "Dr. C");
    try reflexivity; [discriminate|repeat constructor].
Defined.

(** ** Registration numbers that read as missing *)

Section ExtraNA.

Variable is_na : string -> bool.

(** X26.  A registration number that is an NA token of the reader (as
    "NA", "null" or "None" are for pandas) never matches a stored row,
    because it is stored as text and read back as a missing cell: over a
    choices table with the canonical columns, a submission under such a
    number replaces nothing, and every row on file is kept with the new
    rows appended, so resubmissions pile up instead of replacing. *)
Theorem na_registration_number_accumulates (s : state)
    (regd name year section : string) (sels : list selection) :
  is_na regd = true ->
  Pandas.columns (table_of is_na CHOICE_FILE (fs s)) = CHOICE_COLUMNS ->
  let pre := table_of is_na CHOICE_FILE (fs s) in
  let T := saved_choices pre regd name year section sels in
  (exists s',
     submit_choices is_na regd name year section sels s
     = (Raise RerunException, s') /\
     fs s' = write_path (fs s) CHOICE_FILE (Some (Csv.to_csv T))) /\
  Pandas.rows T
  = Pandas.rows pre ++ map (choice_cells regd name year section) sels /\
  reread is_na (Some regd) = Pandas.NaN.
Proof.
  intros Hna Hcols pre T. split; [|split].
  - rewrite (submit_choices_eq is_na regd name year section sels s Hcols).
    eexists. split; reflexivity.
  - destruct (saved_choices_rows pre regd name year section sels Hcols
                (table_of_wf is_na CHOICE_FILE (fs s))) as [Hrows _].
    unfold T. rewrite Hrows. f_equal. apply filter_all_true.
    pose proof (table_of_normal is_na CHOICE_FILE (fs s)) as Hnorm.
    fold pre in Hnorm. rewrite Forall_forall in Hnorm.
    apply Forall_forall. intros r Hr. apply negb_true_iff.
    apply replaced_false_iff. left. specialize (Hnorm r Hr).
    change (Pandas.cell_at CHOICE_COLUMNS "Regd_No" r) with (nth 0 r Pandas.NaN).
    destruct r as [|[x|] r]; cbn [nth]; try discriminate.
    apply Forall_cons_iff in Hnorm as [Hx _]. cbn [normal] in Hx.
    intro E. injection E as ->. congruence.
  - unfold reread, Csv.parse_field. cbn [Csv.na_rep]. now rewrite Hna.
Qed.

End ExtraNA.

Lemma na_registration_number_accumulates_witness :
  Pandas.rows
    (saved_choices
       (table_of Csv.default_na CHOICE_FILE
          (after_run Csv.default_na (student_NA "Dr. A") scenario_start))
       "NA" "Ann" "1" "A" cs101_with_dr_b)
  = [ [None; Some "Ann"; Some "1"; Some "A"; Some "CS101"; Some "Intro";
       Some "Dr. A"];
      [Some "NA"; Some "Ann"; Some "1"; Some "A"; Some "CS101"; Some "Intro";
       Some "Dr. B"] ].
Proof.
  destruct (na_registration_number_accumulates Csv.default_na
              (fresh (after_run Csv.default_na (student_NA "Dr. A")
                                scenario_start))
              "NA" "Ann" "1" "A" cs101_with_dr_b eq_refl eq_refl)
    as (_ & Hrows & _).
  exact Hrows.
Defined.

(** ** The summary *)

Section GroupFacts.

Variable K : Type.
Variable eqb : K -> K -> bool.
Variable leb : K -> K -> bool.

Hypothesis eqb_eq : forall a b, eqb a b = true <-> a = b.
Hypothesis leb_total : forall a b, leb a b = true \/ leb b a = true.

Lemma eqb_refl_by (a : K) : eqb a a = true.
Proof. now apply eqb_eq. Qed.

Lemma eqb_neq_by (a b : K) : eqb a b = false <-> a <> b.
Proof.
  split.
  - intros H E. apply eqb_eq in E. congruence.
  - intro H. destruct (eqb a b) eqn:E; [|reflexivity].
    apply eqb_eq in E. contradiction.
Qed.

Lemma In_insert_by (x y : K) (l : list K) :
  In y (insert_by leb x l) <-> y = x \/ In y l.
Proof.
  induction l as [|z l IH]; simpl; [intuition|].
  destruct (leb x z); simpl; [intuition|]. rewrite IH. intuition.
Qed.

Lemma In_sort_by (y : K) (l : list K) : In y (sort_by leb l) <-> In y l.
Proof.
  induction l as [|x l IH]; simpl; [tauto|].
  rewrite In_insert_by, IH. intuition.
Qed.

Lemma NoDup_insert_by (x : K) (l : list K) :
  ~ In x l -> NoDup l -> NoDup (insert_by leb x l).
Proof.
  induction l as [|z l IH]; intros Hx Hl; simpl.
  - constructor; [intros []|constructor].
  - destruct (leb x z); [now constructor|].
    apply NoDup_cons_iff in Hl as [Hz Hl]. constructor.
    + rewrite In_insert_by. intros [->|H]; [|contradiction].
      apply Hx. now left.
    + apply IH; [|exact Hl]. intro H. apply Hx. now right.
Qed.

Lemma NoDup_sort_by (l : list K) : NoDup l -> NoDup (sort_by leb l).
Proof.
  induction 1 as [|x l Hx Hl IH]; simpl; [constructor|].
  apply NoDup_insert_by; [|exact IH]. now rewrite In_sort_by.
Qed.

Lemma In_unique_by (y : K) (l : list K) : In y (unique_by eqb l) <-> In y l.
Proof.
  induction l as [|x l IH]; simpl; [tauto|].
  rewrite filter_In, IH. split.
  - intros [->|[H _]]; auto.
  - intros [->|H]; [now left|].
    destruct (eqb y x) eqn:E.
    + apply eqb_eq in E. now left.
    + right. split; [exact H|reflexivity].
Qed.

Lemma NoDup_unique_by (l : list K) : NoDup (unique_by eqb l).
Proof.
  induction l as [|x l IH]; simpl; constructor.
  - rewrite filter_In. intros [_ H]. cbv beta in H.
    now rewrite eqb_refl_by in H.
  - now apply NoDup_filter.
Qed.

Lemma ascending_insert_by (x : K) (l : list K) :
  ascending_by leb l -> ~ In x l -> ascending_by leb (insert_by leb x l).
Proof.
  induction l as [|y l IH]; intros Hl Hx; [simpl; auto|].
  assert (Hxy : y <> x) by (intro E; apply Hx; now left).
  assert (Hxl : ~ In x l) by (intro H; apply Hx; now right).
  cbn [insert_by].
  destruct (leb x y) eqn:Exy.
  - cbn [ascending_by]. split; [split; [exact Exy|congruence]|exact Hl].
  - assert (Eyx : leb y x = true)
      by (destruct (leb_total x y); congruence).
    destruct Hl as [Hhead Hl]. specialize (IH Hl Hxl).
    destruct l as [|z l]; [simpl; auto|].
    cbn [insert_by] in IH |- *.
    destruct (leb x z).
    + split; [split; assumption|exact IH].
    + split; [exact Hhead|exact IH].
Qed.

Lemma ascending_sort_by (l : list K) :
  NoDup l -> ascending_by leb (sort_by leb l).
Proof.
  induction 1 as [|x l Hx Hl IH]; [exact I|].
  cbn [sort_by]. apply ascending_insert_by; [exact IH|].
  now rewrite In_sort_by.
Qed.

Lemma count_by_pos (k : K) (l : list K) : 0 < count_by eqb k l <-> In k l.
Proof.
  unfold count_by. induction l as [|x l IH]; simpl; [split; [lia|tauto]|].
  destruct (eqb k x) eqn:E.
  - apply eqb_eq in E. subst. simpl. split; [now left|lia].
  - apply eqb_neq_by in E. rewrite IH. split; [now right|].
    intros [H|H]; [congruence|exact H].
Qed.

Lemma sum_indicator_by (P : K -> bool) (x : K) (ks : list K) :
  NoDup ks -> In x ks ->
  list_sum (map (fun k => if eqb k x then 1 else 0) (filter P ks))
  = if P x then 1 else 0.
Proof.
  induction 1 as [|k ks Hk Hks IH]; intro Hin; [contradiction|].
  assert (H0 : forall l, ~ In x l ->
            list_sum (map (fun k => if eqb k x then 1 else 0) (filter P l)) = 0).
  { induction l as [|y l IHl]; intro Hx; [reflexivity|].
    cbn [filter]. assert (Hy : eqb y x = false).
    { apply eqb_neq_by. intro E. apply Hx. now left. }
    assert (Hl : ~ In x l) by (intro H; apply Hx; now right).
    destruct (P y); [|now apply IHl].
    cbn [map]. cbv beta. rewrite list_sum_cons, Hy, IHl by exact Hl. reflexivity. }
  cbn [filter]. destruct (eqb k x) eqn:E.
  - apply eqb_eq in E. subst k. destruct (P x).
    + cbn [map]. cbv beta. rewrite list_sum_cons, eqb_refl_by, H0 by exact Hk.
      reflexivity.
    + now apply H0.
  - assert (Hx : In x ks).
    { destruct Hin as [->|H]; [|exact H]. now rewrite eqb_refl_by in E. }
    destruct (P k); [|now apply IH].
    cbn [map]. cbv beta. rewrite list_sum_cons, E, IH by exact Hx. reflexivity.
Qed.

Lemma sum_counts_by (P : K -> bool) (ks l : list K) :
  NoDup ks -> (forall x, In x l -> In x ks) ->
  list_sum (map (fun k => count_by eqb k l) (filter P ks))
  = length (filter P l).
Proof.
  intros Hks. induction l as [|x l IH]; intro Hin.
  - unfold count_by. simpl. induction (filter P ks); simpl; auto.
  - assert (Hsplit : forall ks',
              list_sum (map (fun k => count_by eqb k (x :: l)) ks')
              = list_sum (map (fun k => if eqb k x then 1 else 0) ks')
                + list_sum (map (fun k => count_by eqb k l) ks')).
    { induction ks' as [|k ks' IH']; [reflexivity|].
      cbn [map]. rewrite !list_sum_cons, IH'. unfold count_by.
      cbn [filter]. destruct (eqb k x); cbn [length]; lia. }
    rewrite Hsplit, sum_indicator_by, IH.
    + cbn [filter]. destruct (P x); cbn [length]; lia.
    + intros y Hy. apply Hin. now right.
    + exact Hks.
    + apply Hin. now left.
Qed.

End GroupFacts.

Lemma key_eqb_eq (a b : group_key) : key_eqb a b = true <-> a = b.
Proof.
  destruct a as [[a1 a2] a3], b as [[b1 b2] b3]. unfold key_eqb.
  rewrite !andb_true_iff, !String.eqb_eq. split.
  - intros [[-> ->] ->]. reflexivity.
  - intro E. injection E as -> -> ->. auto.
Qed.

Lemma key_leb_total (a b : group_key) :
  key_leb a b = true \/ key_leb b a = true.
Proof.
  destruct a as [[a1 a2] a3], b as [[b1 b2] b3]. unfold key_leb.
  rewrite (String.eqb_sym b1 a1), (String.eqb_sym b2 a2).
  destruct (String.eqb a1 b1); [|apply String.leb_total].
  destruct (String.eqb a2 b2); apply String.leb_total.
Qed.

Lemma complete_keys_rows {A : Type} (g1 g2 g3 : A -> Pandas.cell) (l : list A) :
  complete_keys (map g1 l) (map g2 l) (map g3 l)
  = flat_map (fun r => complete_key (g1 r) (g2 r) (g3 r)) l.
Proof.
  induction l as [|r l IH]; [reflexivity|].
  cbn [map complete_keys flat_map]. now rewrite IH.
Qed.

Lemma filter_flat_map_key {A : Type} (P : group_key -> bool)
    (g1 g2 g3 : A -> Pandas.cell) (l : list A) :
  length (filter P (flat_map (fun r => complete_key (g1 r) (g2 r) (g3 r)) l))
  = length (filter (fun r => existsb P (complete_key (g1 r) (g2 r) (g3 r))) l).
Proof.
  induction l as [|r l IH]; [reflexivity|].
  cbn [flat_map filter]. rewrite filter_app, length_app, IH.
  unfold complete_key at 1 3.
  destruct (g1 r), (g2 r), (g3 r); cbn [filter existsb length orb];
    try reflexivity.
  destruct (P (s, s0, s1)); reflexivity.
Qed.

Lemma summary_eq (choices : Pandas.DataFrame) :
  Pandas.mem "Subject_Code" (Pandas.columns choices) = true ->
  Pandas.mem "Subject_Name" (Pandas.columns choices) = true ->
  Pandas.mem "Faculty_Selected" (Pandas.columns choices) = true ->
  summary choices
  = Ok (group_sizes key_eqb key_leb
          (flat_map
             (fun r =>
                complete_key
                  (Pandas.cell_at (Pandas.columns choices) "Subject_Code" r)
                  (Pandas.cell_at (Pandas.columns choices) "Subject_Name" r)
                  (Pandas.cell_at (Pandas.columns choices) "Faculty_Selected" r))
             (Pandas.rows choices))).
Proof.
  intros H1 H2 H3. unfold summary.
  rewrite (getitem_present choices _ H1), (getitem_present choices _ H2),
    (getitem_present choices _ H3).
  cbn [rbind]. now rewrite complete_keys_rows.
Qed.

(** X27.  The summary of the admin view, over a choices frame with the
    three key columns.  Its lines are in strictly ascending order of
    (subject code, subject name, faculty), so no combination is listed
    twice; a combination is listed exactly when some choice row carries it,
    with the number of those rows.  When every choice row has a subject
    code and a subject name, the lines of a faculty member add up to the
    number of choice rows naming them, the count of the workload table. *)
Theorem summary_spec (choices : Pandas.DataFrame) :
  Pandas.mem "Subject_Code" (Pandas.columns choices) = true ->
  Pandas.mem "Subject_Name" (Pandas.columns choices) = true ->
  Pandas.mem "Faculty_Selected" (Pandas.columns choices) = true ->
  exists lines,
    summary choices = Ok lines /\
    ascending_by key_leb (map fst lines) /\
    (forall k n, In (k, n) lines <-> n = choices_with k choices /\ 0 < n) /\
    (Forall (fun r =>
               Pandas.cell_at (Pandas.columns choices) "Subject_Code" r <> None /\
               Pandas.cell_at (Pandas.columns choices) "Subject_Name" r <> None)
            (Pandas.rows choices) ->
     forall F,
       list_sum (map snd (lines_of F lines)) = choices_naming F choices).
Proof.
  intros H1 H2 H3. rewrite (summary_eq choices H1 H2 H3).
  set (g1 := Pandas.cell_at (Pandas.columns choices) "Subject_Code").
  set (g2 := Pandas.cell_at (Pandas.columns choices) "Subject_Name").
  set (g3 := Pandas.cell_at (Pandas.columns choices) "Faculty_Selected").
  set (keys := flat_map _ (Pandas.rows choices)).
  assert (Hcount : forall k, count_by key_eqb k keys = choices_with k choices).
  { intro k. unfold count_by, keys, choices_with.
    apply (filter_flat_map_key (key_eqb k)). }
  eexists. split; [reflexivity|]. unfold group_sizes. split; [|split].
  - rewrite map_map. cbn [fst]. rewrite map_id.
    apply (ascending_sort_by _ key_leb key_leb_total).
    apply (NoDup_unique_by _ key_eqb key_eqb_eq).
  - intros k n. rewrite in_map_iff. rewrite <- Hcount. split.
    + intros (k' & E & Hk). injection E as -> <-. split; [reflexivity|].
      apply (count_by_pos _ key_eqb key_eqb_eq).
      rewrite (In_sort_by _ key_leb) in Hk.
      now rewrite (In_unique_by _ key_eqb key_eqb_eq) in Hk.
    + intros [-> Hpos]. exists k. split; [reflexivity|].
      rewrite (In_sort_by _ key_leb), (In_unique_by _ key_eqb key_eqb_eq).
      now apply (count_by_pos _ key_eqb key_eqb_eq).
  - intros Hall F. unfold lines_of.
    set (ks := sort_by key_leb (unique_by key_eqb keys)).
    assert (Hfilter : filter (fun line : group_key * nat =>
                                String.eqb (snd (fst line)) F)
                        (map (fun k => (k, count_by key_eqb k keys)) ks)
                      = map (fun k => (k, count_by key_eqb k keys))
                            (filter (fun k => String.eqb (snd k) F) ks)).
    { clear. induction ks as [|k ks IH]; [reflexivity|].
      cbn [map filter fst]. destruct (String.eqb (snd k) F); cbn [map];
        now rewrite IH. }
    rewrite Hfilter, map_map. cbn [snd].
    rewrite (sum_counts_by _ key_eqb key_eqb_eq).
    + unfold keys. rewrite filter_flat_map_key. unfold choices_naming.
      fold g3. f_equal. apply filter_ext_in. intros r Hr.
      rewrite Forall_forall in Hall. destruct (Hall r Hr) as [Hc Hn].
      fold g1 in Hc. fold g2 in Hn.
      destruct (g1 r) as [c|]; [|contradiction].
      destruct (g2 r) as [n|]; [|contradiction].
      destruct (g3 r) as [f|]; cbn [complete_key existsb snd Pandas.eq_str orb];
        [|reflexivity].
      apply orb_false_r.
    + apply (NoDup_sort_by _ key_leb), (NoDup_unique_by _ key_eqb key_eqb_eq).
    + intros x Hx. unfold ks.
      now rewrite (In_sort_by _ key_leb), (In_unique_by _ key_eqb key_eqb_eq).
Qed.

Lemma summary_spec_witness :
  exists lines,
    summary (table_of Csv.default_na CHOICE_FILE resubmission_store) = Ok lines /\
    lines = [ (("CS101", "Intro", "Dr. A"), 2); (("MA101", "Maths", "Dr. B"), 1) ] /\
    ascending_by key_leb (map fst lines) /\
    list_sum (map snd (lines_of "Dr. A" lines)) = 2.
Proof.
  destruct (summary_spec (table_of Csv.default_na CHOICE_FILE resubmission_store)
              eq_refl eq_refl eq_refl) as (lines & Hrun & Hasc & _ & Hsum).
  exists lines. split; [exact Hrun|]. split.
  - vm_compute in Hrun. now injection Hrun.
  - split; [exact Hasc|]. apply Hsum.
    repeat constructor; discriminate.
Defined.

(** ** The year picked at the login *)

Section Appends.

Variable P : ui_event -> Prop.

Lemma appends_same {A : Type} (m : M A) :
  (forall s, page (snd (m s)) = page s) -> appends P m.
Proof.
  intros H s. exists []. rewrite H, app_nil_r. split; [reflexivity|constructor].
Qed.

Lemma appends_ret {A : Type} (a : A) : appends P (ret a).
Proof. now apply appends_same. Qed.

Lemma appends_raise {A : Type} (e : exn) : appends P (@raise A e).
Proof. now apply appends_same. Qed.

Lemma appends_stop {A : Type} : appends P (@st_stop A).
Proof. now apply appends_same. Qed.

Lemma appends_rerun {A : Type} : appends P (@st_rerun A).
Proof. now apply appends_same. Qed.

Lemma appends_lift {A : Type} (r : result A) : appends P (lift r).
Proof. now apply appends_same. Qed.

Lemma appends_gets {A : Type} (f : state -> A) : appends P (gets f).
Proof. now apply appends_same. Qed.

Lemma appends_save (df : Pandas.DataFrame) (p : path) :
  appends P (save_df_to_csv df p).
Proof. now apply appends_same. Qed.

Lemma appends_st (e : ui_event) : P e -> appends P (st e).
Proof.
  intros He s. exists [e]. split; [reflexivity|]. now constructor.
Qed.

Lemma appends_selectbox (user : widgets) (label : string)
    (options : list string) (index : nat) (key : string) :
  P (st_selectbox label options key) ->
  appends P (selectbox user label options index key).
Proof.
  intros He s. unfold selectbox.
  destruct (Pandas.mem key (widget_keys (page s))).
  - exists []. rewrite app_nil_r. split; [reflexivity|constructor].
  - exists [st_selectbox label options key]. split; [reflexivity|].
    now constructor.
Qed.

(** The continuation is only asked about values the first block returns. *)
Lemma appends_bind {A B : Type} (m : M A) (k : A -> M B) :
  appends P m ->
  (forall a, (exists s s1, m s = (Ok a, s1)) -> appends P (k a)) ->
  appends P (bind m k).
Proof.
  intros Hm Hk s. unfold bind. destruct (Hm s) as (ev1 & H1 & HP1).
  destruct (m s) as [[a|e] s1] eqn:E; cbn [snd] in *; [|now exists ev1].
  destruct (Hk a (ex_intro _ s (ex_intro _ s1 E)) s1) as (ev2 & H2 & HP2).
  exists (ev1 ++ ev2). split.
  - now rewrite H2, H1, app_assoc.
  - now apply Forall_app.
Qed.

Lemma appends_try_except {A : Type} (body : M A) (handler : exn -> M A) :
  appends P body -> (forall e, appends P (handler e)) ->
  appends P (try_except body handler).
Proof.
  intros Hb Hh s. unfold try_except. destruct (Hb s) as (ev1 & H1 & HP1).
  destruct (body s) as [[a|e] s1]; cbn [snd] in *; [now exists ev1|].
  destruct (is_Exception e); [|now exists ev1].
  destruct (Hh e s1) as (ev2 & H2 & HP2).
  exists (ev1 ++ ev2). split.
  - now rewrite H2, H1, app_assoc.
  - now apply Forall_app.
Qed.

Lemma appends_for_each {A B : Type} (f : A -> M B) (l : list A) :
  (forall x, appends P (f x)) -> appends P (for_each f l).
Proof.
  intro Hf. induction l as [|x l IH]; cbn [for_each]; [apply appends_ret|].
  apply appends_bind; [apply Hf|]. intros y _.
  apply appends_bind; [exact IH|]. intros ys _. apply appends_ret.
Qed.

End Appends.

Ltac appends_step :=
  first
    [ apply appends_bind; [|intros ? _]
    | apply appends_try_except; [|intro]
    | apply appends_for_each; intro
    | apply appends_ret | apply appends_raise | apply appends_stop
    | apply appends_rerun | apply appends_lift | apply appends_gets
    | apply appends_save
    | apply appends_same; reflexivity
    | apply appends_st;
      let H := fresh in
      solve [ intro H; discriminate H
            | intro H; unfold no_subjects_warning in H; cbn in H; discriminate H ]
    | apply appends_selectbox; let H := fresh in intro H; discriminate H
    | match goal with
      | |- appends _ (if ?b then _ else _) => destruct b
      | |- appends _ (match ?x with _ => _ end) => destruct x
      end ].

Lemma pick_In (options : list string) (index : nat) (chosen : option string)
    (v : string) :
  pick options index chosen = Some v -> In v options.
Proof.
  unfold pick. intro H.
  assert (Hnth : nth_error options index = Some v -> In v options)
    by apply nth_error_In.
  destruct chosen as [c|]; [|now apply Hnth].
  destruct (Pandas.mem c options) eqn:E; [|now apply Hnth].
  injection H as <-. now apply mem_In.
Qed.

(** The subjects of a year on offer. *)
Lemma year_on_offer_has_subjects (subjects : Pandas.DataFrame)
    (year_col : Pandas.series) (chosen : option string) (year : string) :
  Pandas.getitem subjects "Year" = Ok year_col ->
  pick (Pandas.sorted (Pandas.unique (Pandas.dropna year_col))) 0 chosen
  = Some year ->
  Pandas.empty
    (Pandas.boolean_index subjects
       (map (fun c => String.eqb (Pandas.str c) year) year_col)) = false.
Proof.
  intros Hcol Hpick. apply pick_In in Hpick.
  rewrite In_sorted, In_unique, In_dropna in Hpick.
  assert (Hcols : Pandas.columns subjects <> []).
  { unfold Pandas.getitem in Hcol. destruct (Pandas.columns subjects);
      [discriminate|discriminate]. }
  apply getitem_cells in Hcol. subst year_col.
  apply empty_false. cbn [Pandas.boolean_index Pandas.columns Pandas.rows].
  split; [exact Hcols|].
  rewrite map_map, select_map.
  apply in_map_iff in Hpick as (r & Hr & Hin).
  intro Hnil.
  assert (Hf : In r (filter (fun x => String.eqb
                               (Pandas.str (Pandas.cell_at (Pandas.columns subjects)
                                                           "Year" x)) year)
                            (Pandas.rows subjects))).
  { apply filter_In. split; [exact Hin|]. rewrite Hr. apply String.eqb_refl. }
  rewrite Hnil in Hf. exact Hf.
Qed.

Section ExtraYear.

Variable is_na : string -> bool.

(** X28.  The year picked at the login always has subjects: the select
    box offers only values of the Year column, so the rows filtered for the
    year picked are never empty, and the student section never shows the
    warning "No subjects found for Year = ...": whatever the student enters,
    the page gets no such message. *)
Theorem year_picked_has_subjects (inp : student_input) (s : state)
    (year : string) :
  (forall chosen,
     pick (years_of (subjects_df s)) 0 chosen = Some year ->
     rows_of_year (subjects_df s) year <> []) /\
  exists events,
    page (snd (student_section is_na inp s)) = page s ++ events /\
    ~ In (no_subjects_warning year) events.
Proof.
  split.
  - intros chosen Hpick. apply pick_In in Hpick. unfold years_of in Hpick.
    rewrite In_sorted, In_unique, In_dropna in Hpick.
    apply in_map_iff in Hpick as (r & Hr & Hin). intro Hnil.
    assert (Hf : In r (rows_of_year (subjects_df s) year)).
    { apply filter_In. split; [exact Hin|]. rewrite Hr. apply String.eqb_refl. }
    rewrite Hnil in Hf. exact Hf.
  - assert (Happ : appends (fun e => e <> no_subjects_warning year)
                           (student_section is_na inp)).
    { unfold student_section.
      apply appends_bind; [apply appends_gets|]. intros subjects _.
      apply appends_bind; [apply appends_gets|]. intros faculty _.
      apply appends_bind; [repeat appends_step|]. intros _ _.
      apply appends_bind; [apply appends_lift|]. intros year_col Hcol.
      destruct Hcol as (s0 & s1 & Hcol). unfold lift in Hcol.
      injection Hcol as Hcol _.
      destruct (submit_login inp); [|apply appends_ret].
      destruct (pick _ 0 (year_picked inp)) as [y|] eqn:Epick;
        [|repeat appends_step].
      destruct (falsy (in_regd inp) || falsy (in_name inp) || falsy y
                || falsy (in_section inp)); [repeat appends_step|].
      rewrite (year_on_offer_has_subjects _ _ _ _ Hcol Epick).
      repeat appends_step. }
    destruct (Happ s) as (events & Hpage & Hall).
    exists events. split; [exact Hpage|].
    rewrite Forall_forall in Hall. intro Hin. now apply (Hall _ Hin).
Qed.

End ExtraYear.

Lemma year_picked_has_subjects_witness :
  pick (years_of (subjects_df resubmission_loaded)) 0 (Some "7") = Some "1" /\
  rows_of_year (subjects_df resubmission_loaded) "1" <> [].
Proof.
  split; [reflexivity|].
  apply (proj1 (year_picked_has_subjects Csv.default_na student_21CS003
                  resubmission_loaded "1") (Some "7")).
  reflexivity.
Defined.

(** ** Runs that submit nothing *)

Section ExtraIdle.

Variable is_na : string -> bool.

Lemma ensure_data_files_eq (s : state) :
  ensure_data_files s = (Ok tt, set_fs (ensured_store (fs s)) s).
Proof.
  destruct s as [[f1 f2 f3 f4] sd fd cd ad pg].
  destruct f1, f2, f3, f4; reflexivity.
Qed.

Lemma load_faculty_eq (s : state) :
  load_faculty is_na s = (Ok (faculty_of is_na (fs s)), s).
Proof.
  unfold load_faculty, faculty_of, try_except, bind, read_file, ret.
  destruct (Csv.read_csv is_na (read_path (fs s) FACULTY_FILE)) as [d|e] eqn:E;
    [reflexivity|].
  now rewrite (read_csv_raises is_na _ e E).
Qed.

Lemma load_existing_dataframes_eq (s : state) :
  load_existing_dataframes is_na s
  = (Ok tt, frames_of is_na (fs s) (page s)).
Proof.
  unfold load_existing_dataframes.
  rewrite (bind_run _ _ _ _ _ (load_subjects_eq is_na s)).
  erewrite bind_run by reflexivity.
  rewrite (bind_run _ _ _ _ _ (load_faculty_eq _)).
  erewrite bind_run by reflexivity.
  rewrite (bind_run _ _ _ _ _ (load_choices_eq is_na _)).
  erewrite bind_run by reflexivity.
  rewrite (bind_run _ _ _ _ _ (load_availability_eq is_na _)).
  reflexivity.
Qed.

Lemma keeps_student_section_idle (inp : student_input) :
  submit_choices_pressed inp = false ->
  keeps_files (student_section is_na inp).
Proof.
  destruct inp as [regd name year section login user pressed].
  cbn [submit_choices_pressed]. intros ->.
  unfold student_section.
  cbn [submit_login in_regd in_name in_section year_picked selection_widgets
       submit_choices_pressed].
  repeat keeps_step.
Qed.

(** The files after a run that submits nothing are the files after the
    initialisation of line 127. *)
Lemma idle_run_files (inp : student_input) (f : store) :
  submit_choices_pressed inp = false ->
  after_run is_na (Student_Section inp) f
  = fs (snd (initialize_availability_if_empty
               (frames_of is_na (ensured_store f) []))).
Proof.
  intro Hidle. unfold after_run, script.
  rewrite (bind_run _ _ _ _ _ (ensure_data_files_eq _)).
  rewrite (bind_run _ _ _ _ _ (load_existing_dataframes_eq _)).
  cbn [fs set_fs page fresh]. unfold bind.
  destruct (initialize_availability_if_empty _) as [[[]|e] s1]; [|reflexivity].
  apply (keeps_student_section_idle inp Hidle).
Qed.

(** What the initialisation leaves on disk needs no initialisation. *)
Lemma initialized_files_are_stable (f : store) :
  let f1 := fs (snd (initialize_availability_if_empty
                       (frames_of is_na (ensured_store f) []))) in
  ensured_store f1 = f1 /\
  fs (snd (initialize_availability_if_empty (frames_of is_na f1 []))) = f1.
Proof.
  set (s0 := frames_of is_na (ensured_store f) []).
  rewrite (initialize_availability_eq s0).
  destruct (Pandas.empty (faculty_df s0) || Pandas.empty (subjects_df s0)) eqn:G.
  - cbn [snd fs s0 frames_of]. split; [reflexivity|].
    fold s0. now rewrite initialize_availability_eq, G.
  - destruct (Pandas.empty (avail_df s0)) eqn:EA.
    + destruct (default_availability (faculty_df s0) (subjects_df s0))
        as [recs|e] eqn:ED.
      * apply orb_false_iff in G as [EF ES].
        destruct (default_availability_Ok_columns _ _ recs EF ES ED) as [Hc Hn].
        destruct (default_availability_frame _ _ EF ES Hc Hn)
          as (recs' & ED' & Hframe & Hcells).
        rewrite ED in ED'. injection ED' as <-. rewrite Hframe.
        cbn [snd fs set_fs set_avail_df s0 frames_of]. split; [reflexivity|].
        rewrite initialize_availability_eq.
        set (T := {| Pandas.columns := AVAIL_COLUMNS;
                     Pandas.rows := default_cells (faculty_df s0)
                                                  (subjects_df s0) |}) in *.
        set (f1 := write_path (ensured_store f) FAC_AVAIL_FILE
                              (Some (Csv.to_csv T))).
        change (faculty_df (frames_of is_na f1 [])) with (faculty_df s0).
        change (subjects_df (frames_of is_na f1 [])) with (subjects_df s0).
        rewrite EF, ES. cbn [orb].
        assert (Hwf : Pandas.wf T).
        { unfold Pandas.wf, T. cbn [Pandas.rows Pandas.columns].
          apply Forall_forall. intros r Hr. unfold default_cells in Hr.
          apply in_flat_map in Hr as (frow & _ & Hr).
          apply in_map_iff in Hr as (srow & <- & _). reflexivity. }
        assert (Hread : avail_df (frames_of is_na f1 [])
                        = {| Pandas.columns := AVAIL_COLUMNS;
                             Pandas.rows := map (map (reread is_na))
                                                (Pandas.rows T) |}).
        { cbn [avail_df frames_of]. unfold table_of, f1.
          rewrite read_write_path. cbn [Csv.read_csv].
          rewrite (parse_to_csv is_na T Hwf) by (first [discriminate | solve_plain]).
          reflexivity. }
        rewrite Hread.
        replace (Pandas.empty _) with false; [reflexivity|].
        symmetry. apply empty_false. cbn [Pandas.columns Pandas.rows].
        split; [discriminate|]. unfold T. cbn [Pandas.rows].
        destruct (default_cells (faculty_df s0) (subjects_df s0));
          [contradiction|discriminate].
      * cbn [snd fs s0 frames_of]. split; [reflexivity|].
        fold s0. now rewrite initialize_availability_eq, G, EA, ED.
    + cbn [snd fs s0 frames_of]. split; [reflexivity|].
      fold s0. now rewrite initialize_availability_eq, G, EA.
Qed.

(** The frames a run loads through the cache, when it holds nothing
    stale, are the frames the files read as. *)
Lemma cache_data_coherent (now : nat) (entry : option cache_entry)
    (f : M Pandas.DataFrame) (d : Pandas.DataFrame) (s : state) :
  f s = (Ok d, s) ->
  (forall e, entry = Some e -> value e = d) ->
  exists entry',
    cache_data now entry f s = (Ok (d, entry'), s) /\
    (forall e, entry' = Some e -> value e = d).
Proof.
  intros Hf He. unfold cache_data.
  assert (Hmiss : exists entry',
            (d0 <- f;; ret (d0, Some (mkEntry d0 now))) s = (Ok (d, entry'), s) /\
            (forall e, entry' = Some e -> value e = d)).
  { exists (Some (mkEntry d now)). split.
    - unfold bind. rewrite Hf. reflexivity.
    - intros e H. now injection H as <-. }
  destruct entry as [e|]; [|exact Hmiss].
  destruct (live now e); [|exact Hmiss].
  exists (Some e). split; [|exact He].
  unfold ret. now rewrite (He e eq_refl).
Qed.

Lemma load_existing_dataframes_cached_eq (now : nat) (c : cache) (s : state) :
  coherent is_na c (fs s) -> ensured_store (fs s) = fs s ->
  exists c',
    load_existing_dataframes_cached is_na now c s
    = (Ok c', frames_of is_na (fs s) (page s)) /\
    coherent is_na c' (fs s).
Proof.
  intros [Hsub Hfac] Hens. rewrite Hens in Hsub, Hfac.
  destruct (cache_data_coherent now (cached_subjects c) (load_subjects is_na)
              _ s (load_subjects_eq is_na s) Hsub) as (e1 & Hrun1 & H1).
  set (s1 := set_subjects_df (table_of is_na SUBJECTS_FILE (fs s)) s).
  destruct (cache_data_coherent now (cached_faculty c) (load_faculty is_na)
              _ s1 (load_faculty_eq s1) Hfac) as (e2 & Hrun2 & H2).
  exists (mkCache e1 e2). split.
  - unfold load_existing_dataframes_cached.
    rewrite (bind_run _ _ _ _ _ Hrun1).
    erewrite bind_run by reflexivity. cbn [fst snd]. fold s1.
    rewrite (bind_run _ _ _ _ _ Hrun2).
    erewrite bind_run by reflexivity. cbn [fst snd].
    rewrite (bind_run _ _ _ _ _ (load_choices_eq is_na _)).
    erewrite bind_run by reflexivity.
    rewrite (bind_run _ _ _ _ _ (load_availability_eq is_na _)).
    erewrite bind_run by reflexivity. reflexivity.
  - unfold coherent. rewrite Hens. cbn [cached_subjects cached_faculty].
    split; [exact H1 | exact H2].
Qed.

Lemma ensured_store_twice (f : store) :
  ensured_store (ensured_store f) = ensured_store f.
Proof. reflexivity. Qed.

(** With a cache that holds nothing stale, a run leaves the files the
    script leaves when it reads them, and a cache that holds nothing stale
    for the files once ensured. *)
Lemma cached_run_coherent (now : nat) (m : mode) (c : cache) (f : store) :
  coherent is_na c f ->
  snd (cached_run is_na now m c f) = after_run is_na m f /\
  coherent is_na (fst (cached_run is_na now m c f)) (ensured_store f).
Proof.
  intro Hc. unfold cached_run, after_run, script.
  rewrite !(bind_run _ _ _ _ _ (ensure_data_files_eq _)).
  rewrite (bind_run _ _ _ _ _ (load_existing_dataframes_eq _)).
  destruct (load_existing_dataframes_cached_eq now c
              (set_fs (ensured_store (fs (fresh f))) (fresh f)))
    as (c' & Hrun & Hc').
  - exact Hc.
  - reflexivity.
  - rewrite Hrun. cbn [fst snd]. split; [|exact Hc'].
    unfold view. reflexivity.
Qed.

(** X29.  Runs that submit nothing settle at once, when the cache of the
    reference frames holds nothing stale.  A run of the script in the
    student mode in which "Submit My Choices" is not pressed (whatever
    else is entered, at any time, the cached frames being those the files
    read as) leaves the files the script leaves when it reads them, and a
    cache that again holds nothing stale; a further such run, at any time,
    leaves the data directory exactly as the first left it: the files
    exist, and the availability that the first run may have initialised is
    read back non-empty and is not initialised again. *)
Theorem idle_runs_are_stable (inp inp' : student_input) (c : cache)
    (f : store) (now later : nat) :
  submit_choices_pressed inp = false ->
  submit_choices_pressed inp' = false ->
  coherent is_na c f ->
  let first := cached_run is_na now (Student_Section inp) c f in
  snd first = after_run is_na (Student_Section inp) f /\
  coherent is_na (fst first) (snd first) /\
  snd (cached_run is_na later (Student_Section inp') (fst first) (snd first))
  = snd first.
Proof.
  intros Hidle Hidle' Hc first.
  destruct (cached_run_coherent now (Student_Section inp) c f Hc)
    as [Hfiles Hcache].
  fold first in Hfiles, Hcache.
  destruct (initialized_files_are_stable f) as [Hens Hinit].
  cbv zeta in Hens, Hinit.
  pose proof (idle_run_files inp f Hidle) as Hfirst.
  assert (Hsame : coherent is_na (fst first) (snd first)).
  { rewrite Hfiles, Hfirst. unfold coherent. rewrite Hens.
    destruct Hcache as [Hs Hf].
    assert (Hsub : subjects_csv
                     (fs (snd (initialize_availability_if_empty
                                 (frames_of is_na (ensured_store f) []))))
                   = subjects_csv (ensured_store f) /\
                   faculty_list_csv
                     (fs (snd (initialize_availability_if_empty
                                 (frames_of is_na (ensured_store f) []))))
                   = faculty_list_csv (ensured_store f)).
    { pose proof (initialize_availability_frame
                    (frames_of is_na (ensured_store f) [])) as H.
      destruct (initialize_availability_if_empty _) as [r s'].
      destruct H as (H1 & H2 & _). now split. }
    destruct Hsub as [Hsub Hfac].
    rewrite ensured_store_twice in Hs, Hf.
    split; intros e He.
    - rewrite (Hs e He). unfold table_of. cbn [read_path]. now rewrite Hsub.
    - rewrite (Hf e He). unfold faculty_of. cbn [read_path]. now rewrite Hfac. }
  split; [exact Hfiles|]. split; [exact Hsame|].
  destruct (cached_run_coherent later (Student_Section inp') (fst first)
              (snd first) Hsame) as [Hfiles' _].
  rewrite Hfiles', Hfiles, Hfirst.
  rewrite (idle_run_files inp' _ Hidle'). rewrite Hens. exact Hinit.
Qed.

End ExtraIdle.

Lemma idle_runs_are_stable_witness :
  snd (cached_run Csv.default_na 10 (Student_Section browsing) empty_cache
                  scenario_start)
  = scenario_store /\
  snd (cached_run Csv.default_na 70 (Student_Section browsing)
         (fst (cached_run Csv.default_na 10 (Student_Section browsing)
                          empty_cache scenario_start))
         (snd (cached_run Csv.default_na 10 (Student_Section browsing)
                          empty_cache scenario_start)))
  = snd (cached_run Csv.default_na 10 (Student_Section browsing) empty_cache
                    scenario_start).
Proof.
  split; [reflexivity|].
  apply (idle_runs_are_stable Csv.default_na browsing browsing empty_cache
           scenario_start 10 70); try reflexivity.
  split; intros e H; discriminate H.
Defined.

(** With a stale cache the runs do not settle.  The reference files are
    stored while the cache still holds the empty frames read at time 0: a
    run at time 10 takes the frames from the cache and initialises
    nothing, a run at time 70 reads the files and initialises the
    availability. *)
Lemma stale_cache_delays_initialization :
  let first := cached_run Csv.default_na 10 (Student_Section browsing)
                          stale_cache scenario_start in
  let second := cached_run Csv.default_na 70 (Student_Section browsing)
                           (fst first) (snd first) in
  ~ coherent Csv.default_na stale_cache scenario_start /\
  faculty_availability_csv (snd first) = Some (Csv.Table AVAIL_COLUMNS []) /\
  snd second = scenario_store /\
  snd second <> snd first.
Proof.
  split; [|split; [reflexivity | split; [reflexivity | discriminate]]].
  intros [H _]. specialize (H _ eq_refl). discriminate H.
Qed.
